(** * Coswara data merger: a shallow embedding of [src/data_merger.py] and
      [run_merger.py], and the properties of the merge pipeline.

    The pipeline scans a two-level directory tree for nine named recordings
    per patient folder, joins that inventory with a metadata table on the
    patient identifier, derives a binary target from [covid_status], adds two
    completeness columns and writes the table to a CSV file.

    Modelling conventions.
    - A pandas frame is a list of column labels and a list of rows, each row
      a list of cells aligned with the labels.  A cell is a string, an
      integer, a boolean or the missing value NaN.  Numbers with a
      fractional part are outside the model; pandas stores the mapped
      target as the floats 0.0 and 1.0, which are represented by the
      integers 0 and 1.  The dtype of a column is read off its cells, as
      [read_csv] and [DataFrame] infer it: integers are int64, integers
      with missing values float64, anything with text is object.
    - A Python dict is an association list in insertion order.
    - The methods of [CoswaraDataMerger] run in a state-and-exception monad
      over the object's attributes and the outside world (the directory
      tree and files that are read, the file system effects, the lines
      printed on standard output).
    - The pandas and os calls are given as functions of their own
      ([pd_merge], [series_map], [os_path_join], [os_makedirs], ...), and
      the methods are transcribed statement by statement on top of them.
      [pd_merge] follows pandas 2: a numeric key column is not merged with
      a text one (ValueError), and a suffix may not make a label repeat
      (MergeError).  [sum(axis=1)] over a text cell is the TypeError of
      pandas 2, and over a block of int64 columns it wraps around in 64
      bits.
    - The disk is what lies under each path when the run starts.  A write
      is recorded in the list of effects and does not change what later
      reads see; the one exception is the directory that [os.makedirs] has
      just made, which [to_csv] finds in place.  [os.makedirs] and [to_csv]
      fail where the disk makes them fail: a regular file where a directory
      is needed, a directory where the file is to be written.  Permissions,
      symbolic links and a full disk are outside the model. *)

From Stdlib Require Import String Ascii List ZArith Bool Arith Lia.
Import ListNotations.
Set Warnings "-register-all".
Open Scope string_scope.
Open Scope list_scope.

(* ------------------------------------------------------------------ *)
(** ** Strings and paths *)

(** [s.replace(old, new)] for a non-empty [old]: occurrences are replaced
    from left to right, without overlap.  [skip] counts the characters of
    a matched occurrence that remain to be dropped. *)
Fixpoint replace_from (old new : string) (skip : nat) (s : string) : string :=
  match s with
  | EmptyString => EmptyString
  | String c s' =>
      match skip with
      | S k => replace_from old new k s'
      | O =>
          if prefix old s
          then (new ++ replace_from old new (String.length old - 1) s')%string
          else String c (replace_from old new 0 s')
      end
  end.

Definition replace (old new s : string) : string := replace_from old new 0 s.

(** [s.startswith(p)] *)
Definition startswith (p s : string) : bool := prefix p s.

Fixpoint endswith_sep (s : string) : bool :=
  match s with
  | EmptyString => false
  | String c EmptyString => Ascii.eqb c "/"
  | String _ s' => endswith_sep s'
  end.

(** [os.path.join(a, b)] of posixpath, for two components. *)
Definition os_path_join (a b : string) : string :=
  if startswith "/" b then b
  else if (String.eqb a "" || endswith_sep a)%bool then (a ++ b)%string
  else (a ++ "/" ++ b)%string.

(** [p[:p.rfind('/') + 1]] *)
Fixpoint upto_last_sep (p : string) : string :=
  match p with
  | EmptyString => EmptyString
  | String c p' =>
      match upto_last_sep p' with
      | EmptyString => if Ascii.eqb c "/" then "/" else EmptyString
      | h => String c h
      end
  end.

(** [s.rstrip('/')] *)
Fixpoint rstrip_sep (s : string) : string :=
  match s with
  | EmptyString => EmptyString
  | String c s' =>
      match rstrip_sep s' with
      | EmptyString => if Ascii.eqb c "/" then EmptyString else String c EmptyString
      | r => String c r
      end
  end.

(** [os.path.dirname(p)] of posixpath: the head up to the last separator,
    its trailing separators stripped unless it consists of separators. *)
Definition os_path_dirname (p : string) : string :=
  let head := upto_last_sep p in
  match rstrip_sep head with
  | EmptyString => head
  | stripped => stripped
  end.

(** [p.split('/')] *)
Fixpoint split_sep (p : string) : list string :=
  match p with
  | EmptyString => [EmptyString]
  | String c p' =>
      if Ascii.eqb c "/" then EmptyString :: split_sep p'
      else match split_sep p' with
           | [] => [String c EmptyString]
           | comp :: comps => String c comp :: comps
           end
  end.

(** The loop body of [os.path.normpath]: what a component does to the
    components kept so far (the last one kept comes first). *)
Definition norm_step (absolute : bool) (kept : list string) (comp : string) : list string :=
  if (String.eqb comp "" || String.eqb comp ".")%bool then kept
  else if String.eqb comp ".."
       then match kept with
            | [] => if absolute then [] else [".."]
            | top :: rest => if String.eqb top ".." then ".." :: kept else rest
            end
       else comp :: kept.

(** The place a path names, as [os.path.normpath] reduces it: whether it
    starts at the root, and its components, innermost first.  The working
    directory and the root have no component. *)
Definition place (p : string) : bool * list string :=
  let absolute := startswith "/" p in
  (absolute, fold_left (norm_step absolute) (split_sep p) []).

Definition place_eqb (a b : bool * list string) : bool :=
  (Bool.eqb (fst a) (fst b)
   && (fix same (x y : list string) : bool :=
         match x, y with
         | [], [] => true
         | c :: x', d :: y' => (String.eqb c d && same x' y')%bool
         | _, _ => false
         end) (snd a) (snd b))%bool.

(** The directories [os.makedirs(p)] goes through, outermost first: the
    heads of [p] by [os.path.dirname], then [p] itself. *)
Fixpoint heads (fuel : nat) (p : string) : list string :=
  match fuel with
  | O => [p]
  | S fuel' =>
      let h := os_path_dirname p in
      if (String.eqb h "" || String.eqb h p)%bool then [p]
      else heads fuel' h ++ [p]
  end.

Definition makedirs_chain (p : string) : list string := heads (String.length p) p.

(* ------------------------------------------------------------------ *)
(** ** Cells, dicts and frames *)

Inductive cell : Type :=
| VStr (s : string)
| VInt (z : Z)
| VBool (b : bool)
| VNaN.

Definition cell_eqb (a b : cell) : bool :=
  match a, b with
  | VStr s, VStr t => String.eqb s t
  | VInt x, VInt y => Z.eqb x y
  | VBool x, VBool y => Bool.eqb x y
  | VNaN, VNaN => true
  | _, _ => false
  end.

(** Python truth value of a cell (NaN is a non-zero float). *)
Definition truthy (c : cell) : bool :=
  match c with
  | VStr s => negb (String.eqb s "")
  | VInt z => negb (Z.eqb z 0)
  | VBool b => b
  | VNaN => true
  end.

(** [pd.notna] *)
Definition notna (c : cell) : bool :=
  match c with
  | VNaN => false
  | _ => true
  end.

Definition is_int (c : cell) : bool :=
  match c with
  | VInt _ => true
  | _ => false
  end.

Definition is_bool (c : cell) : bool :=
  match c with
  | VBool _ => true
  | _ => false
  end.

(** A number or a missing number: the cells of an int64 column, and of a
    float64 column when a value is missing. *)
Definition is_number (c : cell) : bool :=
  match c with
  | VInt _ | VNaN => true
  | _ => false
  end.

(** A Python dict with string keys, in insertion order. *)
Definition dict : Type := list (string * cell).

Fixpoint dict_get (d : dict) (k : string) : option cell :=
  match d with
  | [] => None
  | (k', v) :: d' => if String.eqb k' k then Some v else dict_get d' k
  end.

(** [d[k] = v]: an existing key keeps its place, a new key goes last. *)
Fixpoint dict_set (d : dict) (k : string) (v : cell) : dict :=
  match d with
  | [] => [(k, v)]
  | (k', v') :: d' =>
      if String.eqb k' k then (k', v) :: d' else (k', v') :: dict_set d' k v
  end.

(** [{**a, **b}] *)
Definition dict_update (a b : dict) : dict :=
  fold_left (fun acc kv => dict_set acc (fst kv) (snd kv)) b a.

Definition dict_keys (d : dict) : list string := map fst d.

Definition mem (k : string) (l : list string) : bool :=
  existsb (String.eqb k) l.

Record DataFrame : Type := mkDataFrame {
  columns : list string;
  rows : list (list cell)
}.

(** [len(df)] *)
Definition len (df : DataFrame) : nat := List.length (rows df).

(** [df.empty]: some axis has length zero. *)
Definition df_empty (df : DataFrame) : bool :=
  match columns df, rows df with
  | [], _ => true
  | _, [] => true
  | _, _ => false
  end.

(** Position of the first label equal to [k]. *)
Fixpoint index_of (k : string) (l : list string) : option nat :=
  match l with
  | [] => None
  | k' :: l' =>
      if String.eqb k' k then Some 0
      else match index_of k l' with
           | Some i => Some (S i)
           | None => None
           end
  end.

(** The cell of a row at a position; a short row reads as NaN. *)
Definition cell_at (r : list cell) (i : nat) : cell := nth i r VNaN.

(** The cell of a row under a label of the frame's header. *)
Definition row_get (cols : list string) (r : list cell) (k : string) : option cell :=
  match index_of k cols with
  | Some i => Some (cell_at r i)
  | None => None
  end.

(** [df[k]]: the column as a list of cells, [None] for the KeyError. *)
Definition getitem (df : DataFrame) (k : string) : option (list cell) :=
  match index_of k (columns df) with
  | Some i => Some (map (fun r => cell_at r i) (rows df))
  | None => None
  end.

Fixpoint set_nth (r : list cell) (i : nat) (v : cell) : list cell :=
  match r, i with
  | [], _ => []
  | _ :: r', O => v :: r'
  | c :: r', S j => c :: set_nth r' j v
  end.

(** [df[k] = values]: an existing column is overwritten in place, a new
    one is appended on the right.  [values] has one cell per row. *)
Definition setitem (df : DataFrame) (k : string) (values : list cell) : DataFrame :=
  match index_of k (columns df) with
  | Some i =>
      mkDataFrame (columns df)
        (map (fun rv => set_nth (fst rv) i (snd rv)) (combine (rows df) values))
  | None =>
      mkDataFrame (columns df ++ [k])
        (map (fun rv => fst rv ++ [snd rv]) (combine (rows df) values))
  end.

(** [df[k] = v] for a scalar [v], broadcast to every row. *)
Definition setitem_scalar (df : DataFrame) (k : string) (v : cell) : DataFrame :=
  setitem df k (map (fun _ => v) (rows df)).

(** [df[mask]] for a boolean mask with one entry per row. *)
Definition select_rows (df : DataFrame) (mask : list bool) : DataFrame :=
  mkDataFrame (columns df)
    (map fst (filter (fun rm => snd rm) (combine (rows df) mask))).

(** Labels of a list of dicts in order of first appearance. *)
Definition union_keys (records : list dict) : list string :=
  fold_left
    (fun acc d =>
       fold_left (fun acc' k => if mem k acc' then acc' else acc' ++ [k])
         (dict_keys d) acc)
    records [].

(** [pd.DataFrame(records)] for a list of dicts: the columns are the keys
    in order of first appearance, a key a record lacks reads as NaN. *)
Definition pd_DataFrame (records : list dict) : DataFrame :=
  let cols := union_keys records in
  mkDataFrame cols
    (map (fun d =>
            map (fun k => match dict_get d k with
                          | Some v => v
                          | None => VNaN
                          end) cols)
       records).

(** Every row has one cell per column. *)
Definition aligned (df : DataFrame) : Prop :=
  Forall (fun r => List.length r = List.length (columns df)) (rows df).

(* ------------------------------------------------------------------ *)
(** ** The outside world *)

(** A directory tree.  A regular file carries what [pd.read_csv] makes of
    it ([None] when it cannot be parsed); a directory lists its entries in
    the order in which [os.listdir] enumerates them. *)
Inductive node : Type :=
| File (parsed : option DataFrame)
| Dir (entries : list (string * node)).

(** The entry of a directory under a name. *)
Fixpoint lookup (name : string) (entries : list (string * node)) : option node :=
  match entries with
  | [] => None
  | (n, x) :: entries' => if String.eqb n name then Some x else lookup name entries'
  end.

(** [os.listdir] *)
Definition os_listdir (entries : list (string * node)) : list string :=
  map fst entries.

(** [os.path.isdir(os.path.join(dir, f))] for an entry name [f] of [dir]. *)
Definition isdir_in (entries : list (string * node)) (f : string) : bool :=
  match lookup f entries with
  | Some (Dir _) => true
  | _ => false
  end.

(** [os.path.exists(os.path.join(dir, f))] for a file name [f]. *)
Definition exists_in (entries : list (string * node)) (f : string) : bool :=
  match lookup f entries with
  | Some _ => true
  | None => false
  end.

(** The entries of a subdirectory, empty when [f] is none. *)
Definition subdir (entries : list (string * node)) (f : string) : list (string * node) :=
  match lookup f entries with
  | Some (Dir sub) => sub
  | _ => []
  end.

(** The content of a written CSV file: the header line and one line of
    fields per row ([to_csv] with [index=False]). *)
Record csv : Type := mkCsv {
  header : list string;
  lines : list (list cell)
}.

Definition to_csv (df : DataFrame) : csv := mkCsv (columns df) (rows df).

(** What the program does to the file system. *)
Inductive fs_effect : Type :=
| MakeDirs (path : string)
| WriteFile (path : string) (content : csv).

(** The lines printed on standard output, one constructor per [print] of
    the source, with the values that are formatted into the line. *)
Inductive message : Type :=
| MsgLoadingMetadata
| MsgMetadataShape (nrows ncols : nat)
| MsgColumns (cols : list string)
| MsgStatusDistribution
| MsgValueCounts (series : list cell)
| MsgSampleIds (ids : list cell)
| MsgScanning
| MsgFoundDateFolders (n : nat)
| MsgFoundPatients (n : nat)
| MsgSampleAudioIds (ids : list cell)
| MsgMerging
| MsgUsingColumn (col : string)
| MsgErrorNoIdColumn
| MsgAvailableColumns (cols : list string)
| MsgMergedShape (nrows ncols : nat)
| MsgStatusInMerged
| MsgErrorNoData
| MsgCreatingTarget
| MsgRecordsBefore (n : nat)
| MsgRecordsAfter (n : nat)
| MsgTargetDistribution
| MsgCovidPositive (n : Z)
| MsgCovidNegative (n : Z)
| MsgWarningNoStatus
| MsgAverageAudioTypes (total : Z) (count : nat)
| MsgSaved (path : string)
| MsgBanner
| MsgMetadataCsv (path : string)
| MsgAudioPath (path : string)
| MsgOutput (path : string)
| MsgBlank
| MsgNotFound (path : string)
| MsgProcessComplete
| MsgFinalCount (n : nat)
| MsgProcessFailed.

Inductive exn : Type :=
| FileNotFoundError (path : string)
| NotADirectoryError (path : string)
| IsADirectoryError (path : string)
| ParserError (path : string)
| FileExistsError (path : string)
| KeyError (key : string)
| AttributeError
| TypeError
| ValueError
| MergeError.

(** The state a method runs in: the attributes of [self], the disk that is
    read (what lies under each path), the file system effects and the
    printed lines so far. *)
Record state : Type := mkState {
  metadata_csv_path : string;
  audio_base_path : string;
  metadata_df : option DataFrame;
  audio_paths_df : option DataFrame;
  disk : string -> option node;
  effects : list fs_effect;
  stdout : list message
}.

Inductive result (A : Type) : Type :=
| Returned (a : A)
| Raised (e : exn).
Arguments Returned {A} a.
Arguments Raised {A} e.

Definition M (A : Type) : Type := state -> result A * state.

Definition ret {A} (a : A) : M A := fun st => (Returned a, st).

Definition bind {A B} (m : M A) (k : A -> M B) : M B :=
  fun st =>
    match m st with
    | (Returned a, st') => k a st'
    | (Raised e, st') => (Raised e, st')
    end.

Definition raise {A} (e : exn) : M A := fun st => (Raised e, st).

(** A pure computation that may fail, run inside a method. *)
Definition lift {A} (r : result A) : M A := fun st => (r, st).

Definition or_raise {A} (e : exn) (o : option A) : result A :=
  match o with
  | Some a => Returned a
  | None => Raised e
  end.

(** Reading the attributes of [self] and the disk. *)
Definition self_metadata_csv_path : M string :=
  fun st => (Returned (metadata_csv_path st), st).

Definition self_audio_base_path : M string :=
  fun st => (Returned (audio_base_path st), st).

Definition self_metadata_df : M (option DataFrame) :=
  fun st => (Returned (metadata_df st), st).

Definition self_audio_paths_df : M (option DataFrame) :=
  fun st => (Returned (audio_paths_df st), st).

Definition read_disk (path : string) : M (option node) :=
  fun st => (Returned (disk st path), st).

(** State updates. *)
Definition add_stdout (m : message) (st : state) : state :=
  mkState (metadata_csv_path st) (audio_base_path st) (metadata_df st)
    (audio_paths_df st) (disk st) (effects st) (stdout st ++ [m]).

Definition add_effect (e : fs_effect) (st : state) : state :=
  mkState (metadata_csv_path st) (audio_base_path st) (metadata_df st)
    (audio_paths_df st) (disk st) (effects st ++ [e]) (stdout st).

Definition with_metadata_df (df : DataFrame) (st : state) : state :=
  mkState (metadata_csv_path st) (audio_base_path st) (Some df)
    (audio_paths_df st) (disk st) (effects st) (stdout st).

Definition with_audio_paths_df (df : DataFrame) (st : state) : state :=
  mkState (metadata_csv_path st) (audio_base_path st) (metadata_df st)
    (Some df) (disk st) (effects st) (stdout st).

Definition print (m : message) : M unit :=
  fun st => (Returned tt, add_stdout m st).

Definition do_effect (e : fs_effect) : M unit :=
  fun st => (Returned tt, add_effect e st).

(** [self.metadata_df = df] and [self.audio_paths_df = df] *)
Definition set_metadata_df (df : DataFrame) : M unit :=
  fun st => (Returned tt, with_metadata_df df st).

Definition set_audio_paths_df (df : DataFrame) : M unit :=
  fun st => (Returned tt, with_audio_paths_df df st).

Declare Scope py_scope.
Delimit Scope py_scope with py.
Notation "x <- m ;; k" := (bind m (fun x => k))
  (at level 61, m at next level, right associativity) : py_scope.
Notation "m ;; k" := (bind m (fun _ => k))
  (at level 61, right associativity) : py_scope.
Open Scope py_scope.

(** [CoswaraDataMerger(metadata_csv_path, audio_base_path)] on a disk. *)
Definition init (metadata_csv audio_base : string) (d : string -> option node) : state :=
  mkState metadata_csv audio_base None None d [] [].

(** [pd.read_csv(path)] *)
Definition pd_read_csv (path : string) : M DataFrame :=
  found <- read_disk path ;;
  match found with
  | Some (File (Some df)) => ret df
  | Some (File None) => raise (ParserError path)
  | Some (Dir _) => raise (IsADirectoryError path)
  | None => raise (FileNotFoundError path)
  end.

(** [os.listdir(path)] together with the entries it names. *)
Definition listdir (path : string) : M (list (string * node)) :=
  found <- read_disk path ;;
  match found with
  | Some (Dir entries) => ret entries
  | Some (File _) => raise (NotADirectoryError path)
  | None => raise (FileNotFoundError path)
  end.

(** [df[k]], raising KeyError for a missing label. *)
Definition getitem_or_raise (df : DataFrame) (k : string) : M (list cell) :=
  lift (or_raise (KeyError k) (getitem df k)).

(** [series.head(n).tolist()] *)
Definition head (n : nat) (s : list cell) : list cell := firstn n s.

(** The error [os.makedirs(p, exist_ok=True)] stops on, for the chain of
    directories of [p]: the first regular file met on the way down stands
    where a directory is needed.  When it is [p] itself, [mkdir] finds the
    name taken; otherwise [mkdir] of the next directory fails below it. *)
Fixpoint makedirs_error (d : string -> option node) (chain : list string) : option exn :=
  match chain with
  | [] => None
  | p :: rest =>
      match d p with
      | Some (File _) =>
          Some (match rest with
                | [] => FileExistsError p
                | q :: _ => NotADirectoryError q
                end)
      | _ => makedirs_error d rest
      end
  end.

(** [os.makedirs(p, exist_ok=True)] *)
Definition os_makedirs (p : string) : M unit :=
  fun st =>
    match makedirs_error (disk st) (makedirs_chain p) with
    | Some e => (Raised e, st)
    | None => (Returned tt, add_effect (MakeDirs p) st)
    end.

(** The directory [create_final_dataset] makes for an output path. *)
Definition dir_of (path : string) : string :=
  match os_path_dirname path with
  | "" => "."
  | dir => dir
  end.

(** Whether [path] names a directory once the directory of [path] has been
    made: a directory of the disk, the working directory, the root or a
    directory above the working directory, or one of the directories that
    [os.makedirs] has just gone through (so [outdir/] and [outdir/.]). *)
Definition names_directory (d : string -> option node) (path : string) : bool :=
  match d path with
  | Some (Dir _) => true
  | _ =>
      match place path with
      | (_, []) => true
      | (_, ".." :: _) => true
      | pl => existsb (place_eqb pl) (map place (makedirs_chain (dir_of path)))
      end
  end.

(** [df.to_csv(path, index=False)] after the directory of [path] has been
    made: opening a directory for writing is an error, anything else is
    created or overwritten. *)
Definition df_to_csv (df : DataFrame) (path : string) : M unit :=
  fun st =>
    if names_directory (disk st) path
    then (Raised (IsADirectoryError path), st)
    else (Returned tt, add_effect (WriteFile path (to_csv df)) st).

(* ------------------------------------------------------------------ *)
(** ** [load_metadata] *)

Definition load_metadata : M DataFrame :=
  print MsgLoadingMetadata ;;
  df <- (path <- self_metadata_csv_path ;; pd_read_csv path) ;;
  set_metadata_df df ;;
  print (MsgMetadataShape (len df) (List.length (columns df))) ;;
  print (MsgColumns (columns df)) ;;
  match getitem df "covid_status" with
  | Some s => print MsgStatusDistribution ;; print (MsgValueCounts s)
  | None => ret tt
  end ;;
  match getitem df "id" with
  | Some s => print (MsgSampleIds (head 5 s))
  | None => ret tt
  end ;;
  ret df.

(* ------------------------------------------------------------------ *)
(** ** [find_audio_files] *)

Definition expected_audio_types : list string :=
  [ "breathing-deep.wav"; "breathing-shallow.wav";
    "cough-heavy.wav"; "cough-shallow.wav";
    "counting-normal.wav"; "counting-fast.wav";
    "vowel-a.wav"; "vowel-e.wav"; "vowel-o.wav" ].

(** [audio_type.replace('.wav', '').replace('-', '_')] *)
Definition path_key (audio_type : string) : string :=
  replace "-" "_" (replace ".wav" "" audio_type).

(** [f'has_{audio_type.replace(".wav", "").replace("-", "_")}'] *)
Definition has_key (audio_type : string) : string :=
  ("has_" ++ path_key audio_type)%string.

(** The body of the loop over [expected_audio_types] (lines 64 to 70):
    what one audio type does to the dict [audio_files]. *)
Definition check_audio_type (patient_path : string) (files : list (string * node))
    (audio_files : dict) (audio_type : string) : dict :=
  let audio_path := os_path_join patient_path audio_type in
  if exists_in files audio_type
  then dict_set (dict_set audio_files (path_key audio_type) (VStr audio_path))
         (has_key audio_type) (VInt 1)
  else dict_set audio_files (has_key audio_type) (VInt 0).

(** The loop over [expected_audio_types] for one patient folder: the dict
    [audio_files] it builds. *)
Definition check_audio_types (patient_path : string)
    (files : list (string * node)) : dict :=
  fold_left (check_audio_type patient_path files) expected_audio_types [].

(** [audio_files.get(k, 0)] *)
Definition dict_get_default (d : dict) (k : string) (default : cell) : cell :=
  match dict_get d k with
  | Some v => v
  | None => default
  end.

(** The body of the loop over [patient_folders]: the record appended to
    [audio_data], if any. *)
Definition scan_patient (date_path date_folder : string)
    (date_entries : list (string * node)) (patient_id : string) : list dict :=
  let patient_path := os_path_join date_path patient_id in
  let audio_files := check_audio_types patient_path (subdir date_entries patient_id) in
  if existsb (fun audio_type => truthy (dict_get_default audio_files (has_key audio_type) (VInt 0)))
       expected_audio_types
  then [ dict_update [("patient_id", VStr patient_id); ("date_folder", VStr date_folder)]
           audio_files ]
  else [].

(** The body of the loop over [date_folders]. *)
Definition scan_date (base_path : string) (base_entries : list (string * node))
    (date_folder : string) : list dict :=
  let date_path := os_path_join base_path date_folder in
  let date_entries := subdir base_entries date_folder in
  let patient_folders := filter (isdir_in date_entries) (os_listdir date_entries) in
  flat_map (scan_patient date_path date_folder date_entries) patient_folders.

Definition date_folders_of (base_entries : list (string * node)) : list string :=
  filter (isdir_in base_entries) (os_listdir base_entries).

(** The list [audio_data] after the two nested loops. *)
Definition audio_data (base_path : string) (base_entries : list (string * node)) : list dict :=
  flat_map (scan_date base_path base_entries) (date_folders_of base_entries).

Definition find_audio_files : M DataFrame :=
  print MsgScanning ;;
  base_entries <- (path <- self_audio_base_path ;; listdir path) ;;
  print (MsgFoundDateFolders (List.length (date_folders_of base_entries))) ;;
  base_path <- self_audio_base_path ;;
  let df := pd_DataFrame (audio_data base_path base_entries) in
  set_audio_paths_df df ;;
  print (MsgFoundPatients (len df)) ;;
  ids <- getitem_or_raise df "patient_id" ;;
  print (MsgSampleAudioIds (head 5 ids)) ;;
  ret df.

(* ------------------------------------------------------------------ *)
(** ** [merge_datasets] *)

Fixpoint remove_nth {A} (i : nat) (l : list A) : list A :=
  match l, i with
  | [], _ => []
  | _ :: l', O => l'
  | x :: l', S j => x :: remove_nth j l'
  end.

(** The suffix pandas gives a label that both sides of a merge carry. *)
Definition with_suffix (overlap : list string) (suffix c : string) : string :=
  if mem c overlap then (c ++ suffix)%string else c.

(** A key column of dtype int64 or float64. *)
Definition numeric_column (s : list cell) : bool :=
  match s with
  | [] => false
  | _ :: _ => forallb is_number s
  end.

(** A key column of dtype object that pandas infers as text (string or
    mixed): neither numbers nor booleans throughout, and no integer in it. *)
Definition text_column (s : list cell) : bool :=
  match s with
  | [] => false
  | _ :: _ =>
      (negb (forallb is_number s) && negb (forallb is_bool s)
       && negb (existsb is_int s))%bool
  end.

(** The check of the key dtypes: numbers are not merged with text. *)
Definition keys_refused (lk rk : list cell) : bool :=
  ((numeric_column lk && text_column rk) || (text_column lk && numeric_column rk))%bool.

(** Equality of two key cells, as Python compares the values: [True] is
    [1] and [False] is [0]; a missing key matches a missing key. *)
Definition key_eqb (a b : cell) : bool :=
  match a, b with
  | VBool x, VInt y => Z.eqb y (if x then 1 else 0)
  | VInt y, VBool x => Z.eqb y (if x then 1 else 0)
  | _, _ => cell_eqb a b
  end.

(** Whether renaming by [f] makes a label repeat an earlier one that its
    original did not repeat ([seen] and [renamed] hold the labels passed
    so far, before and after renaming). *)
Fixpoint new_repeat (f : string -> string) (seen renamed labels : list string) : bool :=
  match labels with
  | [] => false
  | c :: rest =>
      ((mem (f c) renamed && negb (mem c seen))
       || new_repeat f (c :: seen) (f c :: renamed) rest)%bool
  end.

(** [pd.merge(left, right, left_on=, right_on=, how='inner')] of pandas 2.
    Each left row is paired, in order, with the right rows whose key cell
    equals its own.  A key label shared by both sides is kept once (the
    right key column is dropped); any other label carried by both sides is
    suffixed [_x] on the left and [_y] on the right.  A missing key label
    is a KeyError; a numeric key column against a text one is a
    ValueError; a suffix that makes a label repeat another label of its
    side is a MergeError. *)
Definition pd_merge (left right : DataFrame) (left_on right_on : string) : result DataFrame :=
  match index_of left_on (columns left), index_of right_on (columns right) with
  | Some li, Some ri =>
      let shared := String.eqb left_on right_on in
      let keep (A : Type) (l : list A) := if shared then remove_nth ri l else l in
      let rcols := keep string (columns right) in
      let overlap :=
        filter (fun c => mem c rcols) (columns left) in
      if keys_refused (map (fun l => cell_at l li) (rows left))
           (map (fun r => cell_at r ri) (rows right))
      then Raised ValueError
      else if (new_repeat (with_suffix overlap "_x") [] [] (columns left)
               || new_repeat (with_suffix overlap "_y") [] [] rcols)%bool
      then Raised MergeError
      else Returned
            (mkDataFrame
             (map (with_suffix overlap "_x") (columns left)
              ++ map (with_suffix overlap "_y") rcols)
             (flat_map
                (fun l =>
                   map (fun r => l ++ keep cell r)
                     (filter (fun r => key_eqb (cell_at l li) (cell_at r ri))
                        (rows right)))
                (rows left)))
  | None, _ => Raised (KeyError left_on)
  | _, None => Raised (KeyError right_on)
  end.

(** [self.metadata_df] and [self.audio_paths_df] used as frames. *)
Definition the_metadata_df : M DataFrame :=
  df <- self_metadata_df ;; lift (or_raise AttributeError df).

Definition the_audio_paths_df : M DataFrame :=
  df <- self_audio_paths_df ;; lift (or_raise AttributeError df).

Definition patient_id_columns : list string := ["id"; "d"; "patient_id"].

(** The loop that tries the candidate labels in order and stops at the
    first one the metadata carries. *)
Fixpoint find_left_column (candidates cols : list string) : M (option string) :=
  match candidates with
  | [] => ret None
  | col :: rest =>
      if mem col cols
      then print (MsgUsingColumn col) ;; ret (Some col)
      else find_left_column rest cols
  end.

(** The two guarded loads at the head of [merge_datasets]. *)
Definition ensure_loaded : M unit :=
  cached <- self_metadata_df ;;
  match cached with
  | None => _ <- load_metadata ;; ret tt
  | Some _ => ret tt
  end ;;
  cached <- self_audio_paths_df ;;
  match cached with
  | None => _ <- find_audio_files ;; ret tt
  | Some _ => ret tt
  end.

Definition merge_datasets : M (option DataFrame) :=
  ensure_loaded ;;
  print MsgMerging ;;
  metadata <- the_metadata_df ;;
  left_column <- find_left_column patient_id_columns (columns metadata) ;;
  match left_column with
  | None =>
      print MsgErrorNoIdColumn ;;
      print (MsgAvailableColumns (columns metadata)) ;;
      ret None
  | Some left_column =>
      audio <- the_audio_paths_df ;;
      merged_df <- lift (pd_merge metadata audio left_column "patient_id") ;;
      print (MsgMergedShape (len merged_df) (List.length (columns merged_df))) ;;
      match getitem merged_df "covid_status" with
      | Some s => print MsgStatusInMerged ;; print (MsgValueCounts s)
      | None => ret tt
      end ;;
      ret (Some merged_df)
  end.

(* ------------------------------------------------------------------ *)
(** ** [create_final_dataset] *)

Definition covid_mapping : list (string * Z) :=
  [ ("positive_mild", 1%Z);
    ("positive_moderate", 1%Z);
    ("positive_asymp", 1%Z);
    ("healthy", 0%Z);
    ("no_resp_illness_exposed", 0%Z);
    ("recovered_full", 0%Z) ].

Fixpoint mapping_get (m : list (string * Z)) (k : string) : option Z :=
  match m with
  | [] => None
  | (k', v) :: m' => if String.eqb k' k then Some v else mapping_get m' k
  end.

(** One cell of [series.map(mapping)]: a value that is no key of the
    mapping (a missing one included) maps to NaN. *)
Definition map_cell (m : list (string * Z)) (c : cell) : cell :=
  match c with
  | VStr s => match mapping_get m s with
              | Some v => VInt v
              | None => VNaN
              end
  | _ => VNaN
  end.

Definition series_map (m : list (string * Z)) (s : list cell) : list cell :=
  map (map_cell m) s.

(** The number a cell adds to a sum: NaN is skipped, text cannot be added
    to a number. *)
Definition summand (c : cell) : option Z :=
  match c with
  | VInt z => Some z
  | VBool b => Some (if b then 1%Z else 0%Z)
  | VNaN => Some 0%Z
  | VStr _ => None
  end.

Fixpoint sum_cells (s : list cell) : option Z :=
  match s with
  | [] => Some 0%Z
  | c :: s' =>
      match summand c, sum_cells s' with
      | Some z, Some t => Some (z + t)%Z
      | _, _ => None
      end
  end.

(** [series.sum()].  The pipeline sums the target column only, whose cells
    are 0 and 1: the sum is the number of ones, which a 64-bit integer
    holds for every frame that fits in memory, so it is written without
    the wrap-around. *)
Definition series_sum (s : list cell) : M Z :=
  lift (or_raise TypeError (sum_cells s)).

(** [df[labels]] for labels of the frame: the cells of each row under the
    labels, in their order. *)
Definition select_columns (df : DataFrame) (labels : list string) : list (list cell) :=
  map (fun r =>
         map (fun k => match row_get (columns df) r k with
                       | Some c => c
                       | None => VNaN
                       end) labels)
    (rows df).

(** [.all(axis=1)] *)
Definition all_axis1 (sub : list (list cell)) : list cell :=
  map (fun r => VBool (forallb truthy r)) sub.

Fixpoint sum_rows (sub : list (list cell)) : option (list Z) :=
  match sub with
  | [] => Some []
  | r :: sub' =>
      match sum_cells r, sum_rows sub' with
      | Some z, Some zs => Some (z :: zs)
      | _, _ => None
      end
  end.

(** What is left of a sum in a 64-bit signed integer. *)
Definition wrap64 (z : Z) : Z := ((z + 2 ^ 63) mod 2 ^ 64 - 2 ^ 63)%Z.

(** A block of int64 columns: every cell is an integer. *)
Definition int_block (sub : list (list cell)) : bool := forallb (forallb is_int) sub.

(** How a row sum of a block is stored: a block of int64 columns is summed
    in int64, where the sum wraps around; with a boolean or a missing
    value in the block pandas adds Python numbers or floats, and the sum
    is the plain one (the rounding of floats is outside the model). *)
Definition stored_sum (sub : list (list cell)) (z : Z) : Z :=
  if int_block sub then wrap64 z else z.

(** [.sum(axis=1)] *)
Definition sum_axis1 (sub : list (list cell)) : M (list Z) :=
  lift (or_raise TypeError (option_map (map (stored_sum sub)) (sum_rows sub))).

Definition Zsum (l : list Z) : Z := fold_right Z.add 0%Z l.

(** The branch that labels the rows (lines 139 to 167). *)
Definition add_target (merged_df : DataFrame) : M DataFrame :=
  match getitem merged_df "covid_status" with
  | Some status =>
      print MsgCreatingTarget ;;
      let merged_df := setitem merged_df "target" (series_map covid_mapping status) in
      print (MsgRecordsBefore (len merged_df)) ;;
      target <- getitem_or_raise merged_df "target" ;;
      let merged_df := select_rows merged_df (map notna target) in
      print (MsgRecordsAfter (len merged_df)) ;;
      print MsgTargetDistribution ;;
      target <- getitem_or_raise merged_df "target" ;;
      print (MsgValueCounts target) ;;
      positive <- series_sum target ;;
      print (MsgCovidPositive positive) ;;
      print (MsgCovidNegative (Z.of_nat (len merged_df) - positive)) ;;
      ret merged_df
  | None =>
      print MsgWarningNoStatus ;;
      ret (setitem_scalar merged_df "target" (VInt 0))
  end.

(** The derived completeness columns (lines 170 to 174). *)
Definition add_derived_features (merged_df : DataFrame) : M DataFrame :=
  let audio_has_columns := filter (startswith "has_") (columns merged_df) in
  match audio_has_columns with
  | [] => ret merged_df
  | _ :: _ =>
      let merged_df :=
        setitem merged_df "has_all_audio"
          (all_axis1 (select_columns merged_df audio_has_columns)) in
      totals <- sum_axis1 (select_columns merged_df audio_has_columns) ;;
      let merged_df := setitem merged_df "num_audio_types" (map VInt totals) in
      print (MsgAverageAudioTypes (Zsum totals) (len merged_df)) ;;
      ret merged_df
  end.

(** The write at the end (lines 176 to 180). *)
Definition save (merged_df : DataFrame) (output_path : option string) : M unit :=
  match output_path with
  | None => ret tt
  | Some "" => ret tt
  | Some path =>
      os_makedirs (match os_path_dirname path with
                   | "" => "."
                   | dir => dir
                   end) ;;
      df_to_csv merged_df path ;;
      print (MsgSaved path)
  end.

Definition create_final_dataset (output_path : option string) : M (option DataFrame) :=
  merged <- merge_datasets ;;
  match merged with
  | None => print MsgErrorNoData ;; ret None
  | Some merged_df =>
      if df_empty merged_df
      then print MsgErrorNoData ;; ret None
      else
        merged_df <- add_target merged_df ;;
        merged_df <- add_derived_features merged_df ;;
        save merged_df output_path ;;
        ret (Some merged_df)
  end.

(* ------------------------------------------------------------------ *)
(** ** [run_merger.main] *)

Definition METADATA_CSV : string := "combined_data.csv".
Definition AUDIO_BASE_PATH : string := "Extracted_data".
Definition OUTPUT_PATH : string := "merged_coswara_dataset.csv".

(** [os.path.exists] *)
Definition os_path_exists (path : string) : M bool :=
  found <- read_disk path ;;
  ret (match found with Some _ => true | None => false end).

(** [merger = CoswaraDataMerger(metadata_csv_path, audio_base_path)] *)
Definition construct (metadata_csv audio_base : string) : M unit :=
  fun st =>
    (Returned tt, mkState metadata_csv audio_base None None (disk st) (effects st) (stdout st)).

Definition main : M unit :=
  print MsgBanner ;;
  print (MsgMetadataCsv METADATA_CSV) ;;
  print (MsgAudioPath AUDIO_BASE_PATH) ;;
  print (MsgOutput OUTPUT_PATH) ;;
  print MsgBlank ;;
  found <- os_path_exists METADATA_CSV ;;
  if negb found then print (MsgNotFound METADATA_CSV)
  else
    found <- os_path_exists AUDIO_BASE_PATH ;;
    if negb found then print (MsgNotFound AUDIO_BASE_PATH)
    else
      construct METADATA_CSV AUDIO_BASE_PATH ;;
      final_dataset <- create_final_dataset (Some OUTPUT_PATH) ;;
      match final_dataset with
      | Some final =>
          print MsgProcessComplete ;;
          print (MsgFinalCount (len final)) ;;
          match getitem final "target" with
          | Some target =>
              covid_positive <- series_sum target ;;
              print (MsgCovidPositive covid_positive) ;;
              print (MsgCovidNegative (Z.of_nat (len final) - covid_positive))
          | None => ret tt
          end
      | None => print MsgProcessFailed
      end.

(* ------------------------------------------------------------------ *)
(** * Definitions for the statements *)

(** ** Records of the scan *)

(** The dict built for one patient folder, entry by entry. *)
Definition audio_entries (patient_path : string) (files : list (string * node))
    (audio_type : string) : dict :=
  if exists_in files audio_type
  then [ (path_key audio_type, VStr (os_path_join patient_path audio_type));
         (has_key audio_type, VInt 1) ]
  else [ (has_key audio_type, VInt 0) ].

(** Both keys an audio type may put into the dict. *)
Definition audio_keys (audio_type : string) : list string :=
  [path_key audio_type; has_key audio_type].

Fixpoint distinct (l : list string) : bool :=
  match l with
  | [] => true
  | x :: l' => (negb (mem x l') && distinct l')%bool
  end.

(** The record appended for a qualifying patient folder, written out. *)
Definition audio_record (patient_path patient_id date_folder : string)
    (files : list (string * node)) : dict :=
  [("patient_id", VStr patient_id); ("date_folder", VStr date_folder)]
  ++ flat_map (audio_entries patient_path files) expected_audio_types.

(** The value of a presence flag. *)
Definition flag (present : bool) : cell := VInt (if present then 1 else 0).

(** The nine types give eighteen keys: no two types share one, and no
    path key is a flag key. *)
Definition keys_separate : bool :=
  forallb
    (fun t =>
       forallb
         (fun t' =>
            (implb (String.eqb (path_key t) (path_key t')) (String.eqb t t')
             && implb (String.eqb (has_key t) (has_key t')) (String.eqb t t')
             && negb (String.eqb (path_key t) (has_key t')))%bool)
         expected_audio_types)
    expected_audio_types.

(** A record of the scan. *)
Definition is_audio_record (rec : dict) : Prop :=
  exists patient_path p d fs, rec = audio_record patient_path p d fs.

(** ** Frames, rows and fields *)

Definition add_keys (acc ks : list string) : list string :=
  fold_left (fun acc' k => if mem k acc' then acc' else acc' ++ [k]) ks acc.

(** The row a record gives under a header. *)
Definition record_row (cols : list string) (d : dict) : list cell :=
  map (fun k => match dict_get d k with
                | Some v => v
                | None => VNaN
                end) cols.

(** The field of a row under a label: a missing cell, like a missing
    column, is no field. *)
Definition field (df : DataFrame) (r : list cell) (k : string) : option cell :=
  match row_get (columns df) r k with
  | Some VNaN => None
  | found => found
  end.

(** The cells of a row under the nine flag labels. *)
Definition flag_cells (df : DataFrame) (r : list cell) : list cell :=
  map (fun t => match row_get (columns df) r (has_key t) with
                | Some c => c
                | None => VNaN
                end) expected_audio_types.

(** The header and a row after [df[k] = ...]. *)
Definition put_cols (cols : list string) (k : string) : list string :=
  match index_of k cols with
  | Some _ => cols
  | None => cols ++ [k]
  end.

Definition put (cols : list string) (k : string) (r : list cell) (v : cell) : list cell :=
  match index_of k cols with
  | Some i => set_nth r i v
  | None => r ++ [v]
  end.

(** The cells of a row under a list of labels. *)
Definition sel (cols : list string) (r : list cell) (labels : list string) : list cell :=
  map (fun k => match row_get cols r k with
                | Some c => c
                | None => VNaN
                end) labels.

Definition is_one (c : cell) : bool := cell_eqb c (VInt 1).

(** ** The frame after each step of [create_final_dataset] *)

(** The target of a joined row: its status through the mapping, or 0 when
    the frame has no status column. *)
Definition target_of (cols : list string) (r : list cell) : cell :=
  match row_get cols r "covid_status" with
  | Some c => map_cell covid_mapping c
  | None => VInt 0
  end.

(** The frame [add_target] returns: the rows with a target, each with its
    target set. *)
Definition labelled (merged : DataFrame) : DataFrame :=
  mkDataFrame (put_cols (columns merged) "target")
    (map (fun r => put (columns merged) "target" r (target_of (columns merged) r))
       (filter (fun r => notna (target_of (columns merged) r)) (rows merged))).

(** The labels [audio_has_columns] selects. *)
Definition has_columns (df : DataFrame) : list string :=
  filter (startswith "has_") (columns df).

(** The frame after line 172. *)
Definition with_has_all_audio (df : DataFrame) : DataFrame :=
  setitem df "has_all_audio"
    (map (fun r => VBool (forallb truthy (sel (columns df) r (has_columns df)))) (rows df)).

Definition row_total (cols labels : list string) (r : list cell) : Z :=
  match sum_cells (sel cols r labels) with
  | Some z => z
  | None => 0%Z
  end.

(** The header after line 172. *)
Definition columns_172 (df : DataFrame) : list string :=
  columns (with_has_all_audio df).

(** The frame after line 173, when every row can be summed. *)
Definition derived (df : DataFrame) : DataFrame :=
  let df1 := with_has_all_audio df in
  setitem df1 "num_audio_types"
    (map (fun r => VInt (stored_sum (select_columns df1 (has_columns df))
                           (row_total (columns df1) (has_columns df) r)))
       (rows df1)).

(** Every row of the frame after line 172 can be summed under the
    selected labels. *)
Definition summable (df : DataFrame) : bool :=
  forallb (fun r => match sum_cells (sel (columns (with_has_all_audio df)) r
                                       (has_columns df)) with
                    | Some _ => true
                    | None => false
                    end)
    (rows (with_has_all_audio df)).

(** The frame [create_final_dataset] returns for a joined frame. *)
Definition final_table (merged : DataFrame) : DataFrame :=
  match has_columns (labelled merged) with
  | [] => labelled merged
  | _ :: _ => derived (labelled merged)
  end.

(** Whether the sum of line 173 succeeds for a joined frame. *)
Definition can_sum (merged : DataFrame) : bool :=
  match has_columns (labelled merged) with
  | [] => true
  | _ :: _ => summable (labelled merged)
  end.

(** The file system effects of the write at the end. *)
Definition save_effects (output_path : option string) (df : DataFrame) : list fs_effect :=
  match output_path with
  | None => []
  | Some "" => []
  | Some path =>
      [ MakeDirs (match os_path_dirname path with
                  | "" => "."
                  | dir => dir
                  end);
        WriteFile path (to_csv df) ]
  end.

(** The error the write at the end stops on, if any, on a disk. *)
Definition save_error (d : string -> option node) (output_path : option string) : option exn :=
  match output_path with
  | None => None
  | Some "" => None
  | Some path =>
      match makedirs_error d (makedirs_chain (dir_of path)) with
      | Some e => Some e
      | None => if names_directory d path then Some (IsADirectoryError path) else None
      end
  end.

(** What a write that stops on an error has done by then: the directory
    is made when it is [to_csv] that fails. *)
Definition made_dirs (d : string -> option node) (output_path : option string) : list fs_effect :=
  match output_path with
  | None => []
  | Some "" => []
  | Some path =>
      match makedirs_error d (makedirs_chain (dir_of path)) with
      | Some _ => []
      | None => [MakeDirs (dir_of path)]
      end
  end.

(** What the write at the end makes of the outcome a run has without it:
    a frame that would be returned is not when the write stops on an
    error. *)
Definition with_write (r : result (option DataFrame)) (err : option exn)
    : result (option DataFrame) :=
  match r, err with
  | Returned (Some _), Some e => Raised e
  | _, _ => r
  end.

(** The file system effects of a run with an output path, from the outcome
    it has without one. *)
Definition write_effects (d : string -> option node) (output_path : option string)
    (r : result (option DataFrame)) : list fs_effect :=
  match r with
  | Returned (Some final) =>
      match save_error d output_path with
      | None => save_effects output_path final
      | Some _ => made_dirs d output_path
      end
  | _ => []
  end.

(** The line the write prints. *)
Definition write_lines (d : string -> option node) (output_path : option string)
    (r : result (option DataFrame)) : list message :=
  match r, output_path with
  | Returned (Some _), Some (String c path) =>
      match save_error d output_path with
      | None => [MsgSaved (String c path)]
      | Some _ => []
      end
  | _, _ => []
  end.

(** The write and the return at the end of [create_final_dataset]. *)
Definition save_then (final : DataFrame) (output_path : option string)
    : M (option DataFrame) :=
  save final output_path ;; ret (Some final).

(** What [main] does with the outcome of [create_final_dataset]: how it
    ends and the lines it prints. *)
Definition main_tail (r : result (option DataFrame)) : result unit * list message :=
  match r with
  | Returned (Some final) =>
      match getitem final "target" with
      | Some target =>
          match sum_cells target with
          | Some positive =>
              (Returned tt,
               [MsgProcessComplete; MsgFinalCount (len final);
                MsgCovidPositive positive;
                MsgCovidNegative (Z.of_nat (len final) - positive)])
          | None => (Raised TypeError, [MsgProcessComplete; MsgFinalCount (len final)])
          end
      | None => (Returned tt, [MsgProcessComplete; MsgFinalCount (len final)])
      end
  | Returned None => (Returned tt, [MsgProcessFailed])
  | Raised e => (Raised e, [])
  end.

(** ** Runs and their states *)

(** A computation that writes no file: the effects stay as they are. *)
Definition silent {A} (m : M A) : Prop :=
  forall st r st', m st = (r, st') ->
    effects st' = effects st /\ disk st' = disk st
    /\ metadata_csv_path st' = metadata_csv_path st
    /\ audio_base_path st' = audio_base_path st.

(** Where the frames come from once both are loaded. *)
Definition metadata_source (st : state) (md : DataFrame) : Prop :=
  metadata_df st = Some md
  \/ (metadata_df st = None
      /\ disk st (metadata_csv_path st) = Some (File (Some md))).

Definition inventory_source (st : state) (inv : DataFrame) : Prop :=
  audio_paths_df st = Some inv
  \/ (audio_paths_df st = None
      /\ exists entries,
           disk st (audio_base_path st) = Some (Dir entries)
           /\ inv = pd_DataFrame (audio_data (audio_base_path st) entries)
           /\ audio_data (audio_base_path st) entries <> []).

(** The frames a run works on are aligned: the cached ones and the one
    [read_csv] parses. *)
Definition wf_state (st : state) : Prop :=
  (forall md, metadata_source st md -> aligned md)
  /\ (forall inv, audio_paths_df st = Some inv -> aligned inv).

(** The candidate labels in the order the specification gives them. *)
Definition first_candidate (cols : list string) : option string :=
  if mem "id" cols then Some "id"
  else if mem "d" cols then Some "d"
  else if mem "patient_id" cols then Some "patient_id"
  else None.

(** ** Labels and the status mapping *)

(** A status cell that the mapping knows. *)
Definition mapped (c : cell) : bool := notna (map_cell covid_mapping c).

(** The six recognised categories. *)
Definition recognized : list string :=
  [ "positive_mild"; "positive_moderate"; "positive_asymp";
    "healthy"; "no_resp_illness_exposed"; "recovered_full" ].

(** The mapping as the specification words it. *)
Definition spec_target (s : string) : option Z :=
  if mem s ["positive_mild"; "positive_moderate"; "positive_asymp"] then Some 1%Z
  else if mem s ["healthy"; "no_resp_illness_exposed"; "recovered_full"] then Some 0%Z
  else None.

(** Every label an inventory can carry. *)
Definition inventory_labels : list string :=
  ["patient_id"; "date_folder"] ++ flat_map audio_keys expected_audio_types.

Definition flag_labels : list string := map has_key expected_audio_types.

(** What the fixed labels look like: a flag label starts with [has_], no
    other inventory label does, with or without a merge suffix; and the
    labels the pipeline adds are no flag labels. *)
Definition labels_checked : bool :=
  (forallb (fun t => startswith "has_" (has_key t)
                     && negb (startswith "has_" (path_key t))) expected_audio_types
   && forallb (fun c => startswith "has_" c
                        || (negb (startswith "has_" (c ++ "_x"))
                            && negb (startswith "has_" (c ++ "_y"))))
        inventory_labels
   && negb (mem "has_all_audio" flag_labels)
   && negb (mem "num_audio_types" flag_labels)
   && negb (mem "target" flag_labels)
   && negb (mem "patient_id" flag_labels)
   && negb (startswith "has_" "target")
   && negb (startswith "has_" "num_audio_types")
   && negb (startswith "has_" "patient_id"))%bool.

(** A frame whose [has_] columns are the nine flag columns, with a 0/1
    flag in each. *)
Definition flag_frame (df : DataFrame) : Prop :=
  has_columns df = flag_labels
  /\ aligned df
  /\ forall m, In m (rows df) ->
       forall t, In t expected_audio_types ->
         exists b, row_get (columns df) m (has_key t) = Some (flag b).

(** ** Two runs side by side *)

(** Two states that agree on the two paths [pm] and [pa] the pipeline
    reads (the metadata file and the audio base), and whose effects
    and output have grown by the same lists since [e1], [e2] and [o1],
    [o2]; [strong] adds that the two objects have the same attributes. *)
Definition agree (pm pa : string) (strong : bool) (e1 e2 : list fs_effect) (o1 o2 : list message)
    (s1 s2 : state) : Prop :=
  disk s1 pm = disk s2 pm /\ disk s1 pa = disk s2 pa
  /\ (exists es, effects s1 = e1 ++ es /\ effects s2 = e2 ++ es)
  /\ (exists ms, stdout s1 = o1 ++ ms /\ stdout s2 = o2 ++ ms)
  /\ (strong = true ->
      metadata_csv_path s1 = pm /\ metadata_csv_path s2 = pm
      /\ audio_base_path s1 = pa /\ audio_base_path s2 = pa
      /\ metadata_df s1 = metadata_df s2
      /\ audio_paths_df s1 = audio_paths_df s2).

(** A computation that cannot tell such states apart. *)
Definition sim (pm pa : string) (strong : bool) {A} (m : M A) : Prop :=
  forall e1 e2 o1 o2 s1 s2,
    agree pm pa strong e1 e2 o1 o2 s1 s2 ->
    fst (m s1) = fst (m s2)
    /\ agree pm pa strong e1 e2 o1 o2 (snd (m s1)) (snd (m s2)).

(** What a run added to the effects and to the output. *)
Definition new_effects (before after : state) : list fs_effect :=
  skipn (List.length (effects before)) (effects after).

Definition new_stdout (before after : state) : list message :=
  skipn (List.length (stdout before)) (stdout after).

(** The content a list of effects leaves in the file at [path]. *)
Definition written (path : string) (es : list fs_effect) : option csv :=
  fold_left
    (fun content e =>
       match e with
       | WriteFile p c => if String.eqb p path then Some c else content
       | MakeDirs _ => content
       end)
    es None.

(** ** Example disks *)

(** A disk with one date folder: patient [A] has one expected recording,
    folder [B] has none of them. *)
Definition demo_tree : list (string * node) :=
  [ ("20200413",
     Dir [ ("A", Dir [("cough-heavy.wav", File None)]);
           ("B", Dir [("notes.txt", File None)]) ]);
    ("README.md", File None) ].

Definition demo_metadata : DataFrame :=
  mkDataFrame ["id"; "covid_status"]
    [ [VStr "A"; VStr "positive_mild"]; [VStr "B"; VStr "healthy"] ].

Definition demo_disk (path : string) : option node :=
  if String.eqb path METADATA_CSV then Some (File (Some demo_metadata))
  else if String.eqb path AUDIO_BASE_PATH then Some (Dir demo_tree)
  else None.

Definition demo_state : state := init METADATA_CSV AUDIO_BASE_PATH demo_disk.

(** A metadata file without any of the three identifier columns. *)
Definition no_id_metadata : DataFrame :=
  mkDataFrame ["participant"; "covid_status"] [ [VStr "A"; VStr "healthy"] ].

Definition no_id_disk (path : string) : option node :=
  if String.eqb path METADATA_CSV then Some (File (Some no_id_metadata))
  else if String.eqb path AUDIO_BASE_PATH then Some (Dir demo_tree)
  else None.

Definition no_id_state : state := init METADATA_CSV AUDIO_BASE_PATH no_id_disk.

Definition demo_final : DataFrame :=
  Eval vm_compute in
    match fst (create_final_dataset (Some OUTPUT_PATH) demo_state) with
    | Returned (Some final) => final
    | _ => mkDataFrame [] []
    end.

Definition demo_final_state : state :=
  snd (create_final_dataset (Some OUTPUT_PATH) demo_state).

(** One patient in the metadata, recorded on two dates. *)
Definition fan_out_tree : list (string * node) :=
  [ ("20200413", Dir [("A", Dir [("cough-heavy.wav", File None)])]);
    ("20200414", Dir [("A", Dir [("cough-heavy.wav", File None)])]) ].

Definition fan_out_metadata : DataFrame :=
  mkDataFrame ["id"; "covid_status"] [ [VStr "A"; VStr "healthy"] ].

Definition fan_out_disk (path : string) : option node :=
  if String.eqb path METADATA_CSV then Some (File (Some fan_out_metadata))
  else if String.eqb path AUDIO_BASE_PATH then Some (Dir fan_out_tree)
  else None.

Definition fan_out_state : state := init METADATA_CSV AUDIO_BASE_PATH fan_out_disk.





(** The scenario of the specification: three patients in the metadata,
    recordings of two of them. *)
Definition scenario_tree : list (string * node) :=
  [ ("20200413",
     Dir [ ("A", Dir [("cough-heavy.wav", File None)]);
           ("B", Dir [("cough-heavy.wav", File None)]) ]) ].

Definition scenario_metadata : DataFrame :=
  mkDataFrame ["id"; "covid_status"]
    [ [VStr "A"; VStr "healthy"];
      [VStr "B"; VStr "positive_mild"];
      [VStr "C"; VStr "under_validation"] ].

Definition scenario_disk (path : string) : option node :=
  if String.eqb path METADATA_CSV then Some (File (Some scenario_metadata))
  else if String.eqb path AUDIO_BASE_PATH then Some (Dir scenario_tree)
  else None.

Definition scenario_state : state := init METADATA_CSV AUDIO_BASE_PATH scenario_disk.

(** A metadata table with a column of its own that starts with [has_]. *)
Definition fever_metadata : DataFrame :=
  mkDataFrame ["id"; "covid_status"; "has_fever"]
    [ [VStr "A"; VStr "healthy"; VInt 1] ].

Definition fever_disk (path : string) : option node :=
  if String.eqb path METADATA_CSV then Some (File (Some fever_metadata))
  else if String.eqb path AUDIO_BASE_PATH then Some (Dir demo_tree)
  else None.

Definition fever_state : state := init METADATA_CSV AUDIO_BASE_PATH fever_disk.

(** ** The entry point and repeated calls *)

(** The state after the five lines [main] prints first. *)
Definition banner (st : state) : state :=
  add_stdout MsgBlank
    (add_stdout (MsgOutput OUTPUT_PATH)
       (add_stdout (MsgAudioPath AUDIO_BASE_PATH)
          (add_stdout (MsgMetadataCsv METADATA_CSV)
             (add_stdout MsgBanner st)))).

(** The state in which [main] calls [create_final_dataset]: a fresh merger
    on the two fixed paths. *)
Definition constructed (st : state) : state :=
  mkState METADATA_CSV AUDIO_BASE_PATH None None (disk st) (effects st)
    (stdout (banner st)).

(** The same object and history on another disk. *)
Definition with_disk (d : string -> option node) (st : state) : state :=
  mkState (metadata_csv_path st) (audio_base_path st) (metadata_df st)
    (audio_paths_df st) d (effects st) (stdout st).

(** A computation that leaves the two cached tables of the object alone. *)
Definition keeps_tables {A} (m : M A) : Prop :=
  forall st r st', m st = (r, st') ->
    metadata_df st' = metadata_df st /\ audio_paths_df st' = audio_paths_df st.

(** The lines [merge_datasets] prints once both frames are there. *)
Definition merge_lines (md inv : DataFrame) : list message :=
  MsgMerging ::
  match first_candidate (columns md) with
  | None => [MsgErrorNoIdColumn; MsgAvailableColumns (columns md)]
  | Some c =>
      MsgUsingColumn c ::
      match pd_merge md inv c "patient_id" with
      | Returned merged =>
          MsgMergedShape (len merged) (List.length (columns merged)) ::
          match getitem merged "covid_status" with
          | Some s => [MsgStatusInMerged; MsgValueCounts s]
          | None => []
          end
      | Raised _ => []
      end
  end.

(** The lines [load_metadata] prints for a frame. *)
Definition load_lines (df : DataFrame) : list message :=
  [MsgLoadingMetadata; MsgMetadataShape (len df) (List.length (columns df));
   MsgColumns (columns df)]
  ++ match getitem df "covid_status" with
     | Some s => [MsgStatusDistribution; MsgValueCounts s]
     | None => []
     end
  ++ match getitem df "id" with
     | Some s => [MsgSampleIds (firstn 5 s)]
     | None => []
     end.

(** No expected file in any patient folder, two levels below [entries]. *)
Definition no_recordings (entries : list (string * node)) : Prop :=
  forall d ds p fs,
    lookup d entries = Some (Dir ds) -> lookup p ds = Some (Dir fs) ->
    forall t, In t expected_audio_types -> exists_in fs t = false.

(** A path component without a separator. *)
Fixpoint no_sep (s : string) : bool :=
  match s with
  | EmptyString => true
  | String c s' => (negb (Ascii.eqb c "/") && no_sep s')%bool
  end.

Definition is_zero (c : cell) : bool := cell_eqb c (VInt 0).

(** A disk whose audio folders hold none of the expected recordings. *)
Definition silent_tree : list (string * node) :=
  [ ("20200413", Dir [ ("B", Dir [("notes.txt", File None)]) ]) ].

Definition silent_disk (path : string) : option node :=
  if String.eqb path METADATA_CSV then Some (File (Some demo_metadata))
  else if String.eqb path AUDIO_BASE_PATH then Some (Dir silent_tree)
  else None.

Definition silent_state : state := init METADATA_CSV AUDIO_BASE_PATH silent_disk.

(** A disk without the two inputs. *)
Definition empty_disk (path : string) : option node := None.

(** Metadata whose identifiers name no scanned folder. *)
Definition stranger_metadata : DataFrame :=
  mkDataFrame ["id"; "covid_status"] [ [VStr "Z"; VStr "healthy"] ].

Definition stranger_disk (path : string) : option node :=
  if String.eqb path METADATA_CSV then Some (File (Some stranger_metadata))
  else if String.eqb path AUDIO_BASE_PATH then Some (Dir demo_tree)
  else None.

Definition stranger_state : state := init METADATA_CSV AUDIO_BASE_PATH stranger_disk.

(** Metadata whose identifiers are numbers, next to a folder named [1]. *)
Definition numbered_metadata : DataFrame :=
  mkDataFrame ["id"; "covid_status"]
    [ [VInt 1; VStr "healthy"]; [VInt 2; VStr "positive_mild"] ].

Definition numbered_tree : list (string * node) :=
  [ ("20200413", Dir [ ("1", Dir [("cough-heavy.wav", File None)]) ]) ].

Definition numbered_disk (path : string) : option node :=
  if String.eqb path METADATA_CSV then Some (File (Some numbered_metadata))
  else if String.eqb path AUDIO_BASE_PATH then Some (Dir numbered_tree)
  else None.

Definition numbered_state : state := init METADATA_CSV AUDIO_BASE_PATH numbered_disk.

(* ------------------------------------------------------------------ *)
(** * Properties *)

(** ** The inventory scan *)

Lemma mem_In k l : mem k l = true <-> In k l.
Proof.
  unfold mem. rewrite existsb_exists. split.
  - intros [x [Hx E]]. apply String.eqb_eq in E. now subst.
  - intros H. exists k. split; [assumption | apply String.eqb_refl].
Qed.

Lemma mem_false k l : mem k l = false <-> ~ In k l.
Proof.
  rewrite <- mem_In. destruct (mem k l); split; intros; congruence.
Qed.

Lemma distinct_NoDup l : distinct l = true -> NoDup l.
Proof.
  induction l as [|x l IH]; cbn; intros H; constructor.
  - apply andb_prop in H as [H _]. apply negb_true_iff in H.
    now apply mem_false.
  - apply andb_prop in H as [_ H]. auto.
Qed.

Lemma record_keys_distinct :
  NoDup (["patient_id"; "date_folder"] ++ flat_map audio_keys expected_audio_types).
Proof. apply distinct_NoDup. vm_compute. reflexivity. Qed.

Section Dicts.

Lemma dict_set_fresh (d : dict) k v :
  ~ In k (dict_keys d) -> dict_set d k v = d ++ [(k, v)].
Proof.
  induction d as [|[k' v'] d IH]; cbn; intros H; [reflexivity|].
  destruct (String.eqb_spec k' k) as [->|_].
  - exfalso. apply H. now left.
  - rewrite IH; [reflexivity | intros Hin; apply H; now right].
Qed.

Lemma dict_keys_app (a b : dict) : dict_keys (a ++ b) = dict_keys a ++ dict_keys b.
Proof. unfold dict_keys. apply map_app. Qed.

Lemma dict_update_fresh (b a : dict) :
  NoDup (dict_keys a ++ dict_keys b) -> dict_update a b = a ++ b.
Proof.
  unfold dict_update. revert a.
  induction b as [|[k v] b IH]; intros a H; cbn.
  - now rewrite app_nil_r.
  - cbn in H. rewrite dict_set_fresh.
    + rewrite IH.
      * now rewrite <- app_assoc.
      * rewrite dict_keys_app. cbn. now rewrite <- app_assoc.
    + apply NoDup_remove_2 in H. intros Hin. apply H, in_or_app. now left.
Qed.

Lemma dict_get_In (d : dict) k v :
  NoDup (dict_keys d) -> In (k, v) d -> dict_get d k = Some v.
Proof.
  induction d as [|[k' v'] d IH]; cbn; intros Hnd Hin; [contradiction|].
  inversion Hnd as [|? ? Hk Hd]; subst.
  destruct Hin as [E|Hin].
  - inversion E; subst. now rewrite String.eqb_refl.
  - destruct (String.eqb_spec k' k) as [->|_]; [|auto].
    exfalso. apply Hk. change k with (fst (k, v)). now apply in_map.
Qed.

Lemma dict_get_Some_In (d : dict) k v : dict_get d k = Some v -> In (k, v) d.
Proof.
  induction d as [|[k' v'] d IH]; cbn; [discriminate|].
  destruct (String.eqb_spec k' k) as [->|_].
  - intros [= ->]. now left.
  - intros H. right. auto.
Qed.

Lemma dict_get_None (d : dict) k : dict_get d k = None <-> ~ In k (dict_keys d).
Proof.
  induction d as [|[k' v'] d IH]; cbn.
  - tauto.
  - destruct (String.eqb_spec k' k) as [->|Hne].
    + split; [discriminate | intros H; exfalso; apply H; now left].
    + rewrite IH. split; [intros H [E|Hin]; auto | intros H Hin; apply H; now right].
Qed.

End Dicts.

Section Scan.

Variable patient_path : string.
Variable files : list (string * node).

Lemma audio_entries_keys t :
  dict_keys (audio_entries patient_path files t)
  = if exists_in files t then audio_keys t else [has_key t].
Proof. unfold audio_entries. now destruct (exists_in files t). Qed.

Lemma fold_step_view types :
  forall acc,
    NoDup (dict_keys acc ++ flat_map audio_keys types) ->
    fold_left (check_audio_type patient_path files) types acc
    = acc ++ flat_map (audio_entries patient_path files) types.
Proof.
  induction types as [|t types IH]; intros acc H; cbn.
  - now rewrite app_nil_r.
  - cbn in H.
    assert (Hp : ~ In (path_key t) (dict_keys acc)).
    { apply NoDup_remove_2 in H. intros Hin. apply H, in_or_app. now left. }
    assert (H' : NoDup (dict_keys acc ++ has_key t :: flat_map audio_keys types))
      by now apply NoDup_remove_1 in H.
    assert (Hh : ~ In (has_key t) (dict_keys acc)).
    { apply NoDup_remove_2 in H'. intros Hin. apply H', in_or_app. now left. }
    assert (Hph : path_key t <> has_key t).
    { apply NoDup_remove_2 in H. intros E. apply H, in_or_app. right. now left. }
    unfold check_audio_type at 2, audio_entries at 1. cbv zeta.
    destruct (exists_in files t).
    + rewrite (dict_set_fresh acc) by assumption.
      rewrite dict_set_fresh.
      * rewrite IH.
        -- now rewrite <- !app_assoc.
        -- rewrite !dict_keys_app. cbn. now rewrite <- !app_assoc.
      * rewrite dict_keys_app. cbn. intros Hin.
        apply in_app_or in Hin as [Hin|[E|[]]]; [now apply Hh | now apply Hph].
    + rewrite dict_set_fresh by assumption.
      rewrite IH.
      * now rewrite <- !app_assoc.
      * rewrite dict_keys_app. cbn. now rewrite <- !app_assoc.
Qed.

Lemma check_audio_types_view :
  check_audio_types patient_path files
  = flat_map (audio_entries patient_path files) expected_audio_types.
Proof.
  unfold check_audio_types.
  change (fold_left (check_audio_type patient_path files) expected_audio_types []
          = [] ++ flat_map (audio_entries patient_path files) expected_audio_types).
  apply fold_step_view. cbn [dict_keys map app].
  pose proof record_keys_distinct as H.
  now apply NoDup_remove_1 with (l := []) in H as H1;
    apply NoDup_remove_1 with (l := []) in H1.
Qed.

(** Keys of the entries stay pairwise distinct behind any prefix the
    full key set is distinct from. *)
Lemma entries_keys_NoDup types :
  forall pre,
    NoDup (pre ++ flat_map audio_keys types) ->
    NoDup (pre ++ dict_keys (flat_map (audio_entries patient_path files) types)).
Proof.
  induction types as [|t types IH]; intros pre H; cbn [flat_map] in *;
    [assumption|].
  rewrite dict_keys_app, audio_entries_keys.
  destruct (exists_in files t).
  - rewrite app_assoc. apply IH. now rewrite <- app_assoc.
  - unfold audio_keys in H. cbn [app] in H. apply NoDup_remove_1 in H.
    rewrite app_assoc. apply IH. now rewrite <- app_assoc.
Qed.

End Scan.

Lemma keys_separate_true : keys_separate = true.
Proof. vm_compute. reflexivity. Qed.

Lemma key_facts t t' :
  In t expected_audio_types -> In t' expected_audio_types ->
  (path_key t = path_key t' -> t = t')
  /\ (has_key t = has_key t' -> t = t')
  /\ path_key t <> has_key t'.
Proof.
  intros Ht Ht'.
  pose proof keys_separate_true as H. unfold keys_separate in H.
  rewrite forallb_forall in H. specialize (H t Ht).
  rewrite forallb_forall in H. specialize (H t' Ht').
  apply andb_prop in H as [H H3]. apply andb_prop in H as [H1 H2].
  repeat split.
  - intros E. rewrite E, String.eqb_refl in H1. now apply String.eqb_eq.
  - intros E. rewrite E, String.eqb_refl in H2. now apply String.eqb_eq.
  - intros E. rewrite E, String.eqb_refl in H3. discriminate.
Qed.

Section Records.

Variables patient_path patient_id date_folder : string.
Variable files : list (string * node).

Lemma audio_record_NoDup : NoDup (dict_keys (audio_record patient_path patient_id date_folder files)).
Proof.
  unfold audio_record. rewrite dict_keys_app.
  apply entries_keys_NoDup. exact record_keys_distinct.
Qed.

Lemma audio_record_patient_id : dict_get (audio_record patient_path patient_id date_folder files) "patient_id" = Some (VStr patient_id).
Proof. reflexivity. Qed.

Lemma audio_record_date_folder : dict_get (audio_record patient_path patient_id date_folder files) "date_folder" = Some (VStr date_folder).
Proof. reflexivity. Qed.

Lemma audio_record_flag t :
  In t expected_audio_types ->
  dict_get (audio_record patient_path patient_id date_folder files) (has_key t) = Some (flag (exists_in files t)).
Proof.
  intros Ht. apply dict_get_In; [apply audio_record_NoDup|].
  unfold audio_record. apply in_or_app. right.
  apply in_flat_map. exists t. split; [assumption|].
  unfold audio_entries, flag. destruct (exists_in files t); cbn; auto.
Qed.

Lemma audio_record_path t :
  In t expected_audio_types ->
  dict_get (audio_record patient_path patient_id date_folder files) (path_key t)
  = if exists_in files t then Some (VStr (os_path_join patient_path t)) else None.
Proof.
  intros Ht. destruct (exists_in files t) eqn:E.
  - apply dict_get_In; [apply audio_record_NoDup|].
    unfold audio_record. apply in_or_app. right.
    apply in_flat_map. exists t. split; [assumption|].
    unfold audio_entries. rewrite E. now left.
  - apply dict_get_None. intros Hin.
    unfold audio_record in Hin. rewrite dict_keys_app in Hin.
    apply in_app_or in Hin as [Hin|Hin].
    + pose proof record_keys_distinct as Hnd.
      assert (Hall : In (path_key t) (flat_map audio_keys expected_audio_types)).
      { apply in_flat_map. exists t. split; [assumption | now left]. }
      cbn [app dict_keys map fst] in Hin.
      destruct Hin as [E0|[E0|[]]].
      * inversion Hnd as [|? ? Hn _]; subst. apply Hn. right. now rewrite E0.
      * inversion Hnd as [|? ? _ Hnd']; subst.
        inversion Hnd' as [|? ? Hn _]; subst. apply Hn. now rewrite E0.
    + unfold dict_keys in Hin. apply in_map_iff in Hin as [[k v] [Ek Hin]].
      cbn in Ek. subst k.
      apply in_flat_map in Hin as [t' [Ht' Hin]].
      destruct (key_facts t t' Ht Ht') as (Hpp & _ & Hph).
      unfold audio_entries in Hin.
      destruct (exists_in files t') eqn:E'.
      * destruct Hin as [E0|[E0|[]]]; inversion E0 as [[Ek Ev]].
        -- symmetry in Ek. apply Hpp in Ek. subst t'. congruence.
        -- now apply Hph.
      * destruct Hin as [E0|[]]. inversion E0 as [[Ek Ev]]. now apply Hph.
Qed.

End Records.

Lemma lookup_In name entries x :
  lookup name entries = Some x -> In name (os_listdir entries).
Proof.
  induction entries as [|[n y] entries IH]; cbn; [discriminate|].
  destruct (String.eqb_spec n name) as [->|_]; [now left | right; auto].
Qed.

Lemma isdir_in_true entries f :
  isdir_in entries f = true <-> exists sub, lookup f entries = Some (Dir sub).
Proof.
  unfold isdir_in. destruct (lookup f entries) as [[?|sub]|]; split;
    try discriminate; try (intros [? [=]]); eauto.
Qed.

Lemma existsb_ext_in {A} (f g : A -> bool) l :
  (forall x, In x l -> f x = g x) -> existsb f l = existsb g l.
Proof.
  induction l as [|x l IH]; cbn; intros H; [reflexivity|].
  rewrite H by now left. f_equal. apply IH. intros y Hy. apply H. now right.
Qed.

Lemma any_expected_present patient_path files :
  existsb
    (fun audio_type =>
       truthy (dict_get_default (check_audio_types patient_path files)
                 (has_key audio_type) (VInt 0)))
    expected_audio_types
  = existsb (exists_in files) expected_audio_types.
Proof.
  rewrite check_audio_types_view.
  assert (H : forall t, In t expected_audio_types ->
            truthy (dict_get_default
                      (flat_map (audio_entries patient_path files) expected_audio_types)
                      (has_key t) (VInt 0))
            = exists_in files t).
  { intros t Ht. unfold dict_get_default.
    pose proof (audio_record_flag patient_path "" "" files t Ht) as E.
    unfold audio_record in E. cbn [app dict_get] in E.
    replace (String.eqb "patient_id" (has_key t)) with false in E.
    - replace (String.eqb "date_folder" (has_key t)) with false in E.
      + rewrite E. unfold flag. now destruct (exists_in files t).
      + revert Ht. unfold expected_audio_types. cbn [In].
        intuition (subst; reflexivity).
    - revert Ht. unfold expected_audio_types. cbn [In].
      intuition (subst; reflexivity). }
  now apply existsb_ext_in.
Qed.

Lemma scan_patient_view date_path date_folder date_entries patient_id :
  scan_patient date_path date_folder date_entries patient_id
  = if existsb (exists_in (subdir date_entries patient_id)) expected_audio_types
    then [ audio_record (os_path_join date_path patient_id) patient_id date_folder
             (subdir date_entries patient_id) ]
    else [].
Proof.
  unfold scan_patient. rewrite any_expected_present.
  destruct (existsb _ _); [|reflexivity].
  f_equal. rewrite check_audio_types_view. apply dict_update_fresh.
  apply (entries_keys_NoDup _ _ _ ["patient_id"; "date_folder"]).
  exact record_keys_distinct.
Qed.

(** The records of [audio_data] are those of the patient folders, two
    levels below the base, that hold one of the expected files. *)
Lemma in_audio_data base entries rec :
  In rec (audio_data base entries) <->
  exists d ds p fs,
    lookup d entries = Some (Dir ds) /\ lookup p ds = Some (Dir fs)
    /\ existsb (exists_in fs) expected_audio_types = true
    /\ rec = audio_record (os_path_join (os_path_join base d) p) p d fs.
Proof.
  unfold audio_data, date_folders_of. rewrite in_flat_map. split.
  - intros [d [Hd Hrec]]. apply filter_In in Hd as [_ Hd].
    apply isdir_in_true in Hd as [ds Hds].
    unfold scan_date in Hrec. apply in_flat_map in Hrec as [p [Hp Hrec]].
    apply filter_In in Hp as [_ Hp].
    unfold subdir in Hp at 1. rewrite Hds in Hp.
    apply isdir_in_true in Hp as [fs Hfs].
    rewrite scan_patient_view in Hrec.
    unfold subdir in Hrec. rewrite Hds, Hfs in Hrec.
    destruct (existsb _ _) eqn:E; [|contradiction].
    destruct Hrec as [<-|[]]. exists d, ds, p, fs. auto.
  - intros (d & ds & p & fs & Hds & Hfs & E & ->).
    exists d. split.
    + apply filter_In. split; [eapply lookup_In; eauto|].
      apply isdir_in_true; eauto.
    + unfold scan_date. apply in_flat_map. exists p.
      unfold subdir at 1 2 3. rewrite Hds. split.
      * apply filter_In. split; [eapply lookup_In; eauto|].
        apply isdir_in_true; eauto.
      * rewrite scan_patient_view. unfold subdir. rewrite Hfs, E. now left.
Qed.

(** ** Frames built from records *)

Lemma in_add_keys ks : forall acc k, In k (add_keys acc ks) <-> In k acc \/ In k ks.
Proof.
  unfold add_keys.
  induction ks as [|x ks IH]; intros acc k; cbn [fold_left].
  - cbn. tauto.
  - rewrite IH. destruct (mem x acc) eqn:E.
    + apply mem_In in E. cbn. intuition (subst; auto).
    + rewrite in_app_iff. cbn. tauto.
Qed.

Lemma in_union_fold records :
  forall acc k,
    In k (fold_left (fun acc d => add_keys acc (dict_keys d)) records acc)
    <-> In k acc \/ exists rec, In rec records /\ In k (dict_keys rec).
Proof.
  induction records as [|d records IH]; intros acc k; cbn [fold_left].
  - split; [auto | intros [H|[? [[] _]]]; exact H].
  - rewrite IH, in_add_keys. split.
    + intros [[H|H]|[r [Hr Hk]]]; [auto | right; exists d; cbn; auto
                                  | right; exists r; cbn; auto].
    + intros [H|[r [[<-|Hr] Hk]]]; [auto | auto | right; eauto].
Qed.

Lemma in_union_keys records k :
  In k (union_keys records) <-> exists rec, In rec records /\ In k (dict_keys rec).
Proof.
  unfold union_keys.
  change (In k (fold_left (fun acc d => add_keys acc (dict_keys d)) records [])
          <-> exists rec, In rec records /\ In k (dict_keys rec)).
  rewrite in_union_fold. cbn. tauto.
Qed.

Lemma pd_DataFrame_rows records :
  rows (pd_DataFrame records) = map (record_row (union_keys records)) records.
Proof. reflexivity. Qed.

Lemma pd_DataFrame_aligned records : aligned (pd_DataFrame records).
Proof.
  unfold aligned. rewrite pd_DataFrame_rows. apply Forall_forall.
  intros r Hr. apply in_map_iff in Hr as [d [<- _]].
  unfold record_row. cbn. apply length_map.
Qed.

Lemma index_of_Some k l :
  In k l -> exists i, index_of k l = Some i /\ nth_error l i = Some k.
Proof.
  induction l as [|x l IH]; cbn; [contradiction|].
  destruct (String.eqb_spec x k) as [->|Hne].
  - intros _. exists 0. auto.
  - intros [E|Hin]; [contradiction|].
    destruct (IH Hin) as [i [Hi Hn]]. rewrite Hi. exists (S i). auto.
Qed.

Lemma index_of_None k l : ~ In k l -> index_of k l = None.
Proof.
  induction l as [|x l IH]; cbn; [reflexivity|].
  destruct (String.eqb_spec x k) as [->|Hne]; intros H.
  - exfalso. apply H. now left.
  - rewrite IH; [reflexivity | intros Hin; apply H; now right].
Qed.

Lemma index_of_In k l i : index_of k l = Some i -> In k l.
Proof.
  revert i. induction l as [|x l IH]; cbn; intros i; [discriminate|].
  destruct (String.eqb_spec x k) as [->|_]; [now left|].
  destruct (index_of k l) eqn:E; [|discriminate].
  intros _. right. eauto.
Qed.

Lemma index_of_lt k l i : index_of k l = Some i -> i < List.length l.
Proof.
  revert i. induction l as [|x l IH]; cbn; intros i; [discriminate|].
  destruct (String.eqb_spec x k) as [->|_].
  - intros [= <-]. lia.
  - destruct (index_of k l) eqn:E; [|discriminate].
    intros [= <-]. specialize (IH _ eq_refl). lia.
Qed.

Lemma row_get_map (g : string -> cell) cols k :
  row_get cols (map g cols) k = if mem k cols then Some (g k) else None.
Proof.
  unfold row_get. destruct (mem k cols) eqn:E.
  - apply mem_In in E. destruct (index_of_Some _ _ E) as [i [-> Hn]].
    f_equal. unfold cell_at.
    rewrite (nth_indep _ VNaN (g k)).
    + rewrite map_nth. f_equal. now apply nth_error_nth.
    + rewrite length_map. apply nth_error_Some. congruence.
  - apply mem_false in E. now rewrite index_of_None.
Qed.

Lemma field_record_row records rec k :
  In rec records ->
  (forall k' v, dict_get rec k' = Some v -> v <> VNaN) ->
  field (pd_DataFrame records) (record_row (union_keys records) rec) k
  = dict_get rec k.
Proof.
  intros Hin Hval. unfold field, record_row. cbn [columns pd_DataFrame].
  rewrite row_get_map.
  destruct (dict_get rec k) as [v|] eqn:E.
  - replace (mem k (union_keys records)) with true.
    + specialize (Hval _ _ E). now destruct v.
    + symmetry. apply mem_In, in_union_keys. exists rec. split; [assumption|].
      apply dict_get_Some_In in E. change k with (fst (k, v)). now apply in_map.
  - now destruct (mem k (union_keys records)).
Qed.

(** ** Running the methods *)

Lemma bind_returned {A B} (m : M A) (k : A -> M B) st a st1 :
  m st = (Returned a, st1) -> bind m k st = k a st1.
Proof. unfold bind. now intros ->. Qed.

Lemma bind_raised {A B} (m : M A) (k : A -> M B) st e st1 :
  m st = (Raised e, st1) -> bind m k st = (Raised e, st1).
Proof. unfold bind. now intros ->. Qed.

Lemma bind_inv {A B} (m : M A) (k : A -> M B) st r st' :
  bind m k st = (r, st') ->
  (exists a st1, m st = (Returned a, st1) /\ k a st1 = (r, st'))
  \/ (exists e, m st = (Raised e, st') /\ r = Raised e).
Proof.
  unfold bind. destruct (m st) as [[a|e] st1]; intros H.
  - left. eauto.
  - right. inversion H; subst. eauto.
Qed.

Lemma silent_bind {A B} (m : M A) (k : A -> M B) :
  silent m -> (forall a, silent (k a)) -> silent (bind m k).
Proof.
  intros Hm Hk st r st' H. apply bind_inv in H as [(a & st1 & H1 & H2)|(e & H1 & _)].
  - apply Hm in H1 as (? & ? & ? & ?). apply Hk in H2 as (? & ? & ? & ?).
    repeat split; congruence.
  - now apply Hm in H1.
Qed.

Lemma silent_ret {A} (a : A) : silent (ret a).
Proof. intros st r st' [= <- <-]. auto. Qed.

Lemma silent_lift {A} (x : result A) : silent (lift x).
Proof. intros st r st' [= <- <-]. auto. Qed.

Lemma silent_raise {A} e : silent (@raise A e).
Proof. intros st r st' [= <- <-]. auto. Qed.

Lemma silent_print m : silent (print m).
Proof. intros st r st' [= <- <-]. auto. Qed.

Lemma silent_set_metadata_df df : silent (set_metadata_df df).
Proof. intros st r st' [= <- <-]. auto. Qed.

Lemma silent_set_audio_paths_df df : silent (set_audio_paths_df df).
Proof. intros st r st' [= <- <-]. auto. Qed.

Lemma silent_self_metadata_csv_path : silent self_metadata_csv_path.
Proof. intros st r st' [= <- <-]. auto. Qed.

Lemma silent_self_audio_base_path : silent self_audio_base_path.
Proof. intros st r st' [= <- <-]. auto. Qed.

Lemma silent_self_metadata_df : silent self_metadata_df.
Proof. intros st r st' [= <- <-]. auto. Qed.

Lemma silent_self_audio_paths_df : silent self_audio_paths_df.
Proof. intros st r st' [= <- <-]. auto. Qed.

Lemma silent_read_disk path : silent (read_disk path).
Proof. intros st r st' [= <- <-]. auto. Qed.

Create HintDb silent_db.
#[local] Hint Resolve silent_ret silent_lift silent_raise silent_print
  silent_set_metadata_df silent_set_audio_paths_df silent_self_metadata_csv_path
  silent_self_audio_base_path silent_self_metadata_df silent_self_audio_paths_df
  silent_read_disk : silent_db.

Ltac silent_tac :=
  repeat first
    [ apply silent_bind; [|intros ?]
    | progress auto with silent_db
    | match goal with
      | |- silent (match ?x with _ => _ end) => destruct x
      | |- silent (if ?x then _ else _) => destruct x
      end ].

Lemma silent_pd_read_csv path : silent (pd_read_csv path).
Proof. unfold pd_read_csv. silent_tac. Qed.

Lemma silent_listdir path : silent (listdir path).
Proof. unfold listdir. silent_tac. Qed.

Lemma silent_getitem_or_raise df k : silent (getitem_or_raise df k).
Proof. unfold getitem_or_raise. silent_tac. Qed.

#[local] Hint Resolve silent_pd_read_csv silent_listdir silent_getitem_or_raise : silent_db.

Lemma silent_load_metadata : silent load_metadata.
Proof. unfold load_metadata. silent_tac. Qed.

Lemma silent_find_audio_files : silent find_audio_files.
Proof. unfold find_audio_files. silent_tac. Qed.

#[local] Hint Resolve silent_load_metadata silent_find_audio_files : silent_db.

Lemma silent_ensure_loaded : silent ensure_loaded.
Proof. unfold ensure_loaded. silent_tac. Qed.

Lemma silent_find_left_column candidates cols : silent (find_left_column candidates cols).
Proof. induction candidates as [|c l IH]; cbn; silent_tac. Qed.

#[local] Hint Resolve silent_ensure_loaded silent_find_left_column : silent_db.

Lemma silent_merge_datasets : silent merge_datasets.
Proof. unfold merge_datasets, the_metadata_df, the_audio_paths_df. silent_tac. Qed.

Lemma silent_add_target df : silent (add_target df).
Proof. unfold add_target, series_sum. silent_tac. Qed.

Lemma silent_add_derived_features df : silent (add_derived_features df).
Proof. unfold add_derived_features, sum_axis1. silent_tac. Qed.

(** The steps after the join leave the cached tables alone. *)

Lemma keeps_tables_bind {A B} (m : M A) (k : A -> M B) :
  keeps_tables m -> (forall a, keeps_tables (k a)) -> keeps_tables (bind m k).
Proof.
  intros Hm Hk st r st' H. apply bind_inv in H as [(a & st1 & H1 & H2)|(e & H1 & _)].
  - apply Hm in H1 as (? & ?). apply Hk in H2 as (? & ?). split; congruence.
  - now apply Hm in H1.
Qed.

Lemma keeps_tables_ret {A} (a : A) : keeps_tables (ret a).
Proof. intros st r st' [= <- <-]. auto. Qed.

Lemma keeps_tables_lift {A} (x : result A) : keeps_tables (lift x).
Proof. intros st r st' [= <- <-]. auto. Qed.

Lemma keeps_tables_raise {A} e : keeps_tables (@raise A e).
Proof. intros st r st' [= <- <-]. auto. Qed.

Lemma keeps_tables_print m : keeps_tables (print m).
Proof. intros st r st' [= <- <-]. auto. Qed.

Lemma keeps_tables_do_effect e : keeps_tables (do_effect e).
Proof. intros st r st' [= <- <-]. auto. Qed.

Create HintDb tables_db.
#[local] Hint Resolve keeps_tables_ret keeps_tables_lift keeps_tables_raise
  keeps_tables_print keeps_tables_do_effect : tables_db.

Ltac tables_tac :=
  repeat first
    [ apply keeps_tables_bind; [|intros ?]
    | progress auto with tables_db
    | match goal with
      | |- keeps_tables (match ?x with _ => _ end) => destruct x
      | |- keeps_tables (if ?x then _ else _) => destruct x
      end ].

Lemma keeps_tables_getitem_or_raise df k : keeps_tables (getitem_or_raise df k).
Proof. unfold getitem_or_raise. tables_tac. Qed.

#[local] Hint Resolve keeps_tables_getitem_or_raise : tables_db.

Lemma keeps_tables_add_target df : keeps_tables (add_target df).
Proof. unfold add_target, series_sum. tables_tac. Qed.

Lemma keeps_tables_add_derived_features df : keeps_tables (add_derived_features df).
Proof. unfold add_derived_features, sum_axis1. tables_tac. Qed.

#[local] Hint Resolve keeps_tables_add_target keeps_tables_add_derived_features
  : tables_db.


#[local] Hint Resolve silent_merge_datasets silent_add_target
  silent_add_derived_features : silent_db.

Ltac unfold_monad :=
  unfold bind, ret, raise, lift, or_raise, print, do_effect,
    set_metadata_df, set_audio_paths_df, self_metadata_csv_path,
    self_audio_base_path, self_metadata_df, self_audio_paths_df, read_disk in *.

Ltac run_state :=
  cbn [fst snd disk effects stdout metadata_df audio_paths_df metadata_csv_path
         audio_base_path add_stdout add_effect with_metadata_df with_audio_paths_df] in *.

Lemma getitem_patient_id_records records :
  (forall rec, In rec records -> In "patient_id" (dict_keys rec)) ->
  records <> [] ->
  exists ids, getitem (pd_DataFrame records) "patient_id" = Some ids.
Proof.
  intros Hk Hne. unfold getitem.
  destruct records as [|rec records]; [congruence|].
  assert (Hin : In "patient_id" (columns (pd_DataFrame (rec :: records)))).
  { apply in_union_keys. exists rec. split; [now left | apply Hk; now left]. }
  destruct (index_of_Some _ _ Hin) as [i [-> _]]. eauto.
Qed.

Lemma audio_data_patient_id base entries rec :
  In rec (audio_data base entries) -> In "patient_id" (dict_keys rec).
Proof.
  intros H. apply in_audio_data in H as (d & ds & p & fs & _ & _ & _ & ->).
  now left.
Qed.

(** [find_audio_files] returns the frame of [audio_data] when some folder
    qualifies, and stops on the KeyError of line 86 when none does. *)
Lemma find_audio_files_run st entries :
  disk st (audio_base_path st) = Some (Dir entries) ->
  exists st',
    find_audio_files st
    = (match audio_data (audio_base_path st) entries with
       | [] => Raised (KeyError "patient_id")
       | _ :: _ => Returned (pd_DataFrame (audio_data (audio_base_path st) entries))
       end, st')
    /\ audio_paths_df st'
       = Some (pd_DataFrame (audio_data (audio_base_path st) entries))
    /\ metadata_df st' = metadata_df st.
Proof.
  intros Hd. unfold find_audio_files, listdir, getitem_or_raise. unfold_monad.
  run_state. rewrite Hd. run_state.
  destruct (audio_data (audio_base_path st) entries) as [|rec records'] eqn:E.
  - cbn [pd_DataFrame union_keys fold_left getitem columns index_of].
    eexists. repeat split.
  - destruct (getitem_patient_id_records (rec :: records')) as [ids Hids].
    + intros r Hr. rewrite <- E in Hr. eapply audio_data_patient_id. exact Hr.
    + discriminate.
    + rewrite Hids. eexists. repeat split.
Qed.

Lemma find_audio_files_returned st df st' :
  find_audio_files st = (Returned df, st') ->
  exists entries,
    disk st (audio_base_path st) = Some (Dir entries)
    /\ df = pd_DataFrame (audio_data (audio_base_path st) entries)
    /\ audio_data (audio_base_path st) entries <> []
    /\ audio_paths_df st' = Some df
    /\ metadata_df st' = metadata_df st.
Proof.
  intros H.
  destruct (disk st (audio_base_path st)) as [[parsed|entries]|] eqn:Hd.
  - unfold find_audio_files, listdir in H. unfold_monad. run_state.
    rewrite Hd in H. discriminate.
  - destruct (find_audio_files_run st entries Hd) as (st1 & Hrun & Ha & Hm).
    rewrite Hrun in H. exists entries.
    destruct (audio_data (audio_base_path st) entries); [discriminate|].
    inversion H; subst. repeat split; auto. discriminate.
  - unfold find_audio_files, listdir in H. unfold_monad. run_state.
    rewrite Hd in H. discriminate.
Qed.

Lemma audio_record_no_NaN patient_path p d fs k v :
  dict_get (audio_record patient_path p d fs) k = Some v -> v <> VNaN.
Proof.
  intros H. apply dict_get_Some_In in H. unfold audio_record in H.
  apply in_app_or in H as [[E|[E|[]]]|H]; try (inversion E; subst; discriminate).
  apply in_flat_map in H as [t [_ H]]. unfold audio_entries in H.
  destruct (exists_in fs t);
    [destruct H as [E|[E|[]]] | destruct H as [E|[]]];
    inversion E; subst; discriminate.
Qed.

Lemma existsb_expected fs :
  existsb (exists_in fs) expected_audio_types = true
  <-> exists t, In t expected_audio_types /\ exists_in fs t = true.
Proof. apply existsb_exists. Qed.

(** The fields of the inventory row of a patient folder. *)
Lemma inventory_row_fields records patient_path p d fs :
  In (audio_record patient_path p d fs) records ->
  let r := record_row (union_keys records) (audio_record patient_path p d fs) in
  let df := pd_DataFrame records in
  field df r "patient_id" = Some (VStr p)
  /\ field df r "date_folder" = Some (VStr d)
  /\ forall t, In t expected_audio_types ->
       field df r (has_key t) = Some (flag (exists_in fs t))
       /\ field df r (path_key t)
          = if exists_in fs t then Some (VStr (os_path_join patient_path t)) else None.
Proof.
  intros Hin r df. unfold r, df.
  assert (Hf : forall k,
             field (pd_DataFrame records)
               (record_row (union_keys records) (audio_record patient_path p d fs)) k
             = dict_get (audio_record patient_path p d fs) k).
  { intros k. apply field_record_row; [assumption|].
    intros k' v. apply audio_record_no_NaN. }
  rewrite !Hf. repeat split; try reflexivity.
  - rewrite Hf. now apply audio_record_flag.
  - rewrite Hf. now apply audio_record_path.
Qed.

(** The rows of a returned inventory, traced back to their folders. *)
Lemma inventory_rows st entries df st' r :
  disk st (audio_base_path st) = Some (Dir entries) ->
  find_audio_files st = (Returned df, st') -> In r (rows df) ->
  exists d ds p fs,
    lookup d entries = Some (Dir ds) /\ lookup p ds = Some (Dir fs)
    /\ existsb (exists_in fs) expected_audio_types = true
    /\ In (audio_record (os_path_join (os_path_join (audio_base_path st) d) p) p d fs)
         (audio_data (audio_base_path st) entries)
    /\ df = pd_DataFrame (audio_data (audio_base_path st) entries)
    /\ r = record_row (union_keys (audio_data (audio_base_path st) entries))
             (audio_record (os_path_join (os_path_join (audio_base_path st) d) p) p d fs).
Proof.
  intros Hd Hrun Hr.
  apply find_audio_files_returned in Hrun as (entries' & Hd' & -> & _).
  rewrite Hd in Hd'. inversion Hd'; subst entries'.
  rewrite pd_DataFrame_rows in Hr. apply in_map_iff in Hr as [rec [<- Hrec]].
  pose proof Hrec as Hrec'.
  apply in_audio_data in Hrec as (d & ds & p & fs & Hds & Hfs & E & ->).
  exists d, ds, p, fs. auto 10.
Qed.

(** C3.  For a base directory [entries], the inventory frame that
    [find_audio_files] returns has a row for the patient folder [p] of the
    date folder [d] exactly when one of the nine expected files exists in
    that folder (the scan then does return a frame); and every row of a
    returned frame belongs to such a folder, names it and its date folder,
    carries the nine presence flags, and has a path field for exactly the
    expected files that exist. *)
Theorem find_audio_files_inventory st entries :
  disk st (audio_base_path st) = Some (Dir entries) ->
  (forall d ds p fs,
      lookup d entries = Some (Dir ds) -> lookup p ds = Some (Dir fs) ->
      (exists df st' r,
          find_audio_files st = (Returned df, st') /\ In r (rows df)
          /\ field df r "patient_id" = Some (VStr p)
          /\ field df r "date_folder" = Some (VStr d))
      <-> (exists t, In t expected_audio_types /\ exists_in fs t = true))
  /\ (forall df st' r,
         find_audio_files st = (Returned df, st') -> In r (rows df) ->
         exists d ds p fs,
           lookup d entries = Some (Dir ds) /\ lookup p ds = Some (Dir fs)
           /\ field df r "patient_id" = Some (VStr p)
           /\ field df r "date_folder" = Some (VStr d)
           /\ forall t, In t expected_audio_types ->
                field df r (has_key t) = Some (flag (exists_in fs t))
                /\ field df r (path_key t)
                   = if exists_in fs t
                     then Some (VStr (os_path_join
                                        (os_path_join
                                           (os_path_join (audio_base_path st) d) p) t))
                     else None).
Proof.
  intros Hd. split.
  - intros d ds p fs Hds Hfs. split.
    + intros (df & st' & r & Hrun & Hr & Hp & Hdf).
      destruct (inventory_rows _ _ _ _ _ Hd Hrun Hr)
        as (d' & ds' & p' & fs' & Hds' & Hfs' & E & Hin & -> & ->).
      destruct (inventory_row_fields _ _ _ _ _ Hin) as (Hp' & Hd'' & _).
      rewrite Hp' in Hp. rewrite Hd'' in Hdf.
      inversion Hp; inversion Hdf; subst.
      rewrite Hds in Hds'. inversion Hds'; subst.
      rewrite Hfs in Hfs'. inversion Hfs'; subst.
      now apply existsb_expected.
    + intros Hex. apply existsb_expected in Hex.
      assert (Hin : In (audio_record
                          (os_path_join (os_path_join (audio_base_path st) d) p) p d fs)
                      (audio_data (audio_base_path st) entries)).
      { apply in_audio_data. exists d, ds, p, fs. auto. }
      destruct (find_audio_files_run st entries Hd) as (st' & Hrun & _).
      destruct (audio_data (audio_base_path st) entries) as [|rec0 recs] eqn:E;
        [contradiction|].
      rewrite <- E in *.
      destruct (inventory_row_fields _ _ _ _ _ Hin) as (Hp' & Hd'' & _).
      eexists _, st', _. split; [exact Hrun|].
      split; [|split; [exact Hp' | exact Hd'']].
      rewrite pd_DataFrame_rows. now apply in_map.
  - intros df st' r Hrun Hr.
    destruct (inventory_rows _ _ _ _ _ Hd Hrun Hr)
      as (d & ds & p & fs & Hds & Hfs & E & Hin & -> & ->).
    destruct (inventory_row_fields _ _ _ _ _ Hin) as (Hp' & Hd'' & Ht).
    exists d, ds, p, fs. auto.
Qed.

Lemma find_audio_files_inventory_witness :
  exists df st' r,
    find_audio_files demo_state = (Returned df, st') /\ In r (rows df)
    /\ field df r "patient_id" = Some (VStr "A")
    /\ field df r "date_folder" = Some (VStr "20200413").
Proof.
  apply (proj1 (find_audio_files_inventory demo_state demo_tree eq_refl)
           "20200413" _ "A" _ eq_refl eq_refl).
  exists "cough-heavy.wav". split; [cbn; auto 10 | reflexivity].
Defined.

Lemma field_Some df r k v : field df r k = Some v -> row_get (columns df) r k = Some v.
Proof.
  unfold field. destruct (row_get (columns df) r k) as [[]|]; congruence.
Qed.

Lemma sum_flags (f : string -> bool) l :
  exists n,
    sum_cells (map (fun t => flag (f t)) l) = Some n
    /\ (0 <= n <= Z.of_nat (List.length l))%Z
    /\ (existsb f l = true -> (1 <= n)%Z).
Proof.
  induction l as [|t l (n & Hn & Hb & Hex)]; cbn [map sum_cells existsb List.length].
  - exists 0%Z. split; [reflexivity|]. split; [lia | discriminate].
  - rewrite Hn. unfold flag at 1. cbn [summand].
    destruct (f t); cbn [orb].
    + exists (1 + n)%Z. split; [reflexivity|]. split; lia.
    + exists (0 + n)%Z. split; [reflexivity|]. split; [lia|].
      intros H. apply Hex in H. lia.
Qed.

(** C9.  Every row of the inventory that [find_audio_files] returns has
    all nine presence flags, each 0 or 1, has a path field for a type
    exactly when that type's flag is 1, and its nine flags add up to a
    number between 1 and 9. *)
Theorem inventory_flags st df st' r :
  find_audio_files st = (Returned df, st') -> In r (rows df) ->
  (forall t, In t expected_audio_types ->
     exists b : bool,
       row_get (columns df) r (has_key t) = Some (flag b)
       /\ (field df r (path_key t) <> None <-> b = true))
  /\ exists n, sum_cells (flag_cells df r) = Some n /\ (1 <= n <= 9)%Z.
Proof.
  intros Hrun Hr.
  destruct (find_audio_files_returned _ _ _ Hrun) as (entries & Hd & _).
  destruct (inventory_rows _ _ _ _ _ Hd Hrun Hr)
    as (d & ds & p & fs & Hds & Hfs & E & Hin & -> & ->).
  destruct (inventory_row_fields _ _ _ _ _ Hin) as (_ & _ & Ht).
  cbv zeta in Ht. split.
  - intros t Hin_t. destruct (Ht t Hin_t) as [Hflag Hpath].
    exists (exists_in fs t). split.
    + now apply field_Some.
    + rewrite Hpath. destruct (exists_in fs t); split; congruence.
  - unfold flag_cells.
    rewrite (map_ext_in _ (fun t => flag (exists_in fs t))).
    + destruct (sum_flags (exists_in fs) expected_audio_types) as (n & Hn & Hb & Hex).
      exists n. split; [assumption|]. cbn in Hb. split; [now apply Hex | lia].
    + intros t Hin_t. destruct (Ht t Hin_t) as [Hflag _].
      apply field_Some in Hflag. now rewrite Hflag.
Qed.

Lemma inventory_flags_witness :
  exists n,
    sum_cells
      (flag_cells (pd_DataFrame (audio_data AUDIO_BASE_PATH demo_tree))
         (record_row (union_keys (audio_data AUDIO_BASE_PATH demo_tree))
            (audio_record "Extracted_data/20200413/A" "A" "20200413"
               [("cough-heavy.wav", File None)])))
    = Some n /\ (1 <= n <= 9)%Z.
Proof.
  refine (proj2 (inventory_flags demo_state _
                   (add_stdout (MsgSampleAudioIds [VStr "A"])
                      (add_stdout (MsgFoundPatients 1)
                         (with_audio_paths_df
                            (pd_DataFrame (audio_data AUDIO_BASE_PATH demo_tree))
                            (add_stdout (MsgFoundDateFolders 1)
                               (add_stdout MsgScanning demo_state)))))
                   _ _ _)).
  - vm_compute. reflexivity.
  - vm_compute. left. reflexivity.
Defined.

(** ** Setting and reading columns *)

Lemma combine_map_same {A B} (f : A -> B) l :
  combine l (map f l) = map (fun x => (x, f x)) l.
Proof. induction l as [|x l IH]; cbn; [reflexivity | now rewrite IH]. Qed.

Lemma setitem_map df k (f : list cell -> cell) :
  setitem df k (map f (rows df))
  = mkDataFrame (put_cols (columns df) k)
      (map (fun r => put (columns df) k r (f r)) (rows df)).
Proof.
  unfold setitem, put_cols, put. rewrite combine_map_same.
  destruct (index_of k (columns df)); now rewrite map_map.
Qed.

Lemma set_nth_length r i v : List.length (set_nth r i v) = List.length r.
Proof.
  revert i. induction r as [|c r IH]; intros [|i]; cbn; auto.
Qed.

Lemma nth_set_nth_same r i v : i < List.length r -> nth i (set_nth r i v) VNaN = v.
Proof.
  revert i. induction r as [|c r IH]; intros [|i]; cbn; intros H; try lia; auto.
  apply IH. lia.
Qed.

Lemma nth_set_nth_other r i j v : i <> j -> nth j (set_nth r i v) VNaN = nth j r VNaN.
Proof.
  revert i j. induction r as [|c r IH]; intros [|i] [|j]; cbn; intros H;
    try reflexivity; try lia.
  apply IH. lia.
Qed.

Lemma index_of_app_l k l l' i : index_of k l = Some i -> index_of k (l ++ l') = Some i.
Proof.
  revert i. induction l as [|x l IH]; cbn; intros i; [discriminate|].
  destruct (String.eqb x k); [auto|].
  destruct (index_of k l) eqn:E; [|discriminate].
  intros [= <-]. now rewrite (IH _ eq_refl).
Qed.

Lemma index_of_app_r k l l' :
  index_of k l = None ->
  index_of k (l ++ l') = option_map (fun i => List.length l + i) (index_of k l').
Proof.
  induction l as [|x l IH]; cbn.
  - intros _. destruct (index_of k l'); reflexivity.
  - destruct (String.eqb x k); [discriminate|].
    destruct (index_of k l) eqn:E; [discriminate|].
    intros _. rewrite IH by reflexivity. now destruct (index_of k l').
Qed.

Lemma index_of_nth_error k l i : index_of k l = Some i -> nth_error l i = Some k.
Proof.
  revert i. induction l as [|x l IH]; cbn; intros i; [discriminate|].
  destruct (String.eqb_spec x k) as [->|_].
  - now intros [= <-].
  - destruct (index_of k l) eqn:E; [|discriminate].
    intros [= <-]. cbn. auto.
Qed.

Lemma index_of_single_other k k' : k' <> k -> index_of k' [k] = None.
Proof.
  intros H. cbn. destruct (String.eqb_spec k k'); [congruence | reflexivity].
Qed.

Section Put.

Variable cols : list string.
Variable k : string.
Variable r : list cell.
Variable v : cell.
Hypothesis Hlen : List.length r = List.length cols.

Lemma put_length : List.length (put cols k r v) = List.length (put_cols cols k).
Proof.
  unfold put, put_cols. destruct (index_of k cols).
  - now rewrite set_nth_length.
  - rewrite !length_app. cbn. lia.
Qed.

Lemma row_get_put_same : row_get (put_cols cols k) (put cols k r v) k = Some v.
Proof.
  unfold row_get, put, put_cols, cell_at.
  destruct (index_of k cols) as [i|] eqn:E.
  - rewrite E. f_equal. apply nth_set_nth_same.
    apply index_of_lt in E. lia.
  - rewrite index_of_app_r by assumption. cbn. rewrite String.eqb_refl. cbn.
    f_equal. rewrite Nat.add_0_r, <- Hlen. rewrite app_nth2 by lia.
    now rewrite Nat.sub_diag.
Qed.

Lemma row_get_put_other k' :
  k' <> k -> row_get (put_cols cols k) (put cols k r v) k' = row_get cols r k'.
Proof.
  intros Hne. unfold row_get, put, put_cols, cell_at.
  destruct (index_of k cols) as [i|] eqn:E.
  - destruct (index_of k' cols) as [j|] eqn:E'; [|reflexivity].
    f_equal. apply nth_set_nth_other. intros ->.
    apply index_of_nth_error in E, E'. congruence.
  - destruct (index_of k' cols) as [j|] eqn:E'.
    + rewrite (index_of_app_l _ _ _ _ E'). f_equal.
      apply app_nth1. apply index_of_lt in E'. lia.
    + rewrite index_of_app_r by assumption.
      now rewrite index_of_single_other.
Qed.

End Put.

Lemma aligned_setitem_map df k f :
  aligned df -> aligned (setitem df k (map f (rows df))).
Proof.
  unfold aligned. rewrite setitem_map. cbn [rows columns].
  intros H. apply Forall_forall. intros r' Hr'.
  apply in_map_iff in Hr' as [r [<- Hr]].
  apply put_length. rewrite Forall_forall in H. auto.
Qed.

Lemma getitem_rows df k :
  getitem df k
  = match index_of k (columns df) with
    | Some _ => Some (map (fun r => match row_get (columns df) r k with
                                    | Some c => c
                                    | None => VNaN
                                    end) (rows df))
    | None => None
    end.
Proof.
  unfold getitem, row_get. now destruct (index_of k (columns df)).
Qed.

Lemma put_cols_has cols k : exists i, index_of k (put_cols cols k) = Some i.
Proof.
  unfold put_cols. destruct (index_of k cols) as [i|] eqn:E; [eauto|].
  rewrite index_of_app_r by assumption. cbn. rewrite String.eqb_refl. cbn. eauto.
Qed.

Lemma put_cols_other cols k k' :
  k' <> k ->
  (exists i, index_of k' (put_cols cols k) = Some i) <-> (exists i, index_of k' cols = Some i).
Proof.
  intros Hne. unfold put_cols. destruct (index_of k cols) as [i|] eqn:E; [tauto|].
  destruct (index_of k' cols) as [j|] eqn:E'.
  - rewrite (index_of_app_l _ _ _ _ E'). split; eauto.
  - rewrite index_of_app_r by assumption. rewrite index_of_single_other by assumption.
    cbn. split; intros [? [=]].
Qed.

(** Reading back the column that was just set. *)
Lemma getitem_setitem_same df k f :
  aligned df ->
  getitem (setitem df k (map f (rows df))) k = Some (map f (rows df)).
Proof.
  intros Ha. rewrite getitem_rows, setitem_map. cbn [columns rows].
  destruct (put_cols_has (columns df) k) as [i ->]. f_equal.
  rewrite map_map. apply map_ext_in. intros r Hr.
  rewrite row_get_put_same; [reflexivity|].
  unfold aligned in Ha. rewrite Forall_forall in Ha. auto.
Qed.

(** Another column is left as it was. *)
Lemma getitem_setitem_other df k k' f :
  aligned df -> k' <> k ->
  getitem (setitem df k (map f (rows df))) k' = getitem df k'.
Proof.
  intros Ha Hne. rewrite !getitem_rows, setitem_map. cbn [columns rows].
  pose proof (put_cols_other (columns df) k k' Hne) as Hiff.
  destruct (index_of k' (put_cols (columns df) k)) as [i|] eqn:E;
    destruct (index_of k' (columns df)) as [j|] eqn:E'.
  - f_equal. rewrite map_map. apply map_ext_in. intros r Hr.
    rewrite row_get_put_other; [reflexivity| |assumption].
    unfold aligned in Ha. rewrite Forall_forall in Ha. auto.
  - destruct (proj1 Hiff) as [? [=]]. eauto.
  - destruct (proj2 Hiff) as [? [=]]. eauto.
  - reflexivity.
Qed.

Lemma select_rows_map {A} (g : A -> list cell) (p : A -> bool) cols l :
  select_rows (mkDataFrame cols (map g l)) (map p l)
  = mkDataFrame cols (map g (filter p l)).
Proof.
  unfold select_rows. cbn [columns rows]. f_equal.
  induction l as [|x l IH]; cbn; [reflexivity|].
  destruct (p x); cbn; now rewrite IH.
Qed.

(** ** Labelling the joined rows *)

Lemma summand_target cols r : summand (target_of cols r) <> None.
Proof.
  unfold target_of, map_cell.
  destruct (row_get cols r "covid_status") as [[s| | |]|];
    cbn [summand]; try discriminate.
  destruct (mapping_get covid_mapping s); discriminate.
Qed.

Lemma sum_cells_total l :
  (forall c, In c l -> summand c <> None) -> exists z, sum_cells l = Some z.
Proof.
  induction l as [|c l IH]; cbn; intros H; [eauto|].
  destruct (summand c) as [z|] eqn:E.
  - destruct IH as [t ->]; [intros; apply H; auto | eauto].
  - exfalso. apply (H c); auto.
Qed.

Lemma aligned_labelled merged : aligned merged -> aligned (labelled merged).
Proof.
  unfold aligned, labelled. cbn [rows columns]. rewrite !Forall_forall.
  intros H r' Hr'. apply in_map_iff in Hr' as [r [<- Hr]].
  apply filter_In in Hr as [Hr _]. apply put_length. auto.
Qed.

Lemma getitem_labelled_target merged :
  aligned merged ->
  getitem (labelled merged) "target"
  = Some (map (target_of (columns merged))
            (filter (fun r => notna (target_of (columns merged) r)) (rows merged))).
Proof.
  intros Ha. rewrite getitem_rows. unfold labelled. cbn [columns rows].
  destruct (put_cols_has (columns merged) "target") as [i ->]. f_equal.
  rewrite map_map. apply map_ext_in. intros r Hr.
  apply filter_In in Hr as [Hr _].
  rewrite row_get_put_same; [reflexivity|].
  unfold aligned in Ha. rewrite Forall_forall in Ha. auto.
Qed.

Lemma getitem_labelled_other merged k :
  aligned merged -> k <> "target" ->
  getitem (labelled merged) k
  = getitem (select_rows merged
               (map (fun r => notna (target_of (columns merged) r)) (rows merged))) k.
Proof.
  intros Ha Hne. rewrite !getitem_rows. unfold labelled, select_rows.
  cbn [columns rows].
  pose proof (put_cols_other (columns merged) "target" k Hne) as Hiff.
  rewrite combine_map_same.
  assert (E : map fst (filter (fun rm : list cell * bool => snd rm)
                         (map (fun x => (x, notna (target_of (columns merged) x)))
                            (rows merged)))
              = filter (fun r => notna (target_of (columns merged) r)) (rows merged)).
  { induction (rows merged) as [|x l IH]; cbn; [reflexivity|].
    destruct (notna (target_of (columns merged) x)); cbn; now rewrite IH. }
  rewrite E.
  destruct (index_of k (put_cols (columns merged) "target")) as [i|] eqn:E1;
    destruct (index_of k (columns merged)) as [j|] eqn:E2.
  - f_equal. rewrite map_map. apply map_ext_in. intros r Hr.
    apply filter_In in Hr as [Hr _].
    rewrite row_get_put_other; [reflexivity| |assumption].
    unfold aligned in Ha. rewrite Forall_forall in Ha. auto.
  - destruct (proj1 Hiff) as [? [=]]. eauto.
  - destruct (proj2 Hiff) as [? [=]]. eauto.
  - reflexivity.
Qed.

Lemma series_map_status merged status :
  getitem merged "covid_status" = Some status ->
  series_map covid_mapping status = map (target_of (columns merged)) (rows merged).
Proof.
  unfold getitem, series_map. destruct (index_of "covid_status" (columns merged)) as [i|] eqn:E;
    [|discriminate].
  intros [= <-]. rewrite map_map. apply map_ext. intros r.
  unfold target_of, row_get. now rewrite E.
Qed.

Lemma target_of_absent merged r :
  getitem merged "covid_status" = None -> target_of (columns merged) r = VInt 0.
Proof.
  unfold getitem, target_of, row_get.
  now destruct (index_of "covid_status" (columns merged)).
Qed.

Lemma filter_all {A} (p : A -> bool) l :
  (forall x, In x l -> p x = true) -> filter p l = l.
Proof.
  induction l as [|x l IH]; cbn; intros H; [reflexivity|].
  rewrite H by now left. f_equal. apply IH. intros y Hy. apply H. now right.
Qed.

Lemma select_labelled merged :
  select_rows
    (setitem merged "target" (map (target_of (columns merged)) (rows merged)))
    (map notna (map (target_of (columns merged)) (rows merged)))
  = labelled merged.
Proof.
  rewrite setitem_map, map_map.
  apply (select_rows_map
           (fun r => put (columns merged) "target" r (target_of (columns merged) r))
           (fun r => notna (target_of (columns merged) r))).
Qed.

(** What [add_target] does to an aligned joined frame. *)
Lemma add_target_run merged st :
  aligned merged ->
  exists st',
    add_target merged st = (Returned (labelled merged), st')
    /\ (getitem merged "covid_status" = None ->
        stdout st' = stdout st ++ [MsgWarningNoStatus])
    /\ (forall m, In m (stdout st) -> In m (stdout st')).
Proof.
  intros Ha. unfold add_target.
  destruct (getitem merged "covid_status") as [status|] eqn:Hs.
  - rewrite (series_map_status _ _ Hs).
    unfold getitem_or_raise, series_sum.
    rewrite getitem_setitem_same by assumption.
    unfold_monad. run_state.
    rewrite !select_labelled.
    rewrite getitem_labelled_target by assumption.
    destruct (sum_cells_total
                (map (target_of (columns merged))
                   (filter (fun r => notna (target_of (columns merged) r)) (rows merged))))
      as [z Hz].
    { intros c Hc. apply in_map_iff in Hc as [r [<- _]]. apply summand_target. }
    rewrite Hz.
    eexists. split; [reflexivity|]. split; [discriminate|].
    intros m Hm. run_state. rewrite !in_app_iff. tauto.
  - unfold setitem_scalar.
    rewrite setitem_map. unfold_monad. run_state.
    assert (E : labelled merged
                = mkDataFrame (put_cols (columns merged) "target")
                    (map (fun r => put (columns merged) "target" r (VInt 0)) (rows merged))).
    { unfold labelled. f_equal. rewrite filter_all.
      - apply map_ext. intros r. now rewrite target_of_absent.
      - intros r _. now rewrite target_of_absent. }
    rewrite E. eexists. split; [reflexivity|]. split; [reflexivity|].
    intros m Hm. run_state. rewrite in_app_iff. tauto.
Qed.

(** ** The derived completeness columns *)

Lemma sum_rows_map {A} (f : A -> list cell) l :
  sum_rows (map f l)
  = if forallb (fun x => match sum_cells (f x) with Some _ => true | None => false end) l
    then Some (map (fun x => match sum_cells (f x) with Some z => z | None => 0%Z end) l)
    else None.
Proof.
  induction l as [|x l IH]; cbn [map sum_rows forallb]; [reflexivity|].
  rewrite IH. destruct (sum_cells (f x)); cbn [andb]; [|reflexivity].
  now destruct (forallb _ l).
Qed.

Lemma select_columns_sel df labels :
  select_columns df labels = map (fun r => sel (columns df) r labels) (rows df).
Proof. reflexivity. Qed.

(** What [add_derived_features] does. *)
Lemma add_derived_features_run df st :
  exists st',
    add_derived_features df st
    = (match has_columns df with
       | [] => Returned df
       | _ :: _ => if summable df then Returned (derived df) else Raised TypeError
       end, st')
    /\ effects st' = effects st
    /\ (forall m, In m (stdout st) -> In m (stdout st')).
Proof.
  unfold add_derived_features.
  change (filter (startswith "has_") (columns df)) with (has_columns df).
  destruct (has_columns df) as [|h hs] eqn:E.
  - exists st. unfold_monad. auto.
  - unfold sum_axis1, all_axis1. rewrite !select_columns_sel, map_map.
    rewrite <- E.
    change (setitem df "has_all_audio"
              (map (fun r => VBool (forallb truthy (sel (columns df) r (has_columns df))))
                 (rows df)))
      with (with_has_all_audio df).
    rewrite sum_rows_map.
    change (forallb _ (rows (with_has_all_audio df))) with (summable df).
    destruct (summable df).
    + cbn [option_map]. unfold_monad. run_state. rewrite !map_map.
      eexists. split; [reflexivity|]. split; [reflexivity|].
      intros m Hm. run_state. rewrite in_app_iff. tauto.
    + cbn [option_map]. unfold_monad. exists st. auto.
Qed.

Lemma aligned_with_has_all_audio df : aligned df -> aligned (with_has_all_audio df).
Proof. apply aligned_setitem_map. Qed.

Lemma aligned_derived df : aligned df -> aligned (derived df).
Proof.
  intros H. unfold derived. apply aligned_setitem_map.
  now apply aligned_with_has_all_audio.
Qed.

Lemma len_setitem_map df k f : len (setitem df k (map f (rows df))) = len df.
Proof. rewrite setitem_map. unfold len. cbn [rows]. apply length_map. Qed.

Lemma len_derived df : len (derived df) = len df.
Proof.
  unfold derived. rewrite len_setitem_map. unfold with_has_all_audio.
  apply len_setitem_map.
Qed.

(** The two derived columns leave every other column as it was. *)
Lemma getitem_derived_other df k :
  aligned df -> k <> "has_all_audio" -> k <> "num_audio_types" ->
  getitem (derived df) k = getitem df k.
Proof.
  intros Ha H1 H2. unfold derived.
  rewrite getitem_setitem_other; [|now apply aligned_with_has_all_audio|assumption].
  unfold with_has_all_audio. now apply getitem_setitem_other.
Qed.

(** ** The final frame *)

Lemma save_run df output_path st :
  exists st',
    save df output_path st
    = (match save_error (disk st) output_path with
       | None => Returned tt
       | Some e => Raised e
       end, st')
    /\ effects st'
       = effects st ++ match save_error (disk st) output_path with
                       | None => save_effects output_path df
                       | Some _ => made_dirs (disk st) output_path
                       end
    /\ (forall m, In m (stdout st) -> In m (stdout st'))
    /\ metadata_df st' = metadata_df st
    /\ audio_paths_df st' = audio_paths_df st
    /\ stdout st'
       = stdout st ++ write_lines (disk st) output_path (Returned (Some df))
    /\ disk st' = disk st
    /\ metadata_csv_path st' = metadata_csv_path st
    /\ audio_base_path st' = audio_base_path st.
Proof.
  unfold write_lines, save, save_error, made_dirs, save_effects.
  destruct output_path as [[|c path]|].
  - exists st. rewrite !app_nil_r. auto 10.
  - fold (dir_of (String c path)).
    unfold bind, os_makedirs, df_to_csv, print.
    destruct (makedirs_error (disk st) (makedirs_chain (dir_of (String c path)))) as [e|].
    + exists st. rewrite !app_nil_r. auto 10.
    + cbn [disk add_effect].
      destruct (names_directory (disk st) (String c path)).
      * eexists. split; [reflexivity|].
        cbn [effects stdout metadata_df audio_paths_df add_effect disk
             metadata_csv_path audio_base_path].
        rewrite app_nil_r. auto 10.
      * eexists. split; [reflexivity|].
        cbn [effects stdout metadata_df audio_paths_df add_effect add_stdout disk
             metadata_csv_path audio_base_path].
        rewrite <- app_assoc. split; [reflexivity|].
        split; [|auto 10]. intros m Hm. rewrite in_app_iff. tauto.
  - exists st. rewrite !app_nil_r. auto 10.
Qed.

Lemma keeps_tables_save df output_path : keeps_tables (save df output_path).
Proof.
  intros st r st' H.
  destruct (save_run df output_path st) as (s & Hs & _ & _ & T & T' & _).
  rewrite Hs in H. inversion H; subst. auto.
Qed.

#[local] Hint Resolve keeps_tables_save : tables_db.

Lemma len_final_table merged : len (final_table merged) = len (labelled merged).
Proof.
  unfold final_table. destruct (has_columns (labelled merged)); [reflexivity|].
  apply len_derived.
Qed.

Lemma getitem_final_table merged k :
  aligned merged -> k <> "has_all_audio" -> k <> "num_audio_types" ->
  getitem (final_table merged) k = getitem (labelled merged) k.
Proof.
  intros Ha H1 H2. unfold final_table.
  destruct (has_columns (labelled merged)); [reflexivity|].
  apply getitem_derived_other; auto. now apply aligned_labelled.
Qed.

(** [create_final_dataset] after a merge that gave a non-empty aligned
    frame: the final frame is written and returned, unless the sum of
    line 173 meets text or the write stops on an error. *)
Lemma create_final_dataset_run output_path st merged st1 :
  merge_datasets st = (Returned (Some merged), st1) ->
  df_empty merged = false ->
  aligned merged ->
  exists st',
    create_final_dataset output_path st
    = (if can_sum merged
       then match save_error (disk st) output_path with
            | None => Returned (Some (final_table merged))
            | Some e => Raised e
            end
       else Raised TypeError,
       st')
    /\ effects st'
       = effects st ++ (if can_sum merged
                        then match save_error (disk st) output_path with
                             | None => save_effects output_path (final_table merged)
                             | Some _ => made_dirs (disk st) output_path
                             end
                        else [])
    /\ (forall m, In m (stdout st1) -> In m (stdout st'))
    /\ (getitem merged "covid_status" = None -> In MsgWarningNoStatus (stdout st'))
    /\ metadata_df st' = metadata_df st1
    /\ audio_paths_df st' = audio_paths_df st1.
Proof.
  intros Hm He Ha. unfold create_final_dataset.
  rewrite (bind_returned _ _ _ _ _ Hm). rewrite He.
  destruct (silent_merge_datasets _ _ _ Hm) as (Heff1 & Hd1 & _).
  destruct (add_target_run merged st1 Ha) as (st2 & H2 & Hw & Hout2).
  rewrite (bind_returned _ _ _ _ _ H2).
  destruct (silent_add_target _ _ _ _ H2) as (Heff2 & Hd2 & _).
  destruct (keeps_tables_add_target _ _ _ _ H2) as (T2 & T2').
  destruct (add_derived_features_run (labelled merged) st2) as (st3 & H3 & Heff3 & Hout3).
  destruct (silent_add_derived_features _ _ _ _ H3) as (_ & Hd3 & _).
  destruct (keeps_tables_add_derived_features _ _ _ _ H3) as (T3 & T3').
  assert (Hd : disk st3 = disk st) by congruence.
  assert (Hwarn : getitem merged "covid_status" = None -> In MsgWarningNoStatus (stdout st2)).
  { intros Hn. rewrite (Hw Hn), in_app_iff. right. now left. }
  assert (Hsave : forall df,
             exists st',
               bind (save df output_path) (fun _ => ret (Some df)) st3
               = (match save_error (disk st) output_path with
                  | None => Returned (Some df)
                  | Some e => Raised e
                  end, st')
               /\ effects st'
                  = effects st ++ match save_error (disk st) output_path with
                                  | None => save_effects output_path df
                                  | Some _ => made_dirs (disk st) output_path
                                  end
               /\ (forall m, In m (stdout st1) -> In m (stdout st'))
               /\ (getitem merged "covid_status" = None ->
                   In MsgWarningNoStatus (stdout st'))
               /\ metadata_df st' = metadata_df st1
               /\ audio_paths_df st' = audio_paths_df st1).
  { intros df.
    destruct (save_run df output_path st3) as (st4 & H4 & Heff4 & Hout4 & T4 & T4' & _).
    rewrite Hd in H4, Heff4. exists st4. unfold bind. rewrite H4.
    split; [now destruct (save_error (disk st) output_path)|].
    split; [congruence|]. split; [auto|]. split; [auto|]. split; congruence. }
  unfold can_sum, final_table.
  destruct (has_columns (labelled merged)) as [|h hs].
  - rewrite (bind_returned _ _ _ _ _ H3). apply Hsave.
  - destruct (summable (labelled merged)).
    + rewrite (bind_returned _ _ _ _ _ H3). apply Hsave.
    + rewrite (bind_raised _ _ _ _ _ H3).
      exists st3. split; [reflexivity|]. rewrite app_nil_r.
      split; [congruence|]. split; [auto|]. split; [auto|]. split; congruence.
Qed.

Lemma silent_save_none df : silent (save df None).
Proof. unfold save. apply silent_ret. Qed.

Lemma silent_create_final_dataset_none : silent (create_final_dataset None).
Proof.
  pose proof silent_save_none.
  unfold create_final_dataset.
  repeat first
    [ apply silent_bind; [|intros ?]
    | progress auto with silent_db
    | match goal with
      | |- silent (match ?x with _ => _ end) => destruct x
      | |- silent (if ?x then _ else _) => destruct x
      end ].
Qed.

(** A run with an output path is the run without one, followed by the
    write when there is a frame to return. *)
Lemma create_final_dataset_split output_path st :
  create_final_dataset output_path st
  = match create_final_dataset None st with
    | (Returned (Some final), s0) => save_then final output_path s0
    | other => other
    end.
Proof.
  unfold create_final_dataset, save_then, bind.
  destruct (merge_datasets st) as [[[m|]|e] st1]; try reflexivity.
  destruct (df_empty m); [reflexivity|].
  destruct (add_target m st1) as [[x|e] st2]; [|reflexivity].
  destruct (add_derived_features x st2) as [[y|e] st3]; reflexivity.
Qed.

Lemma create_final_dataset_with_write output_path st :
  fst (create_final_dataset output_path st)
  = with_write (fst (create_final_dataset None st)) (save_error (disk st) output_path)
  /\ effects (snd (create_final_dataset output_path st))
     = effects st
       ++ write_effects (disk st) output_path (fst (create_final_dataset None st))
  /\ stdout (snd (create_final_dataset output_path st))
     = stdout (snd (create_final_dataset None st))
       ++ write_lines (disk st) output_path (fst (create_final_dataset None st))
  /\ metadata_df (snd (create_final_dataset output_path st))
     = metadata_df (snd (create_final_dataset None st))
  /\ audio_paths_df (snd (create_final_dataset output_path st))
     = audio_paths_df (snd (create_final_dataset None st)).
Proof.
  rewrite create_final_dataset_split.
  destruct (create_final_dataset None st) as [r0 s0] eqn:H0.
  destruct (silent_create_final_dataset_none _ _ _ H0) as (E0 & D0 & _).
  cbn [fst snd].
  destruct r0 as [[final|]|e]; cbn [fst snd with_write write_effects write_lines];
    rewrite ?app_nil_r; auto.
  - unfold save_then, bind.
    destruct (save_run final output_path s0)
      as (s1 & Hs & Heff & _ & T & T' & Hout & _).
    rewrite Hs. rewrite D0 in *. rewrite E0 in Heff.
    unfold write_lines in Hout.
    destruct (save_error (disk st) output_path); cbn [fst snd]; auto.
Qed.

(** ** Loading and merging *)

Lemma load_metadata_returned st df st' :
  load_metadata st = (Returned df, st') ->
  disk st (metadata_csv_path st) = Some (File (Some df))
  /\ metadata_df st' = Some df
  /\ audio_paths_df st' = audio_paths_df st.
Proof.
  unfold load_metadata, pd_read_csv. unfold_monad. run_state.
  destruct (disk st (metadata_csv_path st)) as [[[df'|]|]|]; try discriminate.
  run_state.
  destruct (getitem df' "covid_status"); destruct (getitem df' "id");
    intros H; inversion H; subst; auto.
Qed.

Lemma load_metadata_run st df :
  disk st (metadata_csv_path st) = Some (File (Some df)) ->
  exists st',
    load_metadata st = (Returned df, st')
    /\ metadata_df st' = Some df
    /\ audio_paths_df st' = audio_paths_df st
    /\ disk st' = disk st
    /\ audio_base_path st' = audio_base_path st.
Proof.
  intros Hd. unfold load_metadata, pd_read_csv. unfold_monad. run_state.
  rewrite Hd. run_state.
  destruct (getitem df "covid_status"); destruct (getitem df "id");
    eexists; repeat split.
Qed.

Lemma ensure_loaded_returned st st1 :
  ensure_loaded st = (Returned tt, st1) ->
  exists md inv,
    metadata_df st1 = Some md /\ audio_paths_df st1 = Some inv
    /\ metadata_source st md /\ inventory_source st inv.
Proof.
  unfold ensure_loaded. intros H.
  apply bind_inv in H as [(cached & st0 & H0 & H)|(e & _ & [=])].
  unfold self_metadata_df in H0. inversion H0; subst st0 cached. clear H0.
  apply bind_inv in H as [([] & st2 & Hload & H)|(e & _ & [=])].
  apply bind_inv in H as [(cached & st3 & H0 & H)|(e & _ & [=])].
  unfold self_audio_paths_df in H0. inversion H0; subst st3 cached. clear H0.
  assert (Hmd : exists md, metadata_df st2 = Some md /\ metadata_source st md
                           /\ audio_paths_df st2 = audio_paths_df st
                           /\ disk st2 = disk st
                           /\ audio_base_path st2 = audio_base_path st).
  { destruct (metadata_df st) as [md|] eqn:E.
    - unfold ret in Hload. inversion Hload; subst st2.
      exists md. unfold metadata_source. auto 10.
    - apply bind_inv in Hload as [(df & st4 & Hl & Hr)|(e & _ & [=])].
      unfold ret in Hr. inversion Hr; subst st4.
      destruct (silent_load_metadata _ _ _ Hl) as (_ & Hdisk & _ & Hbase).
      apply load_metadata_returned in Hl as (Hd & Hm & Ha).
      exists df. unfold metadata_source. auto 10. }
  destruct Hmd as (md & Hmd & Hsrc & Haud & Hdisk & Hbase).
  exists md.
  destruct (audio_paths_df st2) as [inv|] eqn:E.
  - unfold ret in H. inversion H; subst st1.
    exists inv. unfold inventory_source. rewrite <- Haud. auto.
  - apply bind_inv in H as [(df & st4 & Hf & Hr)|(e & _ & [=])].
    unfold ret in Hr. inversion Hr; subst st4.
    apply find_audio_files_returned in Hf as (entries & Hd & -> & Hne & Ha & Hm).
    eexists. split; [congruence|]. split; [exact Ha|]. split; [assumption|].
    right. split; [congruence|]. exists entries.
    rewrite <- Hdisk, <- Hbase. auto.
Qed.

Lemma find_left_column_run candidates cols st :
  find_left_column candidates cols st
  = (Returned (find (fun c => mem c cols) candidates),
     match find (fun c => mem c cols) candidates with
     | Some c => add_stdout (MsgUsingColumn c) st
     | None => st
     end).
Proof.
  induction candidates as [|c l IH]; cbn [find_left_column find]; [reflexivity|].
  destruct (mem c cols); [reflexivity | apply IH].
Qed.

(** [merge_datasets] once both frames are loaded: the join on the first
    candidate label the metadata carries, or no result. *)
Lemma merge_datasets_run st st1 md inv :
  ensure_loaded st = (Returned tt, st1) ->
  metadata_df st1 = Some md -> audio_paths_df st1 = Some inv ->
  exists st',
    merge_datasets st
    = (match find (fun c => mem c (columns md)) patient_id_columns with
       | None => Returned None
       | Some c =>
           match pd_merge md inv c "patient_id" with
           | Returned merged => Returned (Some merged)
           | Raised e => Raised e
           end
       end, st')
    /\ (find (fun c => mem c (columns md)) patient_id_columns = None ->
        stdout st'
        = stdout st1 ++ [MsgMerging; MsgErrorNoIdColumn; MsgAvailableColumns (columns md)])
    /\ metadata_df st' = Some md /\ audio_paths_df st' = Some inv.
Proof.
  intros He Hmd Hinv. unfold merge_datasets.
  rewrite (bind_returned _ _ _ _ _ He).
  unfold the_metadata_df, the_audio_paths_df. unfold_monad. run_state.
  rewrite Hmd. rewrite find_left_column_run.
  destruct (find (fun c => mem c (columns md)) patient_id_columns) as [c|].
  - run_state. rewrite Hinv.
    destruct (pd_merge md inv c "patient_id") as [merged|e].
    + destruct (getitem merged "covid_status"); eexists; repeat split;
        run_state; auto; discriminate.
    + eexists. repeat split; run_state; auto; discriminate.
  - run_state. eexists. split; [reflexivity|]. run_state.
    rewrite <- !app_assoc. auto.
Qed.

Lemma merge_datasets_returned st r st' :
  merge_datasets st = (Returned r, st') ->
  exists st1 md inv,
    ensure_loaded st = (Returned tt, st1)
    /\ metadata_df st1 = Some md /\ audio_paths_df st1 = Some inv
    /\ metadata_df st' = Some md /\ audio_paths_df st' = Some inv
    /\ metadata_source st md /\ inventory_source st inv
    /\ match find (fun c => mem c (columns md)) patient_id_columns with
       | None => r = None
       | Some c => exists merged, pd_merge md inv c "patient_id" = Returned merged
                                  /\ r = Some merged
       end.
Proof.
  intros H. pose proof H as H'. unfold merge_datasets in H'.
  apply bind_inv in H' as [([] & st1 & He & _)|(e & _ & [=])].
  destruct (ensure_loaded_returned _ _ He) as (md & inv & Hmd & Hinv & Hs1 & Hs2).
  destruct (merge_datasets_run _ _ _ _ He Hmd Hinv) as (st2 & Hrun & _ & Hmd' & Hinv').
  rewrite Hrun in H. exists st1, md, inv.
  destruct (find (fun c => mem c (columns md)) patient_id_columns) as [c|].
  - destruct (pd_merge md inv c "patient_id") as [merged|e]; inversion H; subst.
    repeat split; auto. eauto.
  - inversion H; subst. repeat split; auto.
Qed.

(** ** The join *)

Lemma remove_nth_length {A} (l : list A) i :
  i < List.length l -> List.length (remove_nth i l) = List.length l - 1.
Proof.
  revert i. induction l as [|x l IH]; intros [|i]; cbn; intros H; try lia.
  rewrite IH by lia. lia.
Qed.

Lemma pd_merge_rows left right left_on right_on merged :
  pd_merge left right left_on right_on = Returned merged ->
  exists li ri,
    index_of left_on (columns left) = Some li
    /\ index_of right_on (columns right) = Some ri
    /\ rows merged
       = flat_map
           (fun l =>
              map (fun r => l ++ (if String.eqb left_on right_on
                                  then remove_nth ri r else r))
                (filter (fun r => key_eqb (cell_at l li) (cell_at r ri)) (rows right)))
           (rows left)
    /\ List.length (columns merged)
       = List.length (columns left)
         + List.length (if String.eqb left_on right_on
                        then remove_nth ri (columns right) else columns right).
Proof.
  unfold pd_merge.
  destruct (index_of left_on (columns left)) as [li|]; [|discriminate].
  destruct (index_of right_on (columns right)) as [ri|]; [|discriminate].
  destruct (keys_refused _ _); [discriminate|].
  destruct (_ || _)%bool; [discriminate|].
  intros [= <-]. exists li, ri. cbn [rows columns].
  rewrite length_app, !length_map. auto.
Qed.

Lemma pd_merge_columns left right left_on right_on merged :
  pd_merge left right left_on right_on = Returned merged ->
  exists li ri,
    index_of left_on (columns left) = Some li
    /\ index_of right_on (columns right) = Some ri
    /\ columns merged
       = map (with_suffix
                (filter (fun c => mem c (if String.eqb left_on right_on
                                         then remove_nth ri (columns right)
                                         else columns right))
                   (columns left)) "_x") (columns left)
         ++ map (with_suffix
                   (filter (fun c => mem c (if String.eqb left_on right_on
                                            then remove_nth ri (columns right)
                                            else columns right))
                      (columns left)) "_y")
              (if String.eqb left_on right_on
               then remove_nth ri (columns right) else columns right)
    /\ rows merged
       = flat_map
           (fun l =>
              map (fun r => l ++ (if String.eqb left_on right_on
                                  then remove_nth ri r else r))
                (filter (fun r => key_eqb (cell_at l li) (cell_at r ri)) (rows right)))
           (rows left).
Proof.
  unfold pd_merge.
  destruct (index_of left_on (columns left)) as [li|]; [|discriminate].
  destruct (index_of right_on (columns right)) as [ri|]; [|discriminate].
  destruct (keys_refused _ _); [discriminate|].
  destruct (_ || _)%bool; [discriminate|].
  intros [= <-]. exists li, ri. cbn [rows columns]. auto.
Qed.

Lemma pd_merge_aligned left right left_on right_on merged :
  aligned left -> aligned right ->
  pd_merge left right left_on right_on = Returned merged -> aligned merged.
Proof.
  intros Hl Hr H.
  destruct (pd_merge_rows _ _ _ _ _ H) as (li & ri & _ & Hri & Hrows & Hcols).
  unfold aligned in *. rewrite Forall_forall in *.
  rewrite Hrows, Hcols. intros x Hx.
  apply in_flat_map in Hx as [l [Hl' Hx]].
  apply in_map_iff in Hx as [r [<- Hr']]. apply filter_In in Hr' as [Hr' _].
  rewrite length_app, (Hl _ Hl'). f_equal.
  apply index_of_lt in Hri. specialize (Hr _ Hr').
  destruct (String.eqb left_on right_on); [|assumption].
  rewrite !remove_nth_length; lia.
Qed.

Lemma pd_merge_len left right left_on right_on merged :
  pd_merge left right left_on right_on = Returned merged ->
  len merged <= len left * len right.
Proof.
  intros H. destruct (pd_merge_rows _ _ _ _ _ H) as (li & ri & _ & _ & Hrows & _).
  unfold len. rewrite Hrows. clear Hrows H.
  induction (rows left) as [|l ls IH]; cbn [flat_map List.length]; [lia|].
  rewrite length_app, length_map.
  pose proof (filter_length_le (fun r => key_eqb (cell_at l li) (cell_at r ri)) (rows right)).
  cbn [Nat.mul]. lia.
Qed.

Lemma inventory_source_aligned st inv :
  wf_state st -> inventory_source st inv -> aligned inv.
Proof.
  intros [_ Hw] [H|(_ & entries & _ & -> & _)]; [auto | apply pd_DataFrame_aligned].
Qed.

Lemma merge_datasets_aligned st merged st1 :
  wf_state st -> merge_datasets st = (Returned (Some merged), st1) -> aligned merged.
Proof.
  intros Hw H.
  destruct (merge_datasets_returned _ _ _ H)
    as (st0 & md & inv & _ & _ & _ & _ & _ & Hs1 & Hs2 & Hfind).
  destruct (find (fun c => mem c (columns md)) patient_id_columns) as [c|];
    [|discriminate].
  destruct Hfind as (merged' & Hmerge & [= <-]).
  eapply pd_merge_aligned; [| |exact Hmerge].
  - destruct Hw as [Hw _]. auto.
  - eapply inventory_source_aligned; eauto.
Qed.

(** ** The join column (C5) *)

Lemma find_first_candidate cols :
  find (fun c => mem c cols) patient_id_columns = first_candidate cols.
Proof.
  unfold first_candidate, patient_id_columns. cbn [find].
  destruct (mem "id" cols); [reflexivity|].
  destruct (mem "d" cols); [reflexivity|].
  now destruct (mem "patient_id" cols).
Qed.

Lemma merge_datasets_join_column_run st st1 md inv :
  ensure_loaded st = (Returned tt, st1) ->
  metadata_df st1 = Some md -> audio_paths_df st1 = Some inv ->
  exists st',
    merge_datasets st
    = (match first_candidate (columns md) with
       | Some c =>
           match pd_merge md inv c "patient_id" with
           | Returned merged => Returned (Some merged)
           | Raised e => Raised e
           end
       | None => Returned None
       end, st').
Proof.
  intros He Hmd Hinv.
  destruct (merge_datasets_run _ _ _ _ He Hmd Hinv) as (st' & Hrun & _).
  rewrite find_first_candidate in Hrun. eauto.
Qed.

(** C5.  Once the two frames are loaded, [merge_datasets] joins on the
    first of [id], [d], [patient_id] that is a column of the metadata; when
    the metadata has none of the three, it prints the error and the list of
    columns, returns no result and writes nothing. *)
Theorem merge_datasets_join_column st st1 md inv :
  ensure_loaded st = (Returned tt, st1) ->
  metadata_df st1 = Some md -> audio_paths_df st1 = Some inv ->
  exists st',
    merge_datasets st
    = (match first_candidate (columns md) with
       | Some c =>
           match pd_merge md inv c "patient_id" with
           | Returned merged => Returned (Some merged)
           | Raised e => Raised e
           end
       | None => Returned None
       end, st')
    /\ (mem "id" (columns md) = false -> mem "d" (columns md) = false ->
        mem "patient_id" (columns md) = false ->
        merge_datasets st = (Returned None, st')
        /\ stdout st'
           = stdout st1 ++ [MsgMerging; MsgErrorNoIdColumn; MsgAvailableColumns (columns md)]
        /\ effects st' = effects st).
Proof.
  intros He Hmd Hinv.
  destruct (merge_datasets_run _ _ _ _ He Hmd Hinv) as (st' & Hrun & Hout & _).
  rewrite find_first_candidate in *. exists st'. split; [exact Hrun|].
  intros H1 H2 H3. unfold first_candidate in *. rewrite H1, H2, H3 in *.
  split; [exact Hrun|]. split; [now apply Hout|].
  now destruct (silent_merge_datasets _ _ _ Hrun).
Qed.

Lemma merge_datasets_join_column_witness :
  exists st',
    merge_datasets no_id_state = (Returned None, st')
    /\ stdout st'
       = stdout (snd (ensure_loaded no_id_state))
         ++ [MsgMerging; MsgErrorNoIdColumn;
             MsgAvailableColumns ["participant"; "covid_status"]]
    /\ effects st' = [].
Proof.
  destruct (merge_datasets_join_column no_id_state (snd (ensure_loaded no_id_state))
              no_id_metadata (pd_DataFrame (audio_data AUDIO_BASE_PATH demo_tree)))
    as (st' & _ & H).
  - vm_compute. reflexivity.
  - vm_compute. reflexivity.
  - vm_compute. reflexivity.
  - exists st'. apply H; reflexivity.
Defined.

(** ** Failure paths write nothing (C7) *)

Lemma create_final_dataset_no_result_inv output_path st st' :
  create_final_dataset output_path st = (Returned None, st') ->
  exists st1,
    st' = add_stdout MsgErrorNoData st1
    /\ (merge_datasets st = (Returned None, st1)
        \/ exists merged, merge_datasets st = (Returned (Some merged), st1)
                          /\ df_empty merged = true).
Proof.
  unfold create_final_dataset. intros H.
  apply bind_inv in H as [(merged & st1 & Hm & H)|(e & _ & [=])].
  destruct merged as [merged|].
  - destruct (df_empty merged) eqn:E.
    + unfold_monad. inversion H; subst. eauto 6.
    + exfalso.
      apply bind_inv in H as [(x & st2 & _ & H)|(e & _ & [=])].
      apply bind_inv in H as [(y & st3 & _ & H)|(e & _ & [=])].
      apply bind_inv in H as [(z & st4 & _ & H)|(e & _ & [=])].
      unfold ret in H. discriminate.
  - unfold_monad. inversion H; subst. eauto.
Qed.

Lemma create_final_dataset_raised_effects output_path st e st' :
  create_final_dataset output_path st = (Raised e, st') ->
  effects st' = effects st \/ exists dir, effects st' = effects st ++ [MakeDirs dir].
Proof.
  unfold create_final_dataset. intros H.
  apply bind_inv in H as [(merged & st1 & Hm & H)|(e' & Hm & _)];
    [|left; now apply silent_merge_datasets in Hm].
  apply silent_merge_datasets in Hm as (Hm & _).
  destruct merged as [merged|]; [|unfold_monad; discriminate].
  destruct (df_empty merged); [unfold_monad; discriminate|].
  apply bind_inv in H as [(x & st2 & Hx & H)|(e' & Hx & _)];
    [|left; apply silent_add_target in Hx as (Hx & _); congruence].
  apply silent_add_target in Hx as (Hx & _).
  apply bind_inv in H as [(y & st3 & Hy & H)|(e' & Hy & _)];
    [|left; apply silent_add_derived_features in Hy as (Hy & _); congruence].
  apply silent_add_derived_features in Hy as (Hy & _).
  destruct (save_run y output_path st3) as (st4 & Hs & Heff & _).
  unfold bind in H. rewrite Hs in H.
  destruct (save_error (disk st3) output_path) as [e'|]; [|unfold ret in H; discriminate].
  inversion H; subst. rewrite Heff, Hy, Hx, Hm.
  unfold made_dirs. destruct output_path as [[|c path]|]; try (left; apply app_nil_r).
  destruct (makedirs_error (disk st3) (makedirs_chain (dir_of (String c path))));
    [left; apply app_nil_r | right; eauto].
Qed.

Lemma skipn_length_app {A} (l l' : list A) : skipn (List.length l) (l ++ l') = l'.
Proof. induction l as [|x l IH]; cbn; auto. Qed.

(** C7.  A run of [create_final_dataset] that returns no result leaves the
    file system as it was.  A run that stops on an exception writes no
    file either: the file system is as it was, or (when it is the write of
    the file that fails) only the directory of the output path has been
    made.  In particular, when the metadata carries none of the three
    identifier columns, and when the join is empty, the run returns no
    result and nothing is written. *)
Theorem no_result_writes_nothing output_path st :
  (forall st', create_final_dataset output_path st = (Returned None, st') ->
               effects st' = effects st)
  /\ (forall e st', create_final_dataset output_path st = (Raised e, st') ->
                    (effects st' = effects st
                     \/ exists dir, effects st' = effects st ++ [MakeDirs dir])
                    /\ forall path, written path (new_effects st st') = None)
  /\ (forall st1 md inv,
         ensure_loaded st = (Returned tt, st1) ->
         metadata_df st1 = Some md -> audio_paths_df st1 = Some inv ->
         first_candidate (columns md) = None ->
         exists st', create_final_dataset output_path st = (Returned None, st')
                     /\ effects st' = effects st)
  /\ (forall merged st1,
         merge_datasets st = (Returned (Some merged), st1) ->
         df_empty merged = true ->
         exists st', create_final_dataset output_path st = (Returned None, st')
                     /\ effects st' = effects st).
Proof.
  assert (Hnone : forall st', create_final_dataset output_path st = (Returned None, st') ->
                              effects st' = effects st).
  { intros st' H.
    apply create_final_dataset_no_result_inv in H as (st1 & -> & [Hm|(merged & Hm & _)]);
      apply silent_merge_datasets in Hm as (Hm & _); exact Hm. }
  split; [exact Hnone|].
  split.
  { intros e st' H. pose proof (create_final_dataset_raised_effects _ _ _ _ H) as Heff.
    split; [exact Heff|]. intros path. unfold new_effects.
    destruct Heff as [-> | [dir ->]].
    - rewrite <- (app_nil_r (effects st)) at 2. now rewrite skipn_length_app.
    - now rewrite skipn_length_app. }
  split.
  - intros st1 md inv He Hmd Hinv Hc.
    destruct (merge_datasets_join_column_run st st1 md inv He Hmd Hinv) as (st2 & Hrun).
    rewrite Hc in Hrun.
    assert (H : create_final_dataset output_path st
                = (Returned None, add_stdout MsgErrorNoData st2)).
    { unfold create_final_dataset. rewrite (bind_returned _ _ _ _ _ Hrun).
      reflexivity. }
    eexists. split; [exact H | now apply Hnone].
  - intros merged st1 Hm He.
    assert (H : create_final_dataset output_path st
                = (Returned None, add_stdout MsgErrorNoData st1)).
    { unfold create_final_dataset. rewrite (bind_returned _ _ _ _ _ Hm), He.
      reflexivity. }
    eexists. split; [exact H | now apply Hnone].
Qed.

Lemma no_result_writes_nothing_witness :
  exists st',
    create_final_dataset (Some OUTPUT_PATH) no_id_state = (Returned None, st')
    /\ effects st' = [].
Proof.
  apply (proj1 (proj2 (proj2 (no_result_writes_nothing (Some OUTPUT_PATH) no_id_state)))
           (snd (ensure_loaded no_id_state)) no_id_metadata
           (pd_DataFrame (audio_data AUDIO_BASE_PATH demo_tree)));
    vm_compute; reflexivity.
Defined.

(** ** The final frame: rows, status and target *)

Lemma mapping_get_spec s : mapping_get covid_mapping s = spec_target s.
Proof.
  unfold covid_mapping, spec_target. cbn [mapping_get mem existsb].
  rewrite !(String.eqb_sym s).
  repeat match goal with
         | |- context [String.eqb ?a s] => destruct (String.eqb a s); [reflexivity|]
         end.
  reflexivity.
Qed.

Lemma spec_target_values s v :
  spec_target s = Some v -> (v = 0%Z \/ v = 1%Z) /\ In s recognized.
Proof.
  unfold spec_target, recognized.
  destruct (mem s ["positive_mild"; "positive_moderate"; "positive_asymp"]) eqn:E1.
  - intros [= <-]. split; [auto|]. apply mem_In in E1. cbn in *. intuition.
  - destruct (mem s ["healthy"; "no_resp_illness_exposed"; "recovered_full"]) eqn:E2;
      [|discriminate].
    intros [= <-]. split; [auto|]. apply mem_In in E2. cbn in *. intuition.
Qed.

Lemma mapped_cell c :
  mapped c = true ->
  exists s, c = VStr s /\ In s recognized
            /\ (map_cell covid_mapping c = VInt 0 \/ map_cell covid_mapping c = VInt 1).
Proof.
  unfold mapped, map_cell. destruct c as [s| | |]; try discriminate.
  rewrite mapping_get_spec. destruct (spec_target s) as [v|] eqn:E; [|discriminate].
  intros _. apply spec_target_values in E as [[-> | ->] Hin]; eauto.
Qed.

Lemma getitem_select_rows merged (p : list cell -> bool) k :
  getitem (select_rows merged (map p (rows merged))) k
  = option_map (fun _ => map (fun r => match row_get (columns merged) r k with
                                       | Some c => c
                                       | None => VNaN
                                       end) (filter p (rows merged)))
      (index_of k (columns merged)).
Proof.
  rewrite getitem_rows.
  replace (select_rows merged (map p (rows merged)))
    with (mkDataFrame (columns merged) (map (fun r => r) (filter p (rows merged)))).
  - cbn [columns rows]. rewrite map_id. now destruct (index_of k (columns merged)).
  - rewrite <- (select_rows_map (fun r => r) p). now rewrite map_id; destruct merged.
Qed.

(** The status and target columns of the labelled frame, from the status
    column of the join. *)
Lemma labelled_columns merged status :
  aligned merged ->
  getitem merged "covid_status" = Some status ->
  getitem (labelled merged) "covid_status" = Some (filter mapped status)
  /\ getitem (labelled merged) "target"
     = Some (map (map_cell covid_mapping) (filter mapped status))
  /\ len (labelled merged) = List.length (filter mapped status).
Proof.
  intros Ha Hs.
  pose proof Hs as Hs'. unfold getitem in Hs'.
  destruct (index_of "covid_status" (columns merged)) as [i|] eqn:Ei; [|discriminate].
  inversion Hs' as [Hst]. clear Hs'.
  assert (Ht : forall r, target_of (columns merged) r = map_cell covid_mapping (cell_at r i)).
  { intros r. unfold target_of, row_get. now rewrite Ei. }
  assert (Hf : filter mapped (map (fun r => cell_at r i) (rows merged))
               = map (fun r => cell_at r i)
                   (filter (fun r => notna (target_of (columns merged) r)) (rows merged))).
  { rewrite filter_map_swap. f_equal. apply filter_ext. intros r.
    unfold mapped. now rewrite Ht. }
  rewrite Hf. repeat split.
  - rewrite getitem_labelled_other by (assumption || discriminate).
    rewrite getitem_select_rows, Ei. cbn [option_map]. f_equal.
    apply map_ext. intros r. unfold row_get. now rewrite Ei.
  - rewrite getitem_labelled_target by assumption. f_equal.
    rewrite map_map. apply map_ext. intros r. apply Ht.
  - unfold len, labelled. cbn [rows]. now rewrite !length_map.
Qed.

Lemma labelled_columns_absent merged :
  aligned merged ->
  getitem merged "covid_status" = None ->
  getitem (labelled merged) "target" = Some (map (fun _ => VInt 0) (rows merged))
  /\ len (labelled merged) = len merged.
Proof.
  intros Ha Hs.
  assert (E : filter (fun r => notna (target_of (columns merged) r)) (rows merged)
              = rows merged).
  { apply filter_all. intros r _. now rewrite target_of_absent. }
  split.
  - rewrite getitem_labelled_target by assumption. rewrite E. f_equal.
    apply map_ext. intros r. now apply target_of_absent.
  - unfold len, labelled. cbn [rows]. now rewrite length_map, E.
Qed.

(** A returned final frame, traced back to the join it was made from. *)
Lemma create_final_dataset_returned output_path st final st' :
  wf_state st ->
  create_final_dataset output_path st = (Returned (Some final), st') ->
  exists merged st1,
    merge_datasets st = (Returned (Some merged), st1)
    /\ df_empty merged = false /\ aligned merged
    /\ can_sum merged = true
    /\ final = final_table merged
    /\ effects st' = effects st ++ save_effects output_path final
    /\ (getitem merged "covid_status" = None -> In MsgWarningNoStatus (stdout st')).
Proof.
  intros Hw H. pose proof H as H'. unfold create_final_dataset in H'.
  apply bind_inv in H' as [(merged & st1 & Hm & H')|(e & _ & [=])].
  destruct merged as [merged|]; [|unfold_monad; discriminate].
  destruct (df_empty merged) eqn:He; [unfold_monad; discriminate|].
  pose proof (merge_datasets_aligned _ _ _ Hw Hm) as Ha.
  destruct (create_final_dataset_run output_path _ _ _ Hm He Ha)
    as (st2 & Hrun & Heff & _ & Hwarn & _).
  rewrite Hrun in H. exists merged, st1.
  destruct (can_sum merged); [|discriminate].
  destruct (save_error (disk st) output_path); [discriminate|].
  inversion H; subst. auto 10.
Qed.

Lemma mapped_iff c : mapped c = true <-> exists s, c = VStr s /\ In s recognized.
Proof.
  split.
  - intros H. apply mapped_cell in H as (s & -> & Hin & _). eauto.
  - intros (s & -> & Hin). unfold recognized in Hin. cbn [In] in Hin.
    repeat (destruct Hin as [<-|Hin]; [reflexivity|]). contradiction.
Qed.

Lemma map_cell_spec s :
  map_cell covid_mapping (VStr s)
  = match spec_target s with
    | Some v => VInt v
    | None => VNaN
    end.
Proof. unfold map_cell. now rewrite mapping_get_spec. Qed.

(** ** The target column (C4) *)

(** C4.  A final frame comes from a join.  When the join has a status
    column, the status column of the final frame is that of the join
    without the cells the six-entry mapping does not know, and its target
    column is the mapping applied to those cells (the three positive
    categories to 1, the three negative ones to 0); when the join has no
    status column, every row is kept with target 0 and the warning is
    printed. *)
Theorem target_from_status output_path st final st' :
  wf_state st ->
  create_final_dataset output_path st = (Returned (Some final), st') ->
  exists merged st1,
    merge_datasets st = (Returned (Some merged), st1)
    /\ (forall status,
           getitem merged "covid_status" = Some status ->
           getitem final "covid_status" = Some (filter mapped status)
           /\ getitem final "target"
              = Some (map (map_cell covid_mapping) (filter mapped status))
           /\ len final = List.length (filter mapped status))
    /\ (getitem merged "covid_status" = None ->
        getitem final "target" = Some (map (fun _ => VInt 0) (rows merged))
        /\ len final = len merged
        /\ In MsgWarningNoStatus (stdout st'))
    /\ (forall c, mapped c = true <-> exists s, c = VStr s /\ In s recognized)
    /\ (forall s, map_cell covid_mapping (VStr s)
                  = match spec_target s with
                    | Some v => VInt v
                    | None => VNaN
                    end).
Proof.
  intros Hw H.
  destruct (create_final_dataset_returned _ _ _ _ Hw H)
    as (merged & st1 & Hm & He & Ha & Hc & -> & Heff & Hwarn).
  exists merged, st1. split; [assumption|]. split; [|split; [|split]].
  - intros status Hs.
    destruct (labelled_columns _ _ Ha Hs) as (H1 & H2 & H3).
    rewrite !getitem_final_table by (assumption || discriminate).
    rewrite len_final_table. auto.
  - intros Hs. destruct (labelled_columns_absent _ Ha Hs) as (H1 & H2).
    rewrite getitem_final_table by (assumption || discriminate).
    rewrite len_final_table. auto.
  - apply mapped_iff.
  - apply map_cell_spec.
Qed.

(** The run on the demo disk: both patients' statuses are mapped, only
    patient [A] has a recording. *)
Lemma demo_state_wf : wf_state demo_state.
Proof.
  split.
  - intros md [H|[_ H]]; [discriminate|].
    vm_compute in H. inversion H; subst. repeat constructor.
  - intros inv H. discriminate.
Qed.

Lemma demo_run :
  create_final_dataset (Some OUTPUT_PATH) demo_state
  = (Returned (Some demo_final), demo_final_state).
Proof. vm_compute. reflexivity. Qed.

Lemma target_from_status_witness :
  exists merged st1,
    merge_datasets demo_state = (Returned (Some merged), st1)
    /\ getitem demo_final "target" = Some [VInt 1].
Proof.
  destruct (target_from_status (Some OUTPUT_PATH) demo_state demo_final
              demo_final_state demo_state_wf demo_run)
    as (merged & st1 & Hm & Hpresent & _).
  exists merged, st1. split; [exact Hm|].
  assert (Hs : getitem merged "covid_status" = Some [VStr "positive_mild"]).
  { pose proof Hm as E. vm_compute in E. inversion E; subst. reflexivity. }
  destruct (Hpresent _ Hs) as (_ & Ht & _). exact Ht.
Defined.

(** The scenario of the specification: patient [A] comes out negative,
    patient [B] positive, each with one audio type; patient [C] has no
    recording and is not in the join. *)
Example scenario_final :
  exists final st',
    create_final_dataset (Some OUTPUT_PATH) scenario_state = (Returned (Some final), st')
    /\ getitem final "id" = Some [VStr "A"; VStr "B"]
    /\ getitem final "target" = Some [VInt 0; VInt 1]
    /\ getitem final "num_audio_types" = Some [VInt 1; VInt 1]
    /\ getitem final "has_all_audio" = Some [VBool false; VBool false].
Proof.
  eexists _, _. split; [vm_compute; reflexivity|]. repeat split.
Qed.

(** ** Target and status values of the final frame (C6) *)

(** C6.  The final frame has a target column and each of its cells is 0
    or 1; when it has a status column, each of its cells is one of the six
    recognised categories. *)
Theorem final_target_binary output_path st final st' :
  wf_state st ->
  create_final_dataset output_path st = (Returned (Some final), st') ->
  (exists target,
      getitem final "target" = Some target
      /\ Forall (fun c => c = VInt 0 \/ c = VInt 1) target)
  /\ (forall status,
         getitem final "covid_status" = Some status ->
         Forall (fun c => exists s, c = VStr s /\ In s recognized) status).
Proof.
  intros Hw H.
  destruct (create_final_dataset_returned _ _ _ _ Hw H)
    as (merged & st1 & Hm & He & Ha & Hc & -> & Heff & Hwarn).
  rewrite !getitem_final_table by (assumption || discriminate).
  destruct (getitem merged "covid_status") as [status0|] eqn:Hs.
  - destruct (labelled_columns _ _ Ha Hs) as (H1 & H2 & _).
    rewrite H1, H2. split.
    + eexists. split; [reflexivity|]. apply Forall_forall. intros c Hc'.
      apply in_map_iff in Hc' as [c0 [<- Hc0]]. apply filter_In in Hc0 as [_ Hc0].
      apply mapped_cell in Hc0 as (s & _ & _ & Hv). exact Hv.
    + intros status [= <-]. apply Forall_forall. intros c Hc'.
      apply filter_In in Hc' as [_ Hc']. now apply mapped_iff.
  - destruct (labelled_columns_absent _ Ha Hs) as (H1 & _). rewrite H1. split.
    + eexists. split; [reflexivity|]. apply Forall_forall. intros c Hc'.
      apply in_map_iff in Hc' as [r [<- _]]. now left.
    + intros status Hst. exfalso.
      rewrite getitem_labelled_other in Hst by (assumption || discriminate).
      rewrite getitem_select_rows in Hst. unfold getitem in Hs.
      destruct (index_of "covid_status" (columns merged)); discriminate.
Qed.

Lemma final_target_binary_witness :
  exists target,
    getitem demo_final "target" = Some target
    /\ Forall (fun c => c = VInt 0 \/ c = VInt 1) target.
Proof.
  exact (proj1 (final_target_binary (Some OUTPUT_PATH) demo_state demo_final
                  demo_final_state demo_state_wf demo_run)).
Defined.

(** ** The number of rows (C1) *)

(** The bound by the smaller table fails: one metadata row joined with two
    inventory rows of the same patient gives two final rows. *)
Lemma final_rows_exceed_min :
  exists final st' md inv,
    create_final_dataset None fan_out_state = (Returned (Some final), st')
    /\ metadata_df st' = Some md /\ audio_paths_df st' = Some inv
    /\ len md = 1 /\ len inv = 2 /\ len final = 2
    /\ ~ len final <= Nat.min (len md) (len inv).
Proof.
  eexists _, _, _, _.
  split; [vm_compute; reflexivity|].
  split; [vm_compute; reflexivity|].
  split; [vm_compute; reflexivity|].
  split; [reflexivity|]. split; [reflexivity|]. split; [reflexivity|].
  cbn. lia.
Qed.

Lemma getitem_length df k s : getitem df k = Some s -> List.length s = len df.
Proof.
  unfold getitem, len. destruct (index_of k (columns df)); [|discriminate].
  intros [= <-]. apply length_map.
Qed.

(** C1, amended.  The final frame has as many rows as the join minus the
    joined rows whose status the mapping does not know (all rows of the
    join when it has no status column); the join, and so the final frame,
    has at most as many rows as the product of the two row counts. *)
Theorem final_row_count output_path st final st' :
  wf_state st ->
  create_final_dataset output_path st = (Returned (Some final), st') ->
  exists merged st1 md inv,
    merge_datasets st = (Returned (Some merged), st1)
    /\ metadata_df st1 = Some md /\ audio_paths_df st1 = Some inv
    /\ (forall status,
           getitem merged "covid_status" = Some status ->
           len final
           = len merged - List.length (filter (fun c => negb (mapped c)) status))
    /\ (getitem merged "covid_status" = None -> len final = len merged)
    /\ len merged <= len md * len inv
    /\ len final <= len md * len inv.
Proof.
  intros Hw H.
  destruct (create_final_dataset_returned _ _ _ _ Hw H)
    as (merged & st1 & Hm & He & Ha & Hc & -> & Heff & Hwarn).
  destruct (merge_datasets_returned _ _ _ Hm)
    as (st0 & md & inv & _ & _ & _ & Hmd & Hinv & _ & _ & Hfind).
  destruct (find (fun c => mem c (columns md)) patient_id_columns) as [c|];
    [|discriminate].
  destruct Hfind as (merged' & Hmerge & [= <-]).
  pose proof (pd_merge_len _ _ _ _ _ Hmerge) as Hle.
  rewrite len_final_table.
  assert (Hlen : len (labelled merged) <= len merged).
  { unfold len, labelled. cbn [rows]. rewrite length_map. apply filter_length_le. }
  exists merged, st1, md, inv. repeat split; auto; try lia.
  - intros status Hs. destruct (labelled_columns _ _ Ha Hs) as (_ & _ & ->).
    pose proof (filter_length mapped status) as Hf.
    rewrite (getitem_length _ _ _ Hs) in Hf. lia.
  - intros Hs. now destruct (labelled_columns_absent _ Ha Hs).
Qed.

Lemma final_row_count_witness :
  exists merged st1 md inv,
    merge_datasets demo_state = (Returned (Some merged), st1)
    /\ metadata_df st1 = Some md /\ audio_paths_df st1 = Some inv
    /\ len demo_final <= len md * len inv.
Proof.
  destruct (final_row_count (Some OUTPUT_PATH) demo_state demo_final
              demo_final_state demo_state_wf demo_run)
    as (merged & st1 & md & inv & Hm & Hmd & Hinv & _ & _ & _ & Hle).
  exists merged, st1, md, inv. auto.
Defined.

(** ** The header of the final frame *)

Lemma filter_put_cols (P : string -> bool) cols k :
  P k = false -> filter P (put_cols cols k) = filter P cols.
Proof.
  intros H. unfold put_cols. destruct (index_of k cols); [reflexivity|].
  rewrite filter_app. cbn. rewrite H. apply app_nil_r.
Qed.

Lemma put_cols_added cols k :
  exists added,
    put_cols cols k = cols ++ added
    /\ ((added = [] /\ In k cols) \/ (added = [k] /\ ~ In k cols)).
Proof.
  unfold put_cols. destruct (index_of k cols) as [i|] eqn:E.
  - exists []. rewrite app_nil_r. split; [reflexivity|]. left. split; [reflexivity|].
    eapply index_of_In; eauto.
  - exists [k]. split; [reflexivity|]. right. split; [reflexivity|].
    intros Hin. destruct (index_of_Some _ _ Hin) as [i [Hi _]]. congruence.
Qed.

Lemma in_put_cols cols k : In k (put_cols cols k).
Proof.
  destruct (put_cols_has cols k) as [i Hi]. eapply index_of_In; eauto.
Qed.

Lemma columns_derived df :
  columns (derived df)
  = put_cols (put_cols (columns df) "has_all_audio") "num_audio_types".
Proof.
  unfold derived, with_has_all_audio. now rewrite !setitem_map.
Qed.

Lemma has_columns_labelled merged : has_columns (labelled merged) = has_columns merged.
Proof.
  unfold has_columns, labelled. cbn [columns]. now apply filter_put_cols.
Qed.




(** ** A join with no mapped status (C10) *)






(** ** The flag columns of the inventory *)

Lemma labels_checked_true : labels_checked = true.
Proof. vm_compute. reflexivity. Qed.

Lemma labels_facts :
  (forall t, In t expected_audio_types ->
     startswith "has_" (has_key t) = true /\ startswith "has_" (path_key t) = false)
  /\ (forall c, In c inventory_labels -> startswith "has_" c = false ->
       startswith "has_" (c ++ "_x") = false /\ startswith "has_" (c ++ "_y") = false)
  /\ ~ In "has_all_audio" flag_labels /\ ~ In "num_audio_types" flag_labels
  /\ ~ In "target" flag_labels /\ ~ In "patient_id" flag_labels.
Proof.
  pose proof labels_checked_true as H. unfold labels_checked in H.
  rewrite !andb_true_iff in H.
  destruct H as ((((((((H1 & H2) & H3) & H4) & H5) & H6) & _) & _) & _).
  rewrite forallb_forall in H1, H2.
  rewrite negb_true_iff in H3, H4, H5, H6.
  rewrite <- !mem_false. repeat split; auto.
  - specialize (H1 t H). now apply andb_prop in H1 as [H1 _].
  - specialize (H1 t H). apply andb_prop in H1 as [_ H1]. now apply negb_true_iff.
  - specialize (H2 c H). rewrite H0 in H2. cbn [orb] in H2.
    apply andb_prop in H2 as [H2 _]. now apply negb_true_iff.
  - specialize (H2 c H). rewrite H0 in H2. cbn [orb] in H2.
    apply andb_prop in H2 as [_ H2]. now apply negb_true_iff.
Qed.

Lemma has_key_has t : In t expected_audio_types -> startswith "has_" (has_key t) = true.
Proof. intros Ht. now destruct (proj1 labels_facts t Ht). Qed.

Lemma path_key_not_has t :
  In t expected_audio_types -> startswith "has_" (path_key t) = false.
Proof. intros Ht. now destruct (proj1 labels_facts t Ht). Qed.

Lemma suffix_not_has c :
  In c inventory_labels -> startswith "has_" c = false ->
  startswith "has_" (c ++ "_x") = false /\ startswith "has_" (c ++ "_y") = false.
Proof. apply (proj1 (proj2 labels_facts)). Qed.

Lemma added_labels_no_flags :
  ~ In "has_all_audio" flag_labels /\ ~ In "num_audio_types" flag_labels
  /\ ~ In "target" flag_labels /\ ~ In "patient_id" flag_labels.
Proof. apply (proj2 (proj2 labels_facts)). Qed.

Lemma audio_record_keys patient_path p d fs k :
  In k (dict_keys (audio_record patient_path p d fs)) -> In k inventory_labels.
Proof.
  unfold audio_record, inventory_labels. rewrite dict_keys_app.
  intros H. apply in_app_or in H as [H|H]; apply in_or_app; [now left | right].
  unfold dict_keys in H. apply in_map_iff in H as [[k' v] [E H]]. cbn in E. subst k'.
  apply in_flat_map in H as [t [Ht H]]. apply in_flat_map. exists t.
  split; [assumption|]. unfold audio_entries, audio_keys in *.
  destruct (exists_in fs t); cbn in *; intuition congruence.
Qed.

Lemma filter_has_entries patient_path fs types :
  (forall t, In t types -> In t expected_audio_types) ->
  filter (startswith "has_")
    (dict_keys (flat_map (audio_entries patient_path fs) types))
  = map has_key types.
Proof.
  induction types as [|t types IH]; intros H; [reflexivity|].
  cbn [flat_map map]. rewrite dict_keys_app, filter_app, IH by (intros; apply H; now right).
  rewrite audio_entries_keys. unfold audio_keys.
  assert (Ht : In t expected_audio_types) by (apply H; now left).
  destruct (exists_in fs t); cbn [filter];
    rewrite ?(path_key_not_has t Ht), (has_key_has t Ht); reflexivity.
Qed.

Lemma audio_record_flag_labels patient_path p d fs :
  filter (startswith "has_") (dict_keys (audio_record patient_path p d fs)) = flag_labels.
Proof.
  unfold audio_record. rewrite dict_keys_app, filter_app.
  rewrite filter_has_entries by auto. reflexivity.
Qed.

Lemma add_keys_NoDup ks : forall acc, NoDup (acc ++ ks) -> add_keys acc ks = acc ++ ks.
Proof.
  unfold add_keys.
  induction ks as [|x ks IH]; intros acc H; cbn [fold_left].
  - now rewrite app_nil_r.
  - replace (mem x acc) with false.
    + rewrite IH; [now rewrite <- app_assoc|]. now rewrite <- app_assoc.
    + symmetry. apply mem_false. apply NoDup_remove_2 in H.
      intros Hin. apply H, in_or_app. now left.
Qed.

Lemma filter_add_keys (P : string -> bool) ks :
  forall acc,
    (forall k, In k ks -> P k = true -> In k acc) ->
    filter P (add_keys acc ks) = filter P acc.
Proof.
  unfold add_keys.
  induction ks as [|x ks IH]; intros acc H; cbn [fold_left]; [reflexivity|].
  destruct (mem x acc) eqn:E.
  - apply IH. intros k Hk. apply H. now right.
  - rewrite IH.
    + rewrite filter_app. cbn [filter].
      destruct (P x) eqn:EP; [|now rewrite app_nil_r].
      exfalso. apply mem_false in E. apply E, H; [now left | assumption].
    + intros k Hk HP. apply in_or_app. left. apply H; [now right | assumption].
Qed.

Lemma filter_has_union_fold records :
  forall acc,
    Forall is_audio_record records ->
    filter (startswith "has_") acc = flag_labels ->
    filter (startswith "has_")
      (fold_left (fun acc d => add_keys acc (dict_keys d)) records acc)
    = flag_labels.
Proof.
  induction records as [|rec records IH]; intros acc Hall Hacc; cbn [fold_left];
    [assumption|].
  inversion Hall as [|? ? (pp & p & d & fs & ->) Hall']; subst.
  apply IH; [assumption|].
  rewrite filter_add_keys; [assumption|].
  intros k Hk HP.
  assert (Hin : In k (filter (startswith "has_") acc)).
  { rewrite Hacc, <- (audio_record_flag_labels pp p d fs). now apply filter_In. }
  now apply filter_In in Hin.
Qed.

(** The flag columns of an inventory are the nine flag labels, in the
    order of the expected types. *)
Lemma inventory_flag_columns records :
  Forall is_audio_record records -> records <> [] ->
  has_columns (pd_DataFrame records) = flag_labels.
Proof.
  intros Hall Hne. unfold has_columns. cbn [columns pd_DataFrame]. unfold union_keys.
  change (filter (startswith "has_")
            (fold_left (fun acc d => add_keys acc (dict_keys d)) records [])
          = flag_labels).
  destruct records as [|rec records]; [congruence|]. cbn [fold_left].
  inversion Hall as [|? ? (pp & p & d & fs & ->) Hall']; subst.
  apply filter_has_union_fold; [assumption|].
  rewrite add_keys_NoDup by apply audio_record_NoDup.
  apply audio_record_flag_labels.
Qed.

Lemma inventory_columns_known records k :
  Forall is_audio_record records ->
  In k (columns (pd_DataFrame records)) -> In k inventory_labels.
Proof.
  intros Hall Hk. apply in_union_keys in Hk as (rec & Hrec & Hk).
  rewrite Forall_forall in Hall. destruct (Hall _ Hrec) as (pp & p & d & fs & ->).
  eapply audio_record_keys; eauto.
Qed.

Lemma audio_data_records base entries : Forall is_audio_record (audio_data base entries).
Proof.
  apply Forall_forall. intros rec H.
  apply in_audio_data in H as (d & ds & p & fs & _ & _ & _ & ->).
  unfold is_audio_record. eauto.
Qed.

(** The flag cells of an inventory row. *)
Lemma inventory_row_flags records rec t :
  Forall is_audio_record records -> In rec records -> In t expected_audio_types ->
  exists b, row_get (columns (pd_DataFrame records))
              (record_row (union_keys records) rec) (has_key t)
            = Some (flag b).
Proof.
  intros Hall Hrec Ht. rewrite Forall_forall in Hall.
  destruct (Hall _ Hrec) as (pp & p & d & fs & ->).
  destruct (inventory_row_fields _ _ _ _ _ Hrec) as (_ & _ & H).
  destruct (H t Ht) as [Hf _]. apply field_Some in Hf. eauto.
Qed.

(** ** Flag columns through the join *)

Lemma row_get_remove_nth cols :
  forall r i k,
    List.length r = List.length cols ->
    nth_error cols i <> Some k ->
    row_get (remove_nth i cols) (remove_nth i r) k = row_get cols r k.
Proof.
  unfold row_get, cell_at.
  induction cols as [|x cols IH]; intros [|c r] i k Hlen Hne; try discriminate.
  - now destruct i.
  - destruct i as [|i]; cbn [remove_nth index_of].
    + cbn in Hne. destruct (String.eqb_spec x k) as [->|_]; [congruence|].
      now destruct (index_of k cols).
    + destruct (String.eqb_spec x k) as [->|_]; [reflexivity|].
      cbn in Hne, Hlen. specialize (IH r i k ltac:(lia) Hne).
      destruct (index_of k (remove_nth i cols)); destruct (index_of k cols);
        cbn in *; congruence.
Qed.

Lemma filter_remove_nth (P : string -> bool) cols :
  forall i k, nth_error cols i = Some k -> P k = false ->
              filter P (remove_nth i cols) = filter P cols.
Proof.
  induction cols as [|x cols IH]; intros [|i] k H HP; try discriminate.
  - cbn in H. inversion H; subst. cbn. now rewrite HP.
  - cbn in *. now rewrite (IH i k H HP).
Qed.

Lemma in_remove_nth {A} (l : list A) : forall i x, In x (remove_nth i l) -> In x l.
Proof.
  induction l as [|y l IH]; intros [|i] x H; cbn in *; auto.
  destruct H as [H|H]; eauto.
Qed.

Lemma filter_map_fixed (P : string -> bool) (f : string -> string) l :
  (forall c, In c l -> P c = true -> f c = c) ->
  (forall c, In c l -> P c = false -> P (f c) = false) ->
  filter P (map f l) = filter P l.
Proof.
  induction l as [|x l IH]; intros H1 H2; [reflexivity|]. cbn [map filter].
  rewrite IH;
    [| intros c Hc; apply H1; now right | intros c Hc; apply H2; now right].
  destruct (P x) eqn:E.
  - rewrite H1; [now rewrite E | now left | assumption].
  - rewrite H2; [reflexivity | now left | assumption].
Qed.

Lemma filter_none (P : string -> bool) l :
  (forall c, In c l -> P c = false) -> filter P l = [].
Proof.
  induction l as [|x l IH]; intros H; [reflexivity|]. cbn.
  rewrite H by now left. apply IH. intros c Hc. apply H. now right.
Qed.

Lemma index_of_map_fixed (f : string -> string) k l :
  (forall c, In c l -> (f c = k <-> c = k)) ->
  index_of k (map f l) = index_of k l.
Proof.
  induction l as [|x l IH]; intros H; [reflexivity|]. cbn [map index_of].
  rewrite IH by (intros; apply H; now right).
  pose proof (H x (or_introl eq_refl)) as Hx.
  destruct (String.eqb_spec (f x) k) as [E|E]; destruct (String.eqb_spec x k) as [E'|E'];
    try reflexivity; exfalso; tauto.
Qed.

Section Join.

Variable md : DataFrame.
Variable records : list dict.
Variable left_on : string.
Variable merged : DataFrame.

Hypothesis md_aligned : aligned md.
Hypothesis md_no_has : forall c, In c (columns md) -> startswith "has_" c = false.
Hypothesis records_audio : Forall is_audio_record records.
Hypothesis records_some : records <> [].
Hypothesis merge_ok :
  pd_merge md (pd_DataFrame records) left_on "patient_id" = Returned merged.

Lemma right_key_not_has k i :
  index_of "patient_id" (columns (pd_DataFrame records)) = Some i ->
  startswith "has_" k = true -> nth_error (columns (pd_DataFrame records)) i <> Some k.
Proof.
  intros Hi Hk E. apply index_of_nth_error in Hi. rewrite Hi in E.
  inversion E; subst. discriminate.
Qed.

(** The columns of the join that start with [has_] are the nine flag
    columns, and each joined row carries a 0/1 flag under each. *)
Lemma merged_flag_columns :
  has_columns merged = flag_labels
  /\ aligned merged
  /\ forall m, In m (rows merged) ->
       forall t, In t expected_audio_types ->
         exists b, row_get (columns merged) m (has_key t) = Some (flag b).
Proof.
  pose proof (pd_DataFrame_aligned records) as inv_aligned.
  pose proof (pd_merge_aligned _ _ _ _ _ md_aligned inv_aligned merge_ok) as Ha.
  destruct (pd_merge_columns _ _ _ _ _ merge_ok) as (li & ri & Eli & Eri & Hcols & Hrows).
  set (rcols := if String.eqb left_on "patient_id"
                then remove_nth ri (columns (pd_DataFrame records)) else columns (pd_DataFrame records)) in *.
  set (overlap := filter (fun c => mem c rcols) (columns md)) in *.
  assert (Hrc : forall c, In c rcols -> In c (columns (pd_DataFrame records))).
  { intros c. unfold rcols. destruct (String.eqb left_on "patient_id"); [|auto].
    apply in_remove_nth. }
  assert (Hov : forall c, mem c overlap = true -> startswith "has_" c = false
                                                  /\ In c inventory_labels).
  { intros c Hc. apply mem_In in Hc. unfold overlap in Hc.
    apply filter_In in Hc as [Hc1 Hc2]. split; [now apply md_no_has|].
    apply mem_In in Hc2. eapply inventory_columns_known; eauto. }
  assert (Hx : forall c, In c (columns md) ->
                 startswith "has_" (with_suffix overlap "_x" c) = false).
  { intros c Hc. unfold with_suffix. destruct (mem c overlap) eqn:E.
    - destruct (Hov _ E) as [Hn Hk]. now destruct (suffix_not_has c Hk Hn).
    - now apply md_no_has. }
  assert (Hy1 : forall c, startswith "has_" c = true -> with_suffix overlap "_y" c = c).
  { intros c Hc. unfold with_suffix. destruct (mem c overlap) eqn:E; [|reflexivity].
    destruct (Hov _ E) as [Hn _]. congruence. }
  assert (Hy2 : forall c, startswith "has_" c = false ->
                  startswith "has_" (with_suffix overlap "_y" c) = false).
  { intros c Hc. unfold with_suffix. destruct (mem c overlap) eqn:E; [|assumption].
    destruct (Hov _ E) as [Hn Hk]. now destruct (suffix_not_has c Hk Hn). }
  assert (Hfr : filter (startswith "has_") rcols = flag_labels).
  { rewrite <- (inventory_flag_columns records records_audio records_some).
    unfold has_columns, rcols.
    destruct (String.eqb left_on "patient_id"); [|reflexivity].
    apply filter_remove_nth with (k := "patient_id");
      [now apply index_of_nth_error | reflexivity]. }
  split; [|split; [exact Ha|]].
  - unfold has_columns. rewrite Hcols.
    rewrite filter_app, (filter_none _ (map _ (columns md))).
    + cbn [app]. rewrite filter_map_fixed; auto.
    + intros c Hc. apply in_map_iff in Hc as [c0 [<- Hc0]]. now apply Hx.
  - intros m Hin t Ht.
    rewrite Hrows in Hin. rewrite Hcols.
    apply in_flat_map in Hin as [l [Hl Hin]].
    apply in_map_iff in Hin as [r [<- Hr]]. apply filter_In in Hr as [Hr _].
    pose proof (has_key_has t Ht) as Hhas.
    assert (Hll : List.length l = List.length (columns md)).
    { unfold aligned in md_aligned. rewrite Forall_forall in md_aligned. auto. }
    assert (Hrl : List.length r = List.length (columns (pd_DataFrame records))).
    { unfold aligned in inv_aligned. rewrite Forall_forall in inv_aligned. auto. }
    assert (Hleft : index_of (has_key t) (map (with_suffix overlap "_x") (columns md))
                    = None).
    { apply index_of_None. intros Hc. apply in_map_iff in Hc as [c0 [E Hc0]].
      apply Hx in Hc0. congruence. }
    assert (Hright : index_of (has_key t) (map (with_suffix overlap "_y") rcols)
                     = index_of (has_key t) rcols).
    { apply index_of_map_fixed. intros c Hc. split.
      - intros E. destruct (startswith "has_" c) eqn:Ec.
        + now rewrite Hy1 in E.
        + apply Hy2 in Ec. congruence.
      - intros ->. now apply Hy1. }
    set (r' := if String.eqb left_on "patient_id" then remove_nth ri r else r).
    assert (Hget : row_get rcols r' (has_key t) = row_get (columns (pd_DataFrame records)) r (has_key t)).
    { unfold rcols, r'. destruct (String.eqb left_on "patient_id"); [|reflexivity].
      apply row_get_remove_nth; [assumption|].
      now apply right_key_not_has. }
    assert (Hrow : row_get (map (with_suffix overlap "_x") (columns md)
                            ++ map (with_suffix overlap "_y") rcols)
                     (l ++ r') (has_key t)
                   = row_get rcols r' (has_key t)).
    { unfold row_get. rewrite index_of_app_r by assumption. rewrite Hright.
      destruct (index_of (has_key t) rcols) as [j|]; [|reflexivity].
      cbn [option_map]. f_equal. unfold cell_at. rewrite length_map, <- Hll.
      rewrite app_nth2 by lia. f_equal. lia. }
    rewrite Hrow, Hget.
    rewrite pd_DataFrame_rows in Hr.
    apply in_map_iff in Hr as [rec [<- Hrec]].
    now apply inventory_row_flags.
Qed.

End Join.

(** ** The derived columns from the flags (C2) *)

Lemma has_key_flag_label t : In t expected_audio_types -> In (has_key t) flag_labels.
Proof. intros H. unfold flag_labels. now apply in_map. Qed.

Lemma flag_frame_labelled merged : flag_frame merged -> flag_frame (labelled merged).
Proof.
  intros (Hc & Ha & Hr). split; [|split].
  - unfold has_columns, labelled. cbn [columns].
    rewrite filter_put_cols by reflexivity. exact Hc.
  - now apply aligned_labelled.
  - intros m Hm t Ht. unfold labelled in Hm |- *. cbn [rows columns] in *.
    apply in_map_iff in Hm as [r [<- Hin]]. apply filter_In in Hin as [Hin _].
    rewrite row_get_put_other.
    + now apply Hr.
    + unfold aligned in Ha. rewrite Forall_forall in Ha. auto.
    + intros E. destruct added_labels_no_flags as (_ & _ & H & _).
      apply H. rewrite <- E. now apply has_key_flag_label.
Qed.

(** Truth and sum of a list of 0/1 flags. *)
Lemma flags_summary l :
  Forall (fun c => exists b, c = flag b) l ->
  Forall (fun c => c = VInt 0 \/ c = VInt 1) l
  /\ forallb truthy l = forallb is_one l
  /\ sum_cells l = Some (Z.of_nat (List.length (filter is_one l))).
Proof.
  induction 1 as [|c l [b ->] _ (IH1 & IH2 & IH3)]; [repeat split; constructor|].
  cbn [forallb sum_cells filter]. rewrite IH2, IH3.
  destruct b.
  - change (is_one (flag true)) with true. change (truthy (flag true)) with true.
    change (summand (flag true)) with (Some 1%Z).
    split; [constructor; auto|]. split; [reflexivity|].
    cbn [List.length]. f_equal. lia.
  - change (is_one (flag false)) with false. change (truthy (flag false)) with false.
    change (summand (flag false)) with (Some 0%Z).
    split; [constructor; auto|]. split; reflexivity.
Qed.

Lemma sel_flag_labels cols r :
  sel cols r flag_labels
  = map (fun t => match row_get cols r (has_key t) with
                  | Some c => c
                  | None => VNaN
                  end) expected_audio_types.
Proof. unfold sel, flag_labels. now rewrite map_map. Qed.

Lemma sel_ext cols cols' r r' labels :
  (forall k, In k labels -> row_get cols' r' k = row_get cols r k) ->
  sel cols' r' labels = sel cols r labels.
Proof.
  intros H. unfold sel. apply map_ext_in. intros k Hk. now rewrite H.
Qed.

Lemma stored_sum_small sub z : (0 <= z < 2 ^ 63)%Z -> stored_sum sub z = z.
Proof.
  intros H. unfold stored_sum, wrap64. destruct (int_block sub); [|reflexivity].
  rewrite Z.mod_small; lia.
Qed.

Section Derived.

Variable df : DataFrame.
Hypothesis df_flags : flag_frame df.

Lemma derived_row r v :
  In r (rows df) ->
  let r1 := put (columns df) "has_all_audio" r
              (VBool (forallb truthy (sel (columns df) r flag_labels))) in
  let r2 := put (columns_172 df) "num_audio_types" r1 v in
  List.length r1 = List.length (columns_172 df)
  /\ sel (columns_172 df) r1 flag_labels = sel (columns df) r flag_labels
  /\ flag_cells (derived df) r2 = sel (columns df) r flag_labels
  /\ row_get (columns (derived df)) r2 "has_all_audio"
     = Some (VBool (forallb truthy (sel (columns df) r flag_labels)))
  /\ row_get (columns (derived df)) r2 "num_audio_types" = Some v.
Proof.
  destruct df_flags as (Hc & Ha & Hr). intros Hin r1 r2.
  destruct added_labels_no_flags as (N1 & N2 & _).
  assert (Hlen : List.length r = List.length (columns df)).
  { unfold aligned in Ha. rewrite Forall_forall in Ha. auto. }
  assert (Hcols1 : columns_172 df = put_cols (columns df) "has_all_audio").
  { unfold columns_172, with_has_all_audio. now rewrite setitem_map. }
  assert (Hlen1 : List.length r1 = List.length (columns_172 df)).
  { rewrite Hcols1. now apply put_length. }
  assert (Hcols2 : columns (derived df) = put_cols (columns_172 df) "num_audio_types").
  { unfold derived. rewrite setitem_map. reflexivity. }
  assert (H1 : forall k, In k flag_labels -> row_get (columns_172 df) r1 k = row_get (columns df) r k).
  { intros k Hk. rewrite Hcols1. apply row_get_put_other; [assumption|].
    intros ->. contradiction. }
  assert (H2 : forall k, In k flag_labels ->
                 row_get (columns (derived df)) r2 k = row_get (columns df) r k).
  { intros k Hk. rewrite Hcols2. unfold r2. rewrite row_get_put_other.
    - now apply H1.
    - assumption.
    - intros ->. contradiction. }
  split; [assumption|]. split; [now apply sel_ext|]. split; [|split].
  - unfold flag_cells. rewrite (sel_flag_labels (columns df) r).
    apply map_ext_in. intros t Ht.
    rewrite H2 by now apply has_key_flag_label. reflexivity.
  - rewrite Hcols2. unfold r2. rewrite row_get_put_other by (assumption || discriminate).
    rewrite Hcols1. unfold r1. now apply row_get_put_same.
  - rewrite Hcols2. unfold r2. now apply row_get_put_same.
Qed.

Lemma flag_cells_are_flags r :
  In r (rows df) ->
  Forall (fun c => exists b, c = flag b) (sel (columns df) r flag_labels).
Proof.
  destruct df_flags as (Hc & Ha & Hr). intros Hin.
  rewrite sel_flag_labels. apply Forall_forall. intros c Hc'.
  apply in_map_iff in Hc' as [t [<- Ht]].
  destruct (Hr r Hin t Ht) as [b ->]. eauto.
Qed.

Lemma derived_rows r2 :
  In r2 (rows (derived df)) ->
  exists r, In r (rows df)
    /\ r2 = put (columns_172 df) "num_audio_types"
              (put (columns df) "has_all_audio" r
                 (VBool (forallb truthy (sel (columns df) r flag_labels))))
              (VInt (stored_sum (select_columns (with_has_all_audio df) flag_labels)
                       (row_total (columns_172 df) flag_labels
                          (put (columns df) "has_all_audio" r
                             (VBool (forallb truthy
                                       (sel (columns df) r flag_labels))))))).
Proof.
  destruct df_flags as (Hc & _). unfold derived.
  rewrite Hc. rewrite setitem_map. cbn [rows].
  intros H. apply in_map_iff in H as [r1 [<- Hr1]].
  unfold with_has_all_audio in Hr1. rewrite Hc, setitem_map in Hr1. cbn [rows] in Hr1.
  apply in_map_iff in Hr1 as [r [<- Hr]]. exists r. split; [assumption|].
  reflexivity.
Qed.

(** The derived columns of a flag frame are functions of the nine flags
    of the row. *)
Lemma derived_from_flags r2 :
  In r2 (rows (derived df)) ->
  Forall (fun c => c = VInt 0 \/ c = VInt 1) (flag_cells (derived df) r2)
  /\ row_get (columns (derived df)) r2 "has_all_audio"
     = Some (VBool (forallb is_one (flag_cells (derived df) r2)))
  /\ row_get (columns (derived df)) r2 "num_audio_types"
     = Some (VInt (Z.of_nat (List.length (filter is_one (flag_cells (derived df) r2))))).
Proof.
  intros H. destruct (derived_rows _ H) as (r & Hr & ->).
  destruct (derived_row r
              (VInt (stored_sum (select_columns (with_has_all_audio df) flag_labels)
                       (row_total (columns_172 df) flag_labels
                          (put (columns df) "has_all_audio" r
                             (VBool (forallb truthy
                                       (sel (columns df) r flag_labels)))))))
              Hr) as (_ & Hs & Hf & Ha & Hn). cbv zeta in *.
  destruct (flags_summary _ (flag_cells_are_flags r Hr)) as (F1 & F2 & F3).
  rewrite Hf, Ha, Hn. unfold row_total. rewrite Hs, F3, F2.
  split; [assumption|]. split; [reflexivity|]. do 2 f_equal.
  apply stored_sum_small.
  pose proof (filter_length_le is_one (sel (columns df) r flag_labels)) as Hle.
  unfold sel in Hle at 2. rewrite length_map in Hle.
  change (List.length flag_labels) with 9 in Hle. lia.
Qed.

Lemma flag_frame_summable : summable df = true.
Proof.
  destruct df_flags as (Hc & Ha & Hrows).
  unfold summable. apply forallb_forall. intros r1 Hr1.
  unfold with_has_all_audio in Hr1. rewrite setitem_map in Hr1. cbn [rows] in Hr1.
  apply in_map_iff in Hr1 as [r [<- Hr]]. rewrite Hc.
  destruct (derived_row r VNaN Hr) as (_ & Hs & _). cbv zeta in Hs.
  fold (columns_172 df). rewrite Hs.
  destruct (flags_summary _ (flag_cells_are_flags r Hr)) as (_ & _ & F3).
  now rewrite F3.
Qed.

End Derived.

Lemma metadata_source_unique st md md' :
  metadata_source st md -> metadata_source st md' -> md = md'.
Proof.
  intros [H|[H1 H2]] [H'|[H1' H2']]; congruence.
Qed.

(** C2.  The two derived columns are computed from every column of the
    join whose name starts with [has_], not from the nine flags alone: on
    a metadata table with a column [has_fever] set to 1 and a patient with
    one of the nine recordings, [num_audio_types] is 2 while exactly one
    flag is 1. *)
Lemma derived_fields_read_other_columns :
  exists final st' r,
    create_final_dataset None fever_state = (Returned (Some final), st')
    /\ In r (rows final)
    /\ List.length (filter is_one (flag_cells final r)) = 1
    /\ row_get (columns final) r "num_audio_types" = Some (VInt 2)
    /\ row_get (columns final) r "num_audio_types"
       <> Some (VInt (Z.of_nat (List.length (filter is_one (flag_cells final r))))).
Proof.
  eexists _, _, _.
  split; [vm_compute; reflexivity|].
  split; [left; reflexivity|].
  split; [reflexivity|]. split; [reflexivity|].
  vm_compute. discriminate.
Qed.

(** X16.  When no column of the metadata starts with [has_] and
    the inventory is the one the run scans, every row of the final frame
    has its nine flags, each 0 or 1; [has_all_audio] is true exactly when
    all nine are 1, and [num_audio_types] is the number of flags that are
    1: both are computed from the nine flag cells of the row. *)
Theorem derived_fields_from_flags output_path st md final st' :
  wf_state st ->
  audio_paths_df st = None ->
  metadata_source st md ->
  (forall c, In c (columns md) -> startswith "has_" c = false) ->
  create_final_dataset output_path st = (Returned (Some final), st') ->
  forall r, In r (rows final) ->
    Forall (fun c => c = VInt 0 \/ c = VInt 1) (flag_cells final r)
    /\ row_get (columns final) r "has_all_audio"
       = Some (VBool (forallb is_one (flag_cells final r)))
    /\ row_get (columns final) r "num_audio_types"
       = Some (VInt (Z.of_nat (List.length (filter is_one (flag_cells final r))))).
Proof.
  intros Hw Hnone Hsrc Hno H r Hr.
  destruct (create_final_dataset_returned _ _ _ _ Hw H)
    as (merged & st1 & Hm & He & Ha & Hc & -> & _).
  destruct (merge_datasets_returned _ _ _ Hm)
    as (st0 & md' & inv & _ & _ & _ & _ & _ & Hsrc' & Hinv & Hfind).
  rewrite <- (metadata_source_unique _ _ _ Hsrc Hsrc') in Hfind.
  destruct (find (fun c => mem c (columns md)) patient_id_columns) as [c|];
    [|discriminate].
  destruct Hfind as (merged' & Hmerge & [= <-]).
  destruct Hinv as [Hinv|(_ & entries & _ & -> & Hne)]; [congruence|].
  assert (Hflags : flag_frame (labelled merged)).
  { apply flag_frame_labelled.
    apply (merged_flag_columns md (audio_data (audio_base_path st) entries) c merged);
      auto.
    - destruct Hw as [Hw _]. auto.
    - apply audio_data_records. }
  unfold final_table in Hr |- *.
  destruct Hflags as (Hcols & Hrest).
  rewrite Hcols in Hr |- *. unfold flag_labels, expected_audio_types in Hr |- *.
  cbn [map] in Hr |- *.
  apply derived_from_flags; [|assumption].
  split; assumption.
Qed.

Lemma derived_fields_from_flags_witness :
  exists r,
    In r (rows demo_final)
    /\ row_get (columns demo_final) r "num_audio_types"
       = Some (VInt (Z.of_nat (List.length (filter is_one (flag_cells demo_final r))))).
Proof.
  eexists. split; [left; reflexivity|].
  apply (derived_fields_from_flags (Some OUTPUT_PATH) demo_state demo_metadata
           demo_final demo_final_state demo_state_wf eq_refl).
  - right. split; reflexivity.
  - intros c Hc. cbn in Hc. intuition (subst; reflexivity).
  - exact demo_run.
  - left. reflexivity.
Defined.

(** ** Two runs on the same inputs (C8) *)

Create HintDb sim_db.

Section Determinism.

(** The two paths a merger reads. *)
Variables pm pa : string.

Lemma sim_bind b {A B} (m : M A) (k : A -> M B) :
  sim pm pa b m -> (forall a, sim pm pa b (k a)) -> sim pm pa b (bind m k).
Proof.
  intros Hm Hk e1 e2 o1 o2 s1 s2 Hag. unfold bind.
  destruct (Hm _ _ _ _ _ _ Hag) as [Hr Hag'].
  destruct (m s1) as [[a|e] s1']; destruct (m s2) as [[a'|e'] s2'];
    cbn [fst snd] in *; try discriminate.
  - inversion Hr; subst. now apply Hk.
  - inversion Hr; subst. auto.
Qed.

Lemma sim_ret b {A} (a : A) : sim pm pa b (ret a).
Proof. intros e1 e2 o1 o2 s1 s2 H. auto. Qed.

Lemma sim_lift b {A} (x : result A) : sim pm pa b (lift x).
Proof. intros e1 e2 o1 o2 s1 s2 H. auto. Qed.

Lemma sim_raise b {A} e : sim pm pa b (@raise A e).
Proof. intros e1 e2 o1 o2 s1 s2 H. auto. Qed.

Lemma sim_print b m : sim pm pa b (print m).
Proof.
  intros e1 e2 o1 o2 s1 s2 (H1 & H2 & H3 & (ms & M1 & M2) & H5).
  split; [reflexivity|]. unfold print, agree. cbn.
  split; [assumption|]. split; [assumption|]. split; [assumption|].
  split; [|assumption].
  exists (ms ++ [m]). rewrite M1, M2, <- !app_assoc. auto.
Qed.

Lemma sim_do_effect b e : sim pm pa b (do_effect e).
Proof.
  intros e1 e2 o1 o2 s1 s2 (H1 & H2 & (es & E1 & E2) & H4 & H5).
  split; [reflexivity|]. unfold do_effect, agree. cbn.
  split; [assumption|]. split; [assumption|].
  split; [|split; assumption].
  exists (es ++ [e]). rewrite E1, E2, <- !app_assoc. auto.
Qed.

Lemma sim_set_metadata_df b df : sim pm pa b (set_metadata_df df).
Proof.
  intros e1 e2 o1 o2 s1 s2 (H1 & H2 & H3 & H4 & H5).
  split; [reflexivity|]. unfold set_metadata_df, agree. cbn.
  split; [assumption|]. split; [assumption|]. split; [assumption|].
  split; [assumption|]. intros Hb. specialize (H5 Hb). tauto.
Qed.

Lemma sim_set_audio_paths_df b df : sim pm pa b (set_audio_paths_df df).
Proof.
  intros e1 e2 o1 o2 s1 s2 (H1 & H2 & H3 & H4 & H5).
  split; [reflexivity|]. unfold set_audio_paths_df, agree. cbn.
  split; [assumption|]. split; [assumption|]. split; [assumption|].
  split; [assumption|]. intros Hb. specialize (H5 Hb). tauto.
Qed.

Lemma sim_self_metadata_df : sim pm pa true self_metadata_df.
Proof.
  intros e1 e2 o1 o2 s1 s2 H. split; [|exact H].
  destruct H as (_ & _ & _ & _ & H). specialize (H eq_refl).
  unfold self_metadata_df. cbn. f_equal. tauto.
Qed.

Lemma sim_self_audio_paths_df : sim pm pa true self_audio_paths_df.
Proof.
  intros e1 e2 o1 o2 s1 s2 H. split; [|exact H].
  destruct H as (_ & _ & _ & _ & H). specialize (H eq_refl).
  unfold self_audio_paths_df. cbn. f_equal. tauto.
Qed.

Lemma sim_self_audio_base_path : sim pm pa true self_audio_base_path.
Proof.
  intros e1 e2 o1 o2 s1 s2 H. split; [|exact H].
  destruct H as (_ & _ & _ & _ & H). specialize (H eq_refl).
  unfold self_audio_base_path. cbn. f_equal. destruct H as (_ & _ & -> & -> & _).
  reflexivity.
Qed.

(** [pd.read_csv(self.metadata_csv_path)] *)
Lemma sim_read_metadata :
  sim pm pa true (bind self_metadata_csv_path (fun path => pd_read_csv path)).
Proof.
  intros e1 e2 o1 o2 s1 s2 H. pose proof H as (H1 & _ & _ & _ & H5).
  destruct (H5 eq_refl) as (P1 & P2 & _).
  unfold self_metadata_csv_path, pd_read_csv, read_disk, ret, raise, bind.
  cbv beta iota. rewrite P1, P2, H1.
  destruct (disk s2 pm) as [[[df|]|]|]; cbn; auto.
Qed.

(** [os.listdir(self.audio_base_path)] *)
Lemma sim_list_base :
  sim pm pa true (bind self_audio_base_path (fun path => listdir path)).
Proof.
  intros e1 e2 o1 o2 s1 s2 H. pose proof H as (_ & H2 & _ & _ & H5).
  destruct (H5 eq_refl) as (_ & _ & P1 & P2 & _).
  unfold self_audio_base_path, listdir, read_disk, ret, raise, bind.
  cbv beta iota. rewrite P1, P2, H2.
  destruct (disk s2 pa) as [[|]|]; cbn; auto.
Qed.

#[local] Hint Resolve sim_ret sim_lift sim_raise sim_print sim_do_effect
  sim_set_metadata_df sim_set_audio_paths_df sim_self_metadata_df
  sim_self_audio_paths_df sim_self_audio_base_path sim_read_metadata
  sim_list_base : sim_db.

Ltac sim_tac :=
  repeat first
    [ solve [auto with sim_db]
    | apply sim_bind; [|intros ?]
    | match goal with
      | |- sim pm pa _ (match ?x with _ => _ end) => destruct x
      | |- sim pm pa _ (if ?x then _ else _) => destruct x
      end ].

Lemma sim_getitem_or_raise b df k : sim pm pa b (getitem_or_raise df k).
Proof. unfold getitem_or_raise. sim_tac. Qed.

#[local] Hint Resolve sim_getitem_or_raise : sim_db.

Lemma sim_load_metadata : sim pm pa true load_metadata.
Proof. unfold load_metadata. sim_tac. Qed.

Lemma sim_find_audio_files : sim pm pa true find_audio_files.
Proof. unfold find_audio_files. sim_tac. Qed.

#[local] Hint Resolve sim_load_metadata sim_find_audio_files : sim_db.

Lemma sim_ensure_loaded : sim pm pa true ensure_loaded.
Proof. unfold ensure_loaded. sim_tac. Qed.

Lemma sim_find_left_column b candidates cols : sim pm pa b (find_left_column candidates cols).
Proof. induction candidates as [|c l IH]; cbn [find_left_column]; sim_tac. Qed.

#[local] Hint Resolve sim_ensure_loaded sim_find_left_column : sim_db.

Lemma sim_merge_datasets : sim pm pa true merge_datasets.
Proof. unfold merge_datasets, the_metadata_df, the_audio_paths_df. sim_tac. Qed.

Lemma sim_add_target b df : sim pm pa b (add_target df).
Proof. unfold add_target, series_sum. sim_tac. Qed.

Lemma sim_add_derived_features b df : sim pm pa b (add_derived_features df).
Proof. unfold add_derived_features, sum_axis1. sim_tac. Qed.

Lemma sim_save b df : sim pm pa b (save df None).
Proof. unfold save. sim_tac. Qed.

#[local] Hint Resolve sim_merge_datasets sim_add_target sim_add_derived_features
  sim_save : sim_db.

Lemma sim_create_final_dataset : sim pm pa true (create_final_dataset None).
Proof. unfold create_final_dataset. sim_tac. Qed.

End Determinism.

(* ------------------------------------------------------------------ *)
(** * Further properties of the methods *)

(** ** [load_metadata] and cached frames *)

Lemma load_metadata_full st df :
  disk st (metadata_csv_path st) = Some (File (Some df)) ->
  exists st',
    load_metadata st = (Returned df, st')
    /\ metadata_df st' = Some df
    /\ audio_paths_df st' = audio_paths_df st
    /\ effects st' = effects st
    /\ stdout st' = stdout st ++ load_lines df.
Proof.
  intros Hd. unfold load_metadata, pd_read_csv, load_lines, head. unfold_monad.
  run_state. rewrite Hd. run_state.
  destruct (getitem df "covid_status"); destruct (getitem df "id");
    eexists; (split; [reflexivity|]); run_state; repeat split;
    cbn [app]; rewrite <- ?app_assoc; reflexivity.
Qed.

Lemma load_metadata_fails st :
  (forall df, disk st (metadata_csv_path st) <> Some (File (Some df))) ->
  exists e,
    load_metadata st = (Raised e, add_stdout MsgLoadingMetadata st).
Proof.
  intros Hd. unfold load_metadata, pd_read_csv. unfold_monad. run_state.
  destruct (disk st (metadata_csv_path st)) as [[[df|]|]|] eqn:E; eauto.
  exfalso. now apply (Hd df).
Qed.

(** X1.  [load_metadata] returns the table parsed from the file at
    [metadata_csv_path], stores it in [self.metadata_df] and prints its
    shape, its columns, the status counts when there is a [covid_status]
    column and the first five identifiers when there is an [id] column;
    when the path holds no parsable file it raises after its first line,
    with the object's two tables and the file system untouched. *)
Theorem load_metadata_behaviour st :
  (forall df,
      disk st (metadata_csv_path st) = Some (File (Some df)) ->
      exists st',
        load_metadata st = (Returned df, st')
        /\ metadata_df st' = Some df
        /\ audio_paths_df st' = audio_paths_df st
        /\ effects st' = effects st
        /\ stdout st' = stdout st ++ load_lines df)
  /\ ((forall df, disk st (metadata_csv_path st) <> Some (File (Some df))) ->
      exists e st',
        load_metadata st = (Raised e, st')
        /\ metadata_df st' = metadata_df st
        /\ audio_paths_df st' = audio_paths_df st
        /\ effects st' = effects st
        /\ stdout st' = stdout st ++ [MsgLoadingMetadata]).
Proof.
  split.
  - apply load_metadata_full.
  - intros Hd. destruct (load_metadata_fails st Hd) as [e He].
    exists e, (add_stdout MsgLoadingMetadata st). auto.
Qed.

Lemma load_metadata_behaviour_witness :
  exists st',
    load_metadata demo_state = (Returned demo_metadata, st')
    /\ stdout st'
       = [MsgLoadingMetadata; MsgMetadataShape 2 2; MsgColumns ["id"; "covid_status"];
          MsgStatusDistribution; MsgValueCounts [VStr "positive_mild"; VStr "healthy"];
          MsgSampleIds [VStr "A"; VStr "B"]].
Proof.
  destruct (proj1 (load_metadata_behaviour demo_state) demo_metadata eq_refl)
    as (st' & Hrun & _ & _ & _ & Hout).
  exists st'. split; [exact Hrun | exact Hout].
Defined.

Lemma ensure_loaded_cached st md inv :
  metadata_df st = Some md -> audio_paths_df st = Some inv ->
  ensure_loaded st = (Returned tt, st).
Proof.
  intros Hmd Hinv. unfold ensure_loaded. unfold_monad. run_state.
  rewrite Hmd. run_state. now rewrite Hinv.
Qed.

Lemma merge_datasets_cached_run st md inv :
  metadata_df st = Some md -> audio_paths_df st = Some inv ->
  exists st',
    merge_datasets st
    = (match first_candidate (columns md) with
       | Some c =>
           match pd_merge md inv c "patient_id" with
           | Returned merged => Returned (Some merged)
           | Raised e => Raised e
           end
       | None => Returned None
       end, st')
    /\ stdout st' = stdout st ++ merge_lines md inv
    /\ effects st' = effects st
    /\ metadata_df st' = Some md /\ audio_paths_df st' = Some inv.
Proof.
  intros Hmd Hinv. unfold merge_datasets, merge_lines.
  rewrite (bind_returned _ _ _ _ _ (ensure_loaded_cached _ _ _ Hmd Hinv)).
  unfold the_metadata_df, the_audio_paths_df. unfold_monad. run_state.
  rewrite Hmd. rewrite find_left_column_run, find_first_candidate.
  destruct (first_candidate (columns md)) as [c|].
  - run_state. rewrite Hinv.
    destruct (pd_merge md inv c "patient_id") as [merged|e].
    + destruct (getitem merged "covid_status"); eexists;
        (split; [reflexivity|]); run_state; rewrite <- ?app_assoc; auto.
    + eexists. split; [reflexivity|]. run_state. rewrite <- ?app_assoc. auto.
  - run_state. eexists. split; [reflexivity|]. run_state.
    rewrite <- ?app_assoc. auto.
Qed.

Lemma merge_lines_no_load md inv :
  ~ In MsgLoadingMetadata (merge_lines md inv) /\ ~ In MsgScanning (merge_lines md inv).
Proof.
  unfold merge_lines.
  destruct (first_candidate (columns md)) as [c|];
    [destruct (pd_merge md inv c "patient_id") as [merged|e];
     [destruct (getitem merged "covid_status")|]|];
    cbn [In]; split; intros H;
    repeat (destruct H as [H|H]; [discriminate|]); exact H.
Qed.

(** X2.  [merge_datasets] loads a table only when the attribute is still
    [None]: with both tables set it joins them whatever the disk holds,
    prints neither the loading nor the scanning line and writes nothing;
    so a second call on the object a first call leaves returns what the
    first call returned, even on a changed disk. *)
Theorem merge_datasets_uses_cached_tables d :
  (forall st md inv,
      metadata_df st = Some md -> audio_paths_df st = Some inv ->
      exists st',
        merge_datasets (with_disk d st)
        = (match first_candidate (columns md) with
           | Some c =>
               match pd_merge md inv c "patient_id" with
               | Returned merged => Returned (Some merged)
               | Raised e => Raised e
               end
           | None => Returned None
           end, st')
        /\ stdout st' = stdout st ++ merge_lines md inv
        /\ ~ In MsgLoadingMetadata (merge_lines md inv)
        /\ ~ In MsgScanning (merge_lines md inv)
        /\ effects st' = effects st)
  /\ (forall st r st1,
         merge_datasets st = (Returned r, st1) ->
         exists st2,
           merge_datasets (with_disk d st1) = (Returned r, st2)
           /\ effects st2 = effects st1).
Proof.
  split.
  - intros st md inv Hmd Hinv.
    destruct (merge_datasets_cached_run (with_disk d st) md inv Hmd Hinv)
      as (st' & Hrun & Hout & Heff & _).
    destruct (merge_lines_no_load md inv) as [N1 N2].
    exists st'. auto 10.
  - intros st r st1 H.
    destruct (merge_datasets_returned _ _ _ H)
      as (st0 & md & inv & _ & _ & _ & Hmd & Hinv & _ & _ & Hfind).
    destruct (merge_datasets_cached_run (with_disk d st1) md inv Hmd Hinv)
      as (st2 & Hrun & _ & Heff & _).
    rewrite find_first_candidate in Hfind.
    exists st2. split; [|exact Heff]. rewrite Hrun.
    destruct (first_candidate (columns md)) as [c|].
    + destruct Hfind as (merged & -> & ->). reflexivity.
    + now subst r.
Qed.

Lemma merge_datasets_uses_cached_tables_witness :
  exists r st1 st2,
    merge_datasets demo_state = (Returned r, st1)
    /\ merge_datasets (with_disk empty_disk st1) = (Returned r, st2)
    /\ effects st2 = effects st1.
Proof.
  destruct (merge_datasets demo_state) as [[r|e] st1] eqn:H.
  - destruct (proj2 (merge_datasets_uses_cached_tables empty_disk) demo_state r st1 H)
      as (st2 & H2 & Heff).
    exists r, st1, st2. auto.
  - vm_compute in H. discriminate.
Defined.

(** ** Finding no recording *)

Lemma audio_data_nil_iff base entries :
  audio_data base entries = [] <-> no_recordings entries.
Proof.
  split.
  - intros Hnil d ds p fs Hds Hfs t Ht.
    destruct (exists_in fs t) eqn:E; [|reflexivity]. exfalso.
    assert (Hin : In (audio_record (os_path_join (os_path_join base d) p) p d fs)
                    (audio_data base entries)).
    { apply in_audio_data. exists d, ds, p, fs. repeat split; auto.
      apply existsb_expected. eauto. }
    rewrite Hnil in Hin. contradiction.
  - intros Hno. destruct (audio_data base entries) as [|rec recs] eqn:E; [reflexivity|].
    exfalso.
    assert (Hin : In rec (audio_data base entries)) by (rewrite E; now left).
    apply in_audio_data in Hin as (d & ds & p & fs & Hds & Hfs & Hex & _).
    apply existsb_expected in Hex as (t & Ht & Hex).
    rewrite (Hno d ds p fs Hds Hfs t Ht) in Hex. discriminate.
Qed.

Lemma find_audio_files_without_recordings_run st entries :
  disk st (audio_base_path st) = Some (Dir entries) ->
  (audio_data (audio_base_path st) entries = [] <-> no_recordings entries)
  /\ (no_recordings entries ->
      exists st',
        find_audio_files st = (Raised (KeyError "patient_id"), st')
        /\ stdout st'
           = stdout st ++ [MsgScanning;
                           MsgFoundDateFolders (List.length (date_folders_of entries));
                           MsgFoundPatients 0]).
Proof.
  intros Hd. split; [apply audio_data_nil_iff|].
  intros Hno. apply (audio_data_nil_iff (audio_base_path st)) in Hno.
  unfold find_audio_files, listdir, getitem_or_raise. unfold_monad.
  run_state. rewrite Hd. run_state. rewrite Hno.
  cbn [pd_DataFrame union_keys fold_left getitem columns index_of map rows len
       List.length].
  eexists. split; [reflexivity|]. run_state. now rewrite <- !app_assoc.
Qed.

(** X3.  On a base directory, [find_audio_files] stops on
    [KeyError('patient_id')] (the sample line reads a column the empty
    frame does not have) exactly when no patient folder holds any of the
    nine expected files; the object is then left with an inventory that has
    no columns and no rows, and nothing is written. *)
Theorem find_audio_files_without_recordings st entries :
  disk st (audio_base_path st) = Some (Dir entries) ->
  (no_recordings entries <->
   exists st', find_audio_files st = (Raised (KeyError "patient_id"), st'))
  /\ (no_recordings entries ->
      exists st',
        find_audio_files st = (Raised (KeyError "patient_id"), st')
        /\ audio_paths_df st' = Some (mkDataFrame [] [])
        /\ metadata_df st' = metadata_df st
        /\ effects st' = effects st).
Proof.
  intros Hd.
  destruct (find_audio_files_run st entries Hd) as (st' & Hrun & Ha & Hm).
  assert (Hforward : no_recordings entries ->
            exists st', find_audio_files st = (Raised (KeyError "patient_id"), st')
                        /\ audio_paths_df st' = Some (mkDataFrame [] [])
                        /\ metadata_df st' = metadata_df st
                        /\ effects st' = effects st).
  { intros Hno. apply (audio_data_nil_iff (audio_base_path st)) in Hno.
    rewrite Hno in Hrun, Ha. exists st'. repeat split; auto.
    now destruct (silent_find_audio_files _ _ _ Hrun). }
  split; [split|exact Hforward].
  - intros Hno. destruct (Hforward Hno) as (st2 & H2 & _). eauto.
  - intros (st2 & H2). apply (audio_data_nil_iff (audio_base_path st)).
    rewrite H2 in Hrun.
    destruct (audio_data (audio_base_path st) entries); [reflexivity|discriminate].
Qed.

Lemma find_audio_files_without_recordings_witness :
  exists st',
    find_audio_files silent_state = (Raised (KeyError "patient_id"), st')
    /\ audio_paths_df st' = Some (mkDataFrame [] []).
Proof.
  destruct (proj2 (find_audio_files_without_recordings silent_state silent_tree eq_refl))
    as (st' & Hrun & Ha & _).
  - apply (audio_data_nil_iff AUDIO_BASE_PATH). reflexivity.
  - exists st'. auto.
Defined.

(** ** The output path *)


(** ** The entry point *)

Lemma main_missing_metadata st :
  disk st METADATA_CSV = None ->
  main st = (Returned tt, add_stdout (MsgNotFound METADATA_CSV) (banner st)).
Proof.
  intros H. unfold main, os_path_exists, banner. unfold_monad. run_state.
  rewrite H. reflexivity.
Qed.

Lemma main_missing_audio st :
  disk st METADATA_CSV <> None -> disk st AUDIO_BASE_PATH = None ->
  main st = (Returned tt, add_stdout (MsgNotFound AUDIO_BASE_PATH) (banner st)).
Proof.
  intros Hm Ha. unfold main, os_path_exists, banner. unfold_monad. run_state.
  destruct (disk st METADATA_CSV); [|congruence]. cbn [negb]. run_state.
  rewrite Ha. reflexivity.
Qed.

(** [main] once both inputs exist: the outcome of [create_final_dataset]
    on a fresh merger decides the rest. *)
Lemma main_with_inputs st :
  disk st METADATA_CSV <> None -> disk st AUDIO_BASE_PATH <> None ->
  main st
  = match create_final_dataset (Some OUTPUT_PATH) (constructed st) with
    | (Returned (Some final), st') =>
        match getitem final "target" with
        | Some target =>
            match sum_cells target with
            | Some positive =>
                (Returned tt,
                 add_stdout (MsgCovidNegative (Z.of_nat (len final) - positive))
                   (add_stdout (MsgCovidPositive positive)
                      (add_stdout (MsgFinalCount (len final))
                         (add_stdout MsgProcessComplete st'))))
            | None =>
                (Raised TypeError,
                 add_stdout (MsgFinalCount (len final))
                   (add_stdout MsgProcessComplete st'))
            end
        | None =>
            (Returned tt,
             add_stdout (MsgFinalCount (len final)) (add_stdout MsgProcessComplete st'))
        end
    | (Returned None, st') => (Returned tt, add_stdout MsgProcessFailed st')
    | (Raised e, st') => (Raised e, st')
    end.
Proof.
  intros Hm Ha. unfold main, os_path_exists, construct, series_sum, constructed, banner.
  unfold_monad. run_state.
  destruct (disk st METADATA_CSV); [|congruence]. cbn [negb]. run_state.
  destruct (disk st AUDIO_BASE_PATH); [|congruence]. cbn [negb]. run_state.
  destruct (create_final_dataset (Some OUTPUT_PATH) _) as [[[final|]|e] st'];
    try reflexivity.
  run_state. destruct (getitem final "target") as [target|]; [|reflexivity].
  run_state. destruct (sum_cells target); reflexivity.
Qed.

(** What a run of [main] adds when an input is missing. *)
Lemma main_new_missing st :
  disk st METADATA_CSV = None \/ disk st AUDIO_BASE_PATH = None ->
  fst (main st) = Returned tt
  /\ new_effects st (snd (main st)) = []
  /\ new_stdout st (snd (main st))
     = [MsgBanner; MsgMetadataCsv METADATA_CSV; MsgAudioPath AUDIO_BASE_PATH;
        MsgOutput OUTPUT_PATH; MsgBlank;
        MsgNotFound (match disk st METADATA_CSV with
                     | None => METADATA_CSV
                     | Some _ => AUDIO_BASE_PATH
                     end)].
Proof.
  intros H.
  assert (Hrun : main st
                 = (Returned tt,
                    add_stdout (MsgNotFound (match disk st METADATA_CSV with
                                             | None => METADATA_CSV
                                             | Some _ => AUDIO_BASE_PATH
                                             end)) (banner st))).
  { destruct (disk st METADATA_CSV) as [n|] eqn:Em.
    - destruct H as [H|H]; [discriminate|].
      apply main_missing_audio; congruence.
    - now apply main_missing_metadata. }
  rewrite Hrun. cbn [fst snd]. split; [reflexivity|]. split.
  - unfold new_effects. cbn [effects add_stdout banner].
    rewrite <- (app_nil_r (effects st)) at 2. apply skipn_length_app.
  - unfold new_stdout. cbn [stdout add_stdout banner].
    rewrite <- !app_assoc. apply skipn_length_app.
Qed.

(** What a run of [main] adds once both inputs exist, from the run of
    [create_final_dataset] without an output path. *)
Lemma main_new_run st :
  disk st METADATA_CSV <> None -> disk st AUDIO_BASE_PATH <> None ->
  let r0 := fst (create_final_dataset None (constructed st)) in
  let s0 := snd (create_final_dataset None (constructed st)) in
  let r := with_write r0 (save_error (disk st) (Some OUTPUT_PATH)) in
  fst (main st) = fst (main_tail r)
  /\ new_effects st (snd (main st)) = write_effects (disk st) (Some OUTPUT_PATH) r0
  /\ stdout (snd (main st))
     = stdout s0 ++ write_lines (disk st) (Some OUTPUT_PATH) r0 ++ snd (main_tail r).
Proof.
  intros Hm Ha r0 s0 r. rewrite (main_with_inputs st Hm Ha).
  destruct (create_final_dataset_with_write (Some OUTPUT_PATH) (constructed st))
    as (Hr & He & Ho & _).
  change (disk (constructed st)) with (disk st) in *.
  change (effects (constructed st)) with (effects st) in *.
  fold r0 in Hr, He, Ho. fold s0 in Ho. fold r in Hr.
  destruct (create_final_dataset (Some OUTPUT_PATH) (constructed st)) as [w sw].
  cbn [fst snd] in Hr, He, Ho. rewrite <- Hr.
  assert (Hnew : forall s', effects s' = effects sw ->
                            new_effects st s'
                            = write_effects (disk st) (Some OUTPUT_PATH) r0).
  { intros s' E. unfold new_effects. rewrite E, He. apply skipn_length_app. }
  rewrite app_assoc, <- Ho.
  destruct w as [[final|]|e]; cbn [main_tail fst snd].
  - destruct (getitem final "target") as [target|].
    + destruct (sum_cells target) as [positive|]; cbn [fst snd];
        (split; [reflexivity|]); (split; [now apply Hnew|]);
        cbn [stdout add_stdout]; now rewrite <- !app_assoc.
    + cbn [fst snd]. split; [reflexivity|]. split; [now apply Hnew|].
      cbn [stdout add_stdout]. now rewrite <- !app_assoc.
  - split; [reflexivity|]. split; [now apply Hnew|]. reflexivity.
  - split; [reflexivity|]. split; [now apply Hnew|]. now rewrite app_nil_r.
Qed.

(** The write to the fixed output path looks at the working directory and
    at the output path only. *)
Lemma save_error_output d1 d2 :
  d1 OUTPUT_PATH = d2 OUTPUT_PATH -> d1 "." = d2 "." ->
  save_error d1 (Some OUTPUT_PATH) = save_error d2 (Some OUTPUT_PATH)
  /\ made_dirs d1 (Some OUTPUT_PATH) = made_dirs d2 (Some OUTPUT_PATH).
Proof.
  intros Ho Hd. unfold save_error, made_dirs, names_directory.
  rewrite Ho.
  change (makedirs_chain (dir_of OUTPUT_PATH)) with ["."].
  unfold OUTPUT_PATH. cbn [makedirs_error]. rewrite Hd. auto.
Qed.

(** The one file a list of write effects leaves. *)
Lemma written_write_effects d r path c :
  written path (write_effects d (Some OUTPUT_PATH) r) = Some c ->
  path = OUTPUT_PATH /\ exists final, r = Returned (Some final) /\ c = to_csv final.
Proof.
  unfold write_effects. destruct r as [[final|]|e]; try discriminate.
  destruct (save_error d (Some OUTPUT_PATH)).
  - unfold made_dirs, OUTPUT_PATH.
    destruct (makedirs_error d _); discriminate.
  - unfold save_effects, OUTPUT_PATH, written. cbn [fold_left].
    destruct (String.eqb _ path) eqn:E; [|discriminate].
    apply String.eqb_eq in E. intros [= <-]. split; [now symmetry|]. eauto.
Qed.

(** C8.  Two runs of the entry point from states whose metadata file and
    audio directory (entries in enumeration order included) are the same:
    whenever both write a file, it is the output file, with the same
    content, and so the same bytes under any serialisation of that content.
    When, moreover, the same lies at the output path and at the working
    directory in both states (so that the write goes the same way), the two
    runs end alike, print the same lines and perform the same file system
    effects. *)
Theorem pipeline_deterministic s1 s2 :
  disk s1 METADATA_CSV = disk s2 METADATA_CSV ->
  disk s1 AUDIO_BASE_PATH = disk s2 AUDIO_BASE_PATH ->
  (forall path c1 c2,
      written path (new_effects s1 (snd (main s1))) = Some c1 ->
      written path (new_effects s2 (snd (main s2))) = Some c2 ->
      path = OUTPUT_PATH /\ c1 = c2
      /\ forall render : csv -> list Byte.byte, render c1 = render c2)
  /\ (disk s1 OUTPUT_PATH = disk s2 OUTPUT_PATH -> disk s1 "." = disk s2 "." ->
      fst (main s1) = fst (main s2)
      /\ new_effects s1 (snd (main s1)) = new_effects s2 (snd (main s2))
      /\ new_stdout s1 (snd (main s1)) = new_stdout s2 (snd (main s2))
      /\ forall (render : csv -> list Byte.byte) path,
           option_map render (written path (new_effects s1 (snd (main s1))))
           = option_map render (written path (new_effects s2 (snd (main s2))))).
Proof.
  intros H1 H2.
  destruct (sim_create_final_dataset METADATA_CSV AUDIO_BASE_PATH
              (effects s1) (effects s2) (stdout s1) (stdout s2)
              (constructed s1) (constructed s2))
    as (Hr & _ & _ & _ & (ms & M1 & M2) & _).
  { unfold agree. cbn [constructed disk effects stdout banner add_stdout
                       metadata_csv_path audio_base_path metadata_df audio_paths_df].
    split; [assumption|]. split; [assumption|].
    split; [exists []; now rewrite !app_nil_r|].
    split; [eexists; rewrite <- !app_assoc; split; reflexivity|]. auto 10. }
  assert (Hpresent : (disk s1 METADATA_CSV = None \/ disk s1 AUDIO_BASE_PATH = None)
                     \/ (disk s1 METADATA_CSV <> None /\ disk s1 AUDIO_BASE_PATH <> None)).
  { destruct (disk s1 METADATA_CSV); destruct (disk s1 AUDIO_BASE_PATH);
      auto; right; split; discriminate. }
  destruct Hpresent as [Hmiss | [Pm Pa]].
  - destruct (main_new_missing s1 Hmiss) as (R1 & E1 & O1).
    assert (Hmiss2 : disk s2 METADATA_CSV = None \/ disk s2 AUDIO_BASE_PATH = None)
      by (rewrite <- H1, <- H2; exact Hmiss).
    destruct (main_new_missing s2 Hmiss2) as (R2 & E2 & O2).
    split.
    + intros path c1 c2 W1. rewrite E1 in W1. discriminate.
    + intros _ _. rewrite R1, R2, E1, E2, O1, O2, H1. auto.
  - assert (Pm2 : disk s2 METADATA_CSV <> None) by (now rewrite <- H1).
    assert (Pa2 : disk s2 AUDIO_BASE_PATH <> None) by (now rewrite <- H2).
    destruct (main_new_run s1 Pm Pa) as (R1 & E1 & O1).
    destruct (main_new_run s2 Pm2 Pa2) as (R2 & E2 & O2).
    cbv zeta in R1, E1, O1, R2, E2, O2.
    rewrite <- Hr in R2, E2, O2.
    split.
    + intros path c1 c2 W1 W2. rewrite E1 in W1. rewrite E2 in W2.
      apply written_write_effects in W1 as (-> & final1 & F1 & ->).
      apply written_write_effects in W2 as (_ & final2 & F2 & ->).
      rewrite F1 in F2. inversion F2; subst. auto.
    + intros Ho Hd.
      destruct (save_error_output (disk s1) (disk s2) Ho Hd) as (Se & Sm).
      assert (Hw : write_effects (disk s1) (Some OUTPUT_PATH)
                     (fst (create_final_dataset None (constructed s1)))
                   = write_effects (disk s2) (Some OUTPUT_PATH)
                       (fst (create_final_dataset None (constructed s1)))).
      { unfold write_effects. now rewrite Se, Sm. }
      assert (Hl : write_lines (disk s1) (Some OUTPUT_PATH)
                     (fst (create_final_dataset None (constructed s1)))
                   = write_lines (disk s2) (Some OUTPUT_PATH)
                       (fst (create_final_dataset None (constructed s1)))).
      { unfold write_lines. now rewrite Se. }
      assert (He : new_effects s1 (snd (main s1)) = new_effects s2 (snd (main s2)))
        by (now rewrite E1, E2, Hw).
      split; [now rewrite R1, R2, Se|]. split; [exact He|]. split.
      * unfold new_stdout. rewrite O1, O2, M1, M2, Hl, Se.
        cbn [constructed stdout banner add_stdout].
        rewrite <- !app_assoc. now rewrite !skipn_length_app.
      * intros render path. now rewrite He.
Qed.

(** A run from the state a first run has left (the same disk, with the
    effects and the output of the first run on record) writes what the
    first run wrote. *)
Lemma pipeline_deterministic_witness :
  written OUTPUT_PATH (new_effects demo_state (snd (main demo_state)))
  = written OUTPUT_PATH
      (new_effects (snd (main demo_state)) (snd (main (snd (main demo_state)))))
  /\ written OUTPUT_PATH (new_effects demo_state (snd (main demo_state)))
     = Some (to_csv demo_final).
Proof.
  split; [|vm_compute; reflexivity].
  destruct (proj2 (pipeline_deterministic demo_state (snd (main demo_state))
                     eq_refl eq_refl) eq_refl eq_refl)
    as (_ & He & _).
  now rewrite He.
Defined.

(** X5.  [main] checks the two inputs before it does anything else: when
    the metadata file does not exist it prints its five opening lines and
    the not-found line for that file and returns; when the metadata file
    exists and the audio directory does not, the same with the directory's
    name.  In both cases no table is loaded and nothing is written. *)
Theorem main_missing_input st :
  (disk st METADATA_CSV = None ->
   main st = (Returned tt, add_stdout (MsgNotFound METADATA_CSV) (banner st))
   /\ effects (snd (main st)) = effects st
   /\ metadata_df (snd (main st)) = metadata_df st
   /\ audio_paths_df (snd (main st)) = audio_paths_df st)
  /\ (disk st METADATA_CSV <> None -> disk st AUDIO_BASE_PATH = None ->
      main st = (Returned tt, add_stdout (MsgNotFound AUDIO_BASE_PATH) (banner st))
      /\ effects (snd (main st)) = effects st
      /\ metadata_df (snd (main st)) = metadata_df st
      /\ audio_paths_df (snd (main st)) = audio_paths_df st).
Proof.
  split.
  - intros H. rewrite (main_missing_metadata st H). auto.
  - intros Hm Ha. rewrite (main_missing_audio st Hm Ha). auto.
Qed.

Lemma main_missing_input_witness :
  main (init "" "" empty_disk)
  = (Returned tt, add_stdout (MsgNotFound METADATA_CSV) (banner (init "" "" empty_disk))).
Proof.
  exact (proj1 (proj1 (main_missing_input (init "" "" empty_disk)) eq_refl)).
Defined.

Lemma constructed_wf st :
  (forall md, disk st METADATA_CSV = Some (File (Some md)) -> aligned md) ->
  wf_state (constructed st).
Proof.
  intros H. split.
  - intros md [Hmd|[_ Hmd]]; [discriminate | now apply H].
  - intros inv Hinv. discriminate.
Qed.

(** X6.  With both inputs in place but no expected recording in any
    patient folder, [main] does not end on its failure line: the KeyError
    of the scan passes through [merge_datasets] and
    [create_final_dataset], and [main] stops on it.  Nothing is written. *)
Theorem main_stops_without_recordings st md entries :
  disk st METADATA_CSV = Some (File (Some md)) ->
  disk st AUDIO_BASE_PATH = Some (Dir entries) ->
  no_recordings entries ->
  exists st',
    main st = (Raised (KeyError "patient_id"), st')
    /\ effects st' = effects st
    /\ ~ In MsgProcessFailed (new_stdout st st').
Proof.
  intros Hm Ha Hno.
  rewrite main_with_inputs by congruence.
  destruct (load_metadata_full (constructed st) md Hm)
    as (s1 & Hload & Hmd1 & Ha1 & He1 & Ho1).
  destruct (silent_load_metadata _ _ _ Hload) as (_ & Hd1 & _ & Hb1).
  assert (Hdir : disk s1 (audio_base_path s1) = Some (Dir entries)).
  { rewrite Hd1, Hb1. exact Ha. }
  destruct (proj2 (find_audio_files_without_recordings_run s1 entries Hdir) Hno)
    as (s2 & Hfind & Hout2).
  destruct (silent_find_audio_files _ _ _ Hfind) as (He2 & _).
  assert (Hens : ensure_loaded (constructed st) = (Raised (KeyError "patient_id"), s2)).
  { unfold ensure_loaded. unfold_monad. cbn [metadata_df constructed].
    rewrite Hload. cbv beta iota. rewrite Ha1. cbn [audio_paths_df constructed].
    now rewrite Hfind. }
  assert (Hcfd : create_final_dataset (Some OUTPUT_PATH) (constructed st)
                 = (Raised (KeyError "patient_id"), s2)).
  { unfold create_final_dataset, merge_datasets.
    now rewrite (bind_raised _ _ _ _ _ (bind_raised _ _ _ _ _ Hens)). }
  rewrite Hcfd. exists s2. split; [reflexivity|]. split.
  - rewrite He2, He1. reflexivity.
  - unfold new_stdout. rewrite Hout2, Ho1.
    cbn [stdout constructed banner add_stdout].
    rewrite <- !app_assoc, skipn_length_app.
    unfold load_lines.
    destruct (getitem md "covid_status"); destruct (getitem md "id");
      cbn [In app]; intros H;
      repeat (destruct H as [H|H]; [discriminate|]); exact H.
Qed.

Lemma main_stops_without_recordings_witness :
  exists st',
    main silent_state = (Raised (KeyError "patient_id"), st')
    /\ effects st' = [].
Proof.
  destruct (main_stops_without_recordings silent_state demo_metadata silent_tree
              eq_refl eq_refl)
    as (st' & Hrun & Heff & _).
  - apply (audio_data_nil_iff AUDIO_BASE_PATH). reflexivity.
  - exists st'. auto.
Defined.

(** Every method only adds to what has been printed. *)
Lemma stdout_grows {A} (m : M A) st :
  sim (metadata_csv_path st) (audio_base_path st) true m ->
  exists ms, stdout (snd (m st)) = stdout st ++ ms.
Proof.
  intros Hsim.
  destruct (Hsim (effects st) (effects st) (stdout st) (stdout st) st st)
    as (_ & _ & _ & _ & (ms & Hms & _) & _).
  - unfold agree. repeat split; try reflexivity; exists []; now rewrite app_nil_r.
  - eauto.
Qed.

Lemma ensure_loaded_fresh st md entries :
  metadata_df st = None -> audio_paths_df st = None ->
  disk st (metadata_csv_path st) = Some (File (Some md)) ->
  disk st (audio_base_path st) = Some (Dir entries) ->
  audio_data (audio_base_path st) entries <> [] ->
  exists st1,
    ensure_loaded st = (Returned tt, st1)
    /\ metadata_df st1 = Some md
    /\ audio_paths_df st1
       = Some (pd_DataFrame (audio_data (audio_base_path st) entries))
    /\ effects st1 = effects st
    /\ exists ms, stdout st1 = stdout st ++ ms.
Proof.
  intros Hm0 Ha0 Hm Ha Hne.
  destruct (load_metadata_full st md Hm) as (s1 & Hload & Hmd1 & Ha1 & He1 & Ho1).
  destruct (silent_load_metadata _ _ _ Hload) as (_ & Hd1 & _ & Hb1).
  assert (Hdir : disk s1 (audio_base_path s1) = Some (Dir entries)).
  { rewrite Hd1, Hb1. exact Ha. }
  destruct (find_audio_files_run s1 entries Hdir) as (s2 & Hfind & Ha2 & Hm2).
  rewrite Hb1 in Hfind, Ha2.
  destruct (audio_data (audio_base_path st) entries) as [|rec recs] eqn:E;
    [congruence|].
  assert (Hens : ensure_loaded st = (Returned tt, s2)).
  { unfold ensure_loaded. unfold_monad. rewrite Hm0, Hload. cbv beta iota.
    rewrite Ha1, Ha0. now rewrite Hfind. }
  exists s2. split; [exact Hens|]. split; [congruence|]. split; [exact Ha2|].
  split.
  - destruct (silent_find_audio_files _ _ _ Hfind) as (He2 & _). congruence.
  - pose proof (stdout_grows ensure_loaded st
                  (sim_ensure_loaded (metadata_csv_path st) (audio_base_path st))) as Hg.
    now rewrite Hens in Hg.
Qed.

(** X7.  With both inputs in place, recordings on disk and a metadata
    table that has none of the columns [id], [d], [patient_id], [main]
    returns normally: after the lines of loading and scanning it prints
    the missing-column error with the available columns, then the no-data
    error, then its failure line, and it writes nothing. *)
Theorem main_reports_missing_id_column st md entries :
  disk st METADATA_CSV = Some (File (Some md)) ->
  disk st AUDIO_BASE_PATH = Some (Dir entries) ->
  ~ no_recordings entries ->
  mem "id" (columns md) = false -> mem "d" (columns md) = false ->
  mem "patient_id" (columns md) = false ->
  exists st',
    main st = (Returned tt, st')
    /\ effects st' = effects st
    /\ exists ms,
         stdout st'
         = stdout st ++ ms
           ++ [MsgMerging; MsgErrorNoIdColumn; MsgAvailableColumns (columns md);
               MsgErrorNoData; MsgProcessFailed].
Proof.
  intros Hm Ha Hrec H1 H2 H3.
  rewrite main_with_inputs by congruence.
  assert (Hne : audio_data AUDIO_BASE_PATH entries <> []).
  { intros E. apply Hrec. now apply (audio_data_nil_iff AUDIO_BASE_PATH). }
  destruct (ensure_loaded_fresh (constructed st) md entries eq_refl eq_refl Hm Ha Hne)
    as (s1 & Hens & Hmd & Hinv & He1 & (ms & Hms)).
  destruct (merge_datasets_run _ _ _ _ Hens Hmd Hinv) as (s2 & Hrun & Hout & _).
  rewrite find_first_candidate in Hrun, Hout.
  assert (Hc : first_candidate (columns md) = None).
  { unfold first_candidate. now rewrite H1, H2, H3. }
  rewrite Hc in Hrun, Hout. specialize (Hout eq_refl).
  assert (Hcfd : create_final_dataset (Some OUTPUT_PATH) (constructed st)
                 = (Returned None, add_stdout MsgErrorNoData s2)).
  { unfold create_final_dataset. now rewrite (bind_returned _ _ _ _ _ Hrun). }
  rewrite Hcfd. eexists. split; [reflexivity|]. run_state. split.
  - destruct (silent_merge_datasets _ _ _ Hrun) as (He2 & _).
    rewrite He2. reflexivity.
  - rewrite Hout, Hms. cbn [stdout constructed banner add_stdout].
    exists ([MsgBanner; MsgMetadataCsv METADATA_CSV; MsgAudioPath AUDIO_BASE_PATH;
             MsgOutput OUTPUT_PATH; MsgBlank] ++ ms).
    rewrite <- !app_assoc. reflexivity.
Qed.

Lemma main_reports_missing_id_column_witness :
  exists st',
    main no_id_state = (Returned tt, st') /\ effects st' = [].
Proof.
  destruct (main_reports_missing_id_column no_id_state no_id_metadata demo_tree
              eq_refl eq_refl)
    as (st' & Hrun & Heff & _).
  - intros Hno. apply (audio_data_nil_iff AUDIO_BASE_PATH) in Hno. discriminate.
  - reflexivity.
  - reflexivity.
  - reflexivity.
  - exists st'. auto.
Defined.

Lemma flag_cases c : (exists b, c = flag b) <-> c = VInt 0 \/ c = VInt 1.
Proof.
  split.
  - intros [[|] ->]; auto.
  - intros [-> | ->]; [now exists false | now exists true].
Qed.

Lemma final_target_flags output_path st final st' :
  wf_state st ->
  create_final_dataset output_path st = (Returned (Some final), st') ->
  exists target,
    getitem final "target" = Some target
    /\ Forall (fun c => exists b, c = flag b) target.
Proof.
  intros Hw H.
  destruct (create_final_dataset_returned _ _ _ _ Hw H)
    as (merged & st1 & Hm & He & Ha & Hc & -> & _).
  rewrite getitem_final_table by (assumption || discriminate).
  destruct (getitem merged "covid_status") as [status|] eqn:Hs.
  - destruct (labelled_columns _ _ Ha Hs) as (_ & H2 & _). rewrite H2.
    eexists. split; [reflexivity|]. apply Forall_forall. intros c Hin.
    apply in_map_iff in Hin as [c0 [<- Hc0]]. apply filter_In in Hc0 as [_ Hc0].
    apply mapped_cell in Hc0 as (s & _ & _ & Hv). now apply flag_cases.
  - destruct (labelled_columns_absent _ Ha Hs) as (H1 & _). rewrite H1.
    eexists. split; [reflexivity|]. apply Forall_forall. intros c Hin.
    apply in_map_iff in Hin as [r [<- _]]. now exists false.
Qed.

Lemma flags_zero_one l :
  Forall (fun c => exists b, c = flag b) l ->
  List.length (filter is_one l) + List.length (filter is_zero l) = List.length l.
Proof.
  induction 1 as [|c l [b ->] _ IH]; [reflexivity|].
  destruct b; cbn [filter flag is_one is_zero cell_eqb Z.eqb Pos.eqb List.length]; lia.
Qed.

(** X8.  When [create_final_dataset] returns a frame to [main] (the
    parsed metadata being a well-formed table), [main] ends with its
    completion line, the number of rows, and the positive and negative
    counts, which are the numbers of rows with target 1 and with target 0
    and add up to the number of rows; the one file it has written is the
    returned frame at [merged_coswara_dataset.csv], after creating the
    directory [.]. *)
Theorem main_reports_class_counts st final s :
  disk st METADATA_CSV <> None -> disk st AUDIO_BASE_PATH <> None ->
  (forall md, disk st METADATA_CSV = Some (File (Some md)) -> aligned md) ->
  create_final_dataset (Some OUTPUT_PATH) (constructed st) = (Returned (Some final), s) ->
  exists target,
    getitem final "target" = Some target
    /\ main st
       = (Returned tt,
          add_stdout (MsgCovidNegative (Z.of_nat (List.length (filter is_zero target))))
            (add_stdout (MsgCovidPositive (Z.of_nat (List.length (filter is_one target))))
               (add_stdout (MsgFinalCount (len final))
                  (add_stdout MsgProcessComplete s))))
    /\ List.length (filter is_one target) + List.length (filter is_zero target)
       = len final
    /\ effects (snd (main st))
       = effects st ++ [MakeDirs "."; WriteFile OUTPUT_PATH (to_csv final)].
Proof.
  intros Hm Ha Hal Hcfd.
  pose proof (constructed_wf st Hal) as Hw.
  destruct (final_target_flags _ _ _ _ Hw Hcfd) as (target & Ht & Hf).
  destruct (flags_summary _ Hf) as (_ & _ & Hsum).
  pose proof (flags_zero_one _ Hf) as Hcount.
  pose proof (getitem_length _ _ _ Ht) as Hlen.
  destruct (create_final_dataset_returned _ _ _ _ Hw Hcfd)
    as (_ & _ & _ & _ & _ & _ & _ & Heff & _).
  exists target. split; [exact Ht|].
  assert (Hmain : main st
            = (Returned tt,
               add_stdout (MsgCovidNegative (Z.of_nat (List.length (filter is_zero target))))
                 (add_stdout (MsgCovidPositive (Z.of_nat (List.length (filter is_one target))))
                    (add_stdout (MsgFinalCount (len final))
                       (add_stdout MsgProcessComplete s))))).
  { rewrite main_with_inputs by assumption. rewrite Hcfd, Ht, Hsum.
    do 3 f_equal. f_equal. lia. }
  split; [exact Hmain|]. split; [lia|].
  rewrite Hmain. cbn [snd effects add_stdout]. exact Heff.
Qed.

Lemma main_reports_class_counts_witness :
  exists target,
    getitem demo_final "target" = Some target
    /\ List.length (filter is_one target) + List.length (filter is_zero target)
       = len demo_final
    /\ effects (snd (main demo_state))
       = [MakeDirs "."; WriteFile OUTPUT_PATH (to_csv demo_final)].
Proof.
  destruct (main_reports_class_counts demo_state demo_final
              (snd (create_final_dataset (Some OUTPUT_PATH) (constructed demo_state))))
    as (target & Ht & _ & Hcount & Heff).
  - discriminate.
  - discriminate.
  - intros md H. vm_compute in H. inversion H; subst. repeat constructor.
  - vm_compute. reflexivity.
  - exists target. auto.
Defined.

(** ** The columns of the final frame *)

(** X9.  The header of the final frame is the header of the join, in its
    order, followed by those of [target], [has_all_audio] and
    [num_audio_types] (in this order) that the join did not have already;
    [target] is always a column, and the two completeness columns are
    columns whenever the join has a column whose name starts with [has_]. *)
Theorem final_header output_path st final st' :
  wf_state st ->
  create_final_dataset output_path st = (Returned (Some final), st') ->
  exists merged st1 added,
    merge_datasets st = (Returned (Some merged), st1)
    /\ columns final = columns merged ++ added
    /\ (added
        = filter (fun k => negb (mem k (columns merged)))
            (match has_columns merged with
             | [] => ["target"]
             | _ :: _ => ["target"; "has_all_audio"; "num_audio_types"]
             end))
    /\ In "target" (columns final)
    /\ (has_columns merged <> [] ->
        In "has_all_audio" (columns final) /\ In "num_audio_types" (columns final)).
Proof.
  intros Hw H.
  destruct (create_final_dataset_returned _ _ _ _ Hw H)
    as (merged & st1 & Hm & He & Ha & Hc & -> & _).
  exists merged, st1.
  assert (Hput : forall cols k,
             put_cols cols k = cols ++ filter (fun x => negb (mem x cols)) [k]).
  { intros cols k. destruct (put_cols_added cols k) as (added & -> & [[-> Hin]|[-> Hin]]).
    - cbn [filter]. apply mem_In in Hin. now rewrite Hin.
    - cbn [filter]. apply mem_false in Hin. now rewrite Hin. }
  unfold final_table. rewrite has_columns_labelled.
  destruct (has_columns merged) as [|h hs] eqn:Eh.
  - exists (filter (fun k => negb (mem k (columns merged))) ["target"]).
    unfold labelled. cbn [columns]. split; [assumption|].
    split; [apply Hput|]. split; [reflexivity|].
    split; [apply in_put_cols | congruence].
  - rewrite columns_derived. unfold labelled. cbn [columns].
    set (c0 := columns merged).
    set (c1 := put_cols c0 "target").
    set (c2 := put_cols c1 "has_all_audio").
    exists (filter (fun k => negb (mem k c0)) ["target"; "has_all_audio"; "num_audio_types"]).
    split; [assumption|]. split; [|split; [reflexivity|]].
    + assert (Hmem : forall cols k k', k' <> k -> mem k' (put_cols cols k) = mem k' cols).
      { intros cols k k' Hne. rewrite (Hput cols k). unfold mem at 1.
        rewrite existsb_app. fold (mem k' cols). cbn [filter].
        apply String.eqb_neq in Hne.
        destruct (negb (mem k cols)); cbn [existsb]; rewrite ?Hne; now rewrite ?orb_false_r. }
      assert (M1 : mem "has_all_audio" c1 = mem "has_all_audio" c0)
        by (apply Hmem; discriminate).
      assert (M2 : mem "num_audio_types" c2 = mem "num_audio_types" c0).
      { unfold c2. rewrite Hmem by discriminate. apply Hmem. discriminate. }
      rewrite (Hput c2 "num_audio_types"). cbn [filter]. rewrite M2.
      unfold c2 at 1. rewrite (Hput c1 "has_all_audio"). cbn [filter]. rewrite M1.
      unfold c1 at 1. rewrite (Hput c0 "target"). cbn [filter].
      rewrite <- !app_assoc. f_equal.
      destruct (mem "target" c0); destruct (mem "has_all_audio" c0);
        destruct (mem "num_audio_types" c0); reflexivity.
    + split.
      * unfold c2. destruct (put_cols_added c1 "has_all_audio") as (a1 & -> & _).
        destruct (put_cols_added (c1 ++ a1) "num_audio_types") as (a2 & -> & _).
        rewrite !in_app_iff. left. left. apply in_put_cols.
      * intros _. split; [|apply in_put_cols].
        destruct (put_cols_added c2 "num_audio_types") as (a2 & -> & _).
        rewrite in_app_iff. left. apply in_put_cols.
Qed.

Lemma final_header_witness :
  columns demo_final
  = ["id"; "covid_status"; "patient_id"; "date_folder"; "has_breathing_deep";
     "has_breathing_shallow"; "cough_heavy"; "has_cough_heavy"; "has_cough_shallow";
     "has_counting_normal"; "has_counting_fast"; "has_vowel_a"; "has_vowel_e";
     "has_vowel_o"]
    ++ ["target"; "has_all_audio"; "num_audio_types"].
Proof.
  destruct (final_header (Some OUTPUT_PATH) demo_state demo_final demo_final_state
              demo_state_wf demo_run)
    as (merged & st1 & added & Hm & Hcols & Hadded & _).
  rewrite Hcols, Hadded. vm_compute in Hm. inversion Hm; subst. reflexivity.
Defined.

(** X10.  Labelling and the two completeness columns leave every other
    column of the join as it was, row for row and in the order of the
    join: without a status column the final frame has the join's column;
    with one, it has the cells of the rows whose status is mapped. *)
Theorem final_keeps_other_columns output_path st final st' :
  wf_state st ->
  create_final_dataset output_path st = (Returned (Some final), st') ->
  exists merged st1,
    merge_datasets st = (Returned (Some merged), st1)
    /\ forall k,
         k <> "target" -> k <> "has_all_audio" -> k <> "num_audio_types" ->
         (getitem merged "covid_status" = None -> getitem final k = getitem merged k)
         /\ (forall status,
                getitem merged "covid_status" = Some status ->
                getitem final k = getitem (select_rows merged (map mapped status)) k).
Proof.
  intros Hw H.
  destruct (create_final_dataset_returned _ _ _ _ Hw H)
    as (merged & st1 & Hm & He & Ha & Hc & -> & _).
  exists merged, st1. split; [assumption|].
  intros k K1 K2 K3.
  rewrite getitem_final_table by assumption.
  rewrite getitem_labelled_other by assumption.
  split.
  - intros Hs. rewrite getitem_select_rows, getitem_rows.
    rewrite filter_all by (intros r _; now rewrite target_of_absent).
    now destruct (index_of k (columns merged)).
  - intros status Hs. f_equal. f_equal.
    unfold getitem in Hs.
    destruct (index_of "covid_status" (columns merged)) as [i|] eqn:Ei; [|discriminate].
    inversion Hs as [Hst]. rewrite map_map. apply map_ext. intros r.
    unfold mapped, target_of, row_get. now rewrite Ei.
Qed.

Lemma final_keeps_other_columns_witness :
  getitem demo_final "date_folder" = Some [VStr "20200413"].
Proof.
  destruct (final_keeps_other_columns (Some OUTPUT_PATH) demo_state demo_final
              demo_final_state demo_state_wf demo_run)
    as (merged & st1 & Hm & Hk).
  destruct (Hk "date_folder" ltac:(discriminate) ltac:(discriminate) ltac:(discriminate))
    as [_ Hpresent].
  vm_compute in Hm. inversion Hm; subst.
  rewrite (Hpresent [VStr "positive_mild"] eq_refl). reflexivity.
Defined.

(** ** The header of the inventory *)

Lemma add_keys_extends ks : forall acc, exists rest, add_keys acc ks = acc ++ rest.
Proof.
  unfold add_keys.
  induction ks as [|x ks IH]; intros acc; cbn [fold_left].
  - exists []. now rewrite app_nil_r.
  - destruct (mem x acc); [apply IH|].
    destruct (IH (acc ++ [x])) as [rest ->]. exists (x :: rest).
    now rewrite <- app_assoc.
Qed.

Lemma add_keys_keeps_NoDup ks : forall acc, NoDup acc -> NoDup (add_keys acc ks).
Proof.
  unfold add_keys.
  induction ks as [|x ks IH]; intros acc H; cbn [fold_left]; [assumption|].
  destruct (mem x acc) eqn:E; [now apply IH|].
  apply IH. apply mem_false in E.
  apply NoDup_app; [assumption | repeat constructor; intros [] |].
  intros a Ha [<-|[]]. contradiction.
Qed.

Lemma union_fold_extends records :
  forall acc,
  exists rest,
    fold_left (fun acc d => add_keys acc (dict_keys d)) records acc = acc ++ rest.
Proof.
  induction records as [|d records IH]; intros acc; cbn [fold_left].
  - exists []. now rewrite app_nil_r.
  - destruct (add_keys_extends (dict_keys d) acc) as [r1 ->].
    destruct (IH (acc ++ r1)) as [r2 ->]. exists (r1 ++ r2). now rewrite app_assoc.
Qed.

Lemma union_fold_NoDup records :
  forall acc,
    NoDup acc ->
    NoDup (fold_left (fun acc d => add_keys acc (dict_keys d)) records acc).
Proof.
  induction records as [|d records IH]; intros acc H; cbn [fold_left]; [assumption|].
  apply IH. now apply add_keys_keeps_NoDup.
Qed.

(** X11.  The header of the frame [find_audio_files] returns: it starts
    with [patient_id] and [date_folder], repeats no label and holds only
    labels of the scan; its columns named [has_...] are the nine flags in
    the order of the expected types; and the path column of a type is
    there exactly when some row has a file of that type. *)
Theorem inventory_header st df st' :
  find_audio_files st = (Returned df, st') ->
  (exists rest, columns df = "patient_id" :: "date_folder" :: rest)
  /\ NoDup (columns df)
  /\ (forall k, In k (columns df) -> In k inventory_labels)
  /\ has_columns df = flag_labels
  /\ (forall t, In t expected_audio_types ->
        (In (path_key t) (columns df)
         <-> exists r, In r (rows df) /\ field df r (path_key t) <> None)).
Proof.
  intros H.
  destruct (find_audio_files_returned _ _ _ H) as (entries & Hd & -> & Hne & _).
  set (records := audio_data (audio_base_path st) entries) in *.
  assert (Hall : Forall is_audio_record records) by apply audio_data_records.
  assert (Hfold : columns (pd_DataFrame records)
                  = fold_left (fun acc d => add_keys acc (dict_keys d)) records [])
    by reflexivity.
  split; [|split; [|split; [|split]]].
  - rewrite Hfold. destruct records as [|rec records']; [congruence|].
    cbn [fold_left].
    inversion Hall as [|? ? (pp & p & d & fs & ->) Hall']; subst.
    rewrite add_keys_NoDup by apply audio_record_NoDup.
    destruct (union_fold_extends records'
                ([] ++ dict_keys (audio_record pp p d fs))) as [rest ->].
    unfold audio_record. rewrite dict_keys_app. cbn [app dict_keys map fst].
    eexists. reflexivity.
  - rewrite Hfold. apply union_fold_NoDup. constructor.
  - intros k. now apply inventory_columns_known.
  - now apply inventory_flag_columns.
  - intros t Ht. split.
    + intros Hin. cbn [columns pd_DataFrame] in Hin.
      apply in_union_keys in Hin as (rec & Hrec & Hk).
      exists (record_row (union_keys records) rec). split.
      * rewrite pd_DataFrame_rows. now apply in_map.
      * rewrite Forall_forall in Hall.
        destruct (Hall _ Hrec) as (pp & p & d & fs & ->).
        rewrite field_record_row;
          [| assumption | intros k' v; apply audio_record_no_NaN].
        intros Hnone. apply dict_get_None in Hnone. contradiction.
    + intros (r & _ & Hf). unfold field, row_get in Hf.
      destruct (index_of (path_key t) (columns (pd_DataFrame records))) as [i|] eqn:Ei;
        [|congruence].
      eapply index_of_In; eauto.
Qed.

Lemma inventory_header_witness :
  columns (pd_DataFrame (audio_data AUDIO_BASE_PATH demo_tree))
  = ["patient_id"; "date_folder"; "has_breathing_deep"; "has_breathing_shallow";
     "cough_heavy"; "has_cough_heavy"; "has_cough_shallow"; "has_counting_normal";
     "has_counting_fast"; "has_vowel_a"; "has_vowel_e"; "has_vowel_o"]
  /\ NoDup (columns (pd_DataFrame (audio_data AUDIO_BASE_PATH demo_tree)))
  /\ has_columns (pd_DataFrame (audio_data AUDIO_BASE_PATH demo_tree)) = flag_labels.
Proof.
  destruct (inventory_header demo_state
              (pd_DataFrame (audio_data AUDIO_BASE_PATH demo_tree))
              (snd (find_audio_files demo_state)))
    as (_ & Hnd & _ & Hflags & _).
  - vm_compute. reflexivity.
  - split; [vm_compute; reflexivity|]. split; assumption.
Defined.

(** ** The directory of the output file *)

Lemma upto_last_sep_no_sep s : no_sep s = true -> upto_last_sep s = "".
Proof.
  induction s as [|c s IH]; [reflexivity|]. cbn [no_sep upto_last_sep].
  intros H. apply andb_true_iff in H as [Hc Hs]. rewrite (IH Hs).
  now destruct (Ascii.eqb c "/").
Qed.

Lemma upto_last_sep_app dir name :
  no_sep name = true -> upto_last_sep (dir ++ "/" ++ name) = (dir ++ "/")%string.
Proof.
  intros Hn. induction dir as [|c d IH].
  - cbn [append upto_last_sep]. rewrite (upto_last_sep_no_sep _ Hn). reflexivity.
  - change (upto_last_sep (String c (d ++ "/" ++ name))
            = String c (d ++ "/")).
    cbn [upto_last_sep]. rewrite IH. now destruct d.
Qed.

Lemma rstrip_sep_app_sep dir : rstrip_sep (dir ++ "/") = rstrip_sep dir.
Proof.
  induction dir as [|c d IH]; [reflexivity|].
  change (rstrip_sep (String c (d ++ "/")) = rstrip_sep (String c d)).
  cbn [rstrip_sep]. now rewrite IH.
Qed.

Lemma rstrip_sep_id dir : endswith_sep dir = false -> rstrip_sep dir = dir.
Proof.
  induction dir as [|c d IH]; [reflexivity|]. intros H.
  cbn [rstrip_sep]. destruct d as [|c' d'].
  - cbn in H. cbn [rstrip_sep]. now rewrite H.
  - rewrite IH by exact H. reflexivity.
Qed.

Lemma os_path_dirname_no_sep name : no_sep name = true -> os_path_dirname name = "".
Proof.
  intros H. unfold os_path_dirname. now rewrite (upto_last_sep_no_sep _ H).
Qed.

Lemma os_path_join_plain dir name :
  dir <> "" -> endswith_sep dir = false -> no_sep name = true ->
  os_path_join dir name = (dir ++ "/" ++ name)%string.
Proof.
  intros Hd He Hn. unfold os_path_join, startswith.
  assert (Hp : prefix "/" name = false).
  { destruct name as [|c n]; [reflexivity|]. cbn [no_sep] in Hn.
    apply andb_true_iff in Hn as [Hc _]. cbn [prefix].
    destruct (ascii_dec "/" c) as [<-|]; [discriminate | reflexivity]. }
  rewrite Hp, He. apply String.eqb_neq in Hd. now rewrite Hd.
Qed.

Lemma os_path_dirname_join dir name :
  dir <> "" -> endswith_sep dir = false -> no_sep name = true ->
  os_path_dirname (os_path_join dir name) = dir.
Proof.
  intros Hd He Hn. rewrite os_path_join_plain by assumption.
  unfold os_path_dirname. rewrite upto_last_sep_app by assumption.
  rewrite rstrip_sep_app_sep, rstrip_sep_id by assumption.
  destruct dir; [congruence | reflexivity].
Qed.

(** X12.  Where the final frame is written: for an output path that is a
    bare file name the directory made is [.], for [os.path.join(dir, name)]
    it is [dir]; after the directory, one file is written, at the output
    path itself, and nothing else touches the disk. *)
Theorem output_directory output_path st final st' :
  create_final_dataset (Some output_path) st = (Returned (Some final), st') ->
  output_path <> "" ->
  (no_sep output_path = true ->
   effects st' = effects st ++ [MakeDirs "."; WriteFile output_path (to_csv final)])
  /\ (forall dir name,
         output_path = os_path_join dir name ->
         dir <> "" -> endswith_sep dir = false -> no_sep name = true ->
         effects st'
         = effects st ++ [MakeDirs dir; WriteFile output_path (to_csv final)]).
Proof.
  intros H Hne.
  destruct (create_final_dataset_with_write (Some output_path) st) as (Hr & Heff & _).
  rewrite H in Hr, Heff. cbn [fst snd] in Hr, Heff.
  assert (Hw : write_effects (disk st) (Some output_path)
                 (fst (create_final_dataset None st))
               = save_effects (Some output_path) final).
  { unfold write_effects.
    destruct (fst (create_final_dataset None st)) as [[final'|]|e];
      destruct (save_error (disk st) (Some output_path));
      cbn [with_write] in Hr; congruence. }
  rewrite Heff, Hw. unfold save_effects.
  destruct output_path as [|c path]; [congruence|].
  split.
  - intros Hn. now rewrite (os_path_dirname_no_sep _ Hn).
  - intros dir name -> Hd He Hn.
    rewrite (os_path_dirname_join dir name Hd He Hn).
    destruct dir; [congruence | reflexivity].
Qed.

Lemma output_directory_witness :
  effects (snd (create_final_dataset (Some OUTPUT_PATH) demo_state))
  = [MakeDirs "."; WriteFile OUTPUT_PATH (to_csv demo_final)]
  /\ effects (snd (create_final_dataset (Some (os_path_join "out" "merged.csv")) demo_state))
     = [MakeDirs "out"; WriteFile "out/merged.csv" (to_csv demo_final)].
Proof.
  split.
  - refine (proj1 (output_directory OUTPUT_PATH demo_state demo_final _ _ _) _);
      [vm_compute; reflexivity | discriminate | reflexivity].
  - refine (proj2 (output_directory (os_path_join "out" "merged.csv") demo_state
                     demo_final _ _ _) "out" "merged.csv" _ _ _ _);
      [vm_compute; reflexivity | discriminate | reflexivity | discriminate
      | reflexivity | reflexivity].
Defined.

(** ** A join without a match *)

Lemma flat_map_nil {A B} (f : A -> list B) l :
  (forall x, In x l -> f x = []) -> flat_map f l = [].
Proof.
  induction l as [|x l IH]; intros H; [reflexivity|]. cbn [flat_map].
  rewrite H by now left. apply IH. intros y Hy. apply H. now right.
Qed.

Lemma filter_no_match {A} (p : A -> bool) l :
  (forall x, In x l -> p x = false) -> filter p l = [].
Proof.
  induction l as [|x l IH]; intros H; [reflexivity|]. cbn [filter].
  rewrite H by now left. apply IH. intros y Hy. apply H. now right.
Qed.

Lemma pd_merge_no_match left right left_on right_on ls rs merged :
  getitem left left_on = Some ls -> getitem right right_on = Some rs ->
  (forall x y, In x ls -> In y rs -> key_eqb x y = false) ->
  pd_merge left right left_on right_on = Returned merged ->
  rows merged = [].
Proof.
  intros Hl Hr Hno Hmerge.
  destruct (pd_merge_rows _ _ _ _ _ Hmerge) as (li & ri & Eli & Eri & -> & _).
  unfold getitem in Hl, Hr. rewrite Eli in Hl. rewrite Eri in Hr.
  inversion Hl as [Hls]. inversion Hr as [Hrs].
  apply flat_map_nil. intros l Hin.
  rewrite filter_no_match; [reflexivity|].
  intros r Hrin. apply Hno.
  - rewrite <- Hls. now apply (in_map (fun r0 => cell_at r0 li)).
  - rewrite <- Hrs. now apply (in_map (fun r0 => cell_at r0 ri)).
Qed.

Lemma pd_merge_refused left right left_on right_on ls rs :
  getitem left left_on = Some ls -> getitem right right_on = Some rs ->
  keys_refused ls rs = true ->
  pd_merge left right left_on right_on = Raised ValueError.
Proof.
  intros Hl Hr Hk. unfold getitem in Hl, Hr. unfold pd_merge.
  destruct (index_of left_on (columns left)) as [li|]; [|discriminate].
  destruct (index_of right_on (columns right)) as [ri|]; [|discriminate].
  inversion Hl as [Hls]. inversion Hr as [Hrs]. now rewrite Hls, Hrs, Hk.
Qed.

(** X13.  Once both tables are loaded and the metadata has an identifier
    column: when the join goes through and no identifier of the metadata
    equals a patient id of the inventory, the join is empty, so
    [create_final_dataset] returns [None], its last printed line is the
    no-data error, and nothing is written, whatever the output path.  When
    the identifiers are numbers and the patient ids are text, the join is
    refused: [create_final_dataset] stops on the ValueError of [pd.merge],
    without the no-data line and without writing anything. *)
Theorem no_common_id_no_result output_path st st1 md inv c ids pids :
  ensure_loaded st = (Returned tt, st1) ->
  metadata_df st1 = Some md -> audio_paths_df st1 = Some inv ->
  first_candidate (columns md) = Some c ->
  getitem md c = Some ids -> getitem inv "patient_id" = Some pids ->
  (forall merged,
      pd_merge md inv c "patient_id" = Returned merged ->
      (forall x y, In x ids -> In y pids -> key_eqb x y = false) ->
      exists st' printed,
        create_final_dataset output_path st = (Returned None, st')
        /\ stdout st' = printed ++ [MsgErrorNoData]
        /\ effects st' = effects st)
  /\ (numeric_column ids = true -> text_column pids = true ->
      exists st',
        create_final_dataset output_path st = (Raised ValueError, st')
        /\ ~ In MsgErrorNoData (new_stdout st1 st')
        /\ effects st' = effects st).
Proof.
  intros He Hmd Hinv Hc Hids Hpids.
  destruct (merge_datasets_run st st1 md inv He Hmd Hinv) as (st2 & Hrun & _).
  rewrite find_first_candidate, Hc in Hrun.
  split.
  - intros merged Hmerge Hno.
    pose proof (pd_merge_no_match md inv c "patient_id" ids pids merged
                  Hids Hpids Hno Hmerge) as Hrows.
    rewrite Hmerge in Hrun.
    assert (Hempty : df_empty merged = true).
    { unfold df_empty. rewrite Hrows. now destruct (columns merged). }
    assert (H : create_final_dataset output_path st
                = (Returned None, add_stdout MsgErrorNoData st2)).
    { unfold create_final_dataset. rewrite (bind_returned _ _ _ _ _ Hrun), Hempty.
      reflexivity. }
    exists (add_stdout MsgErrorNoData st2), (stdout st2).
    split; [exact H|]. split; [reflexivity|].
    apply silent_merge_datasets in Hrun as (Hrun & _). exact Hrun.
  - intros Hnum Htext.
    assert (Hk : keys_refused ids pids = true)
      by (unfold keys_refused; now rewrite Hnum, Htext).
    pose proof (pd_merge_refused md inv c "patient_id" ids pids Hids Hpids Hk) as Hmerge.
    assert (H : create_final_dataset output_path st = (Raised ValueError, st2)).
    { rewrite Hmerge in Hrun. unfold create_final_dataset.
      now rewrite (bind_raised _ _ _ _ _ Hrun). }
    exists st2. split; [exact H|]. split.
    + assert (Hout : stdout st2 = stdout st1 ++ [MsgMerging; MsgUsingColumn c]).
      { clear H. revert Hrun. unfold merge_datasets.
        rewrite (bind_returned _ _ _ _ _ He).
        unfold the_metadata_df, the_audio_paths_df, print, self_metadata_df,
          self_audio_paths_df, lift, or_raise, bind.
        cbn [metadata_df add_stdout]. rewrite Hmd.
        rewrite find_left_column_run, find_first_candidate, Hc.
        cbn [audio_paths_df add_stdout]. rewrite Hinv, Hmerge.
        intros [= <-]. cbn [stdout add_stdout]. now rewrite <- app_assoc. }
      unfold new_stdout. rewrite Hout, skipn_length_app.
      cbn [In]. intros [E|[E|[]]]; discriminate.
    + apply silent_merge_datasets in Hrun as (Hrun & _). exact Hrun.
Qed.

Lemma no_common_id_no_result_witness :
  (exists st' printed,
      create_final_dataset (Some OUTPUT_PATH) stranger_state = (Returned None, st')
      /\ stdout st' = printed ++ [MsgErrorNoData]
      /\ effects st' = effects stranger_state)
  /\ (exists st',
         create_final_dataset (Some OUTPUT_PATH) numbered_state = (Raised ValueError, st')
         /\ effects st' = effects numbered_state).
Proof.
  split.
  - refine (proj1 (no_common_id_no_result (Some OUTPUT_PATH) stranger_state
                     (snd (ensure_loaded stranger_state)) stranger_metadata
                     (pd_DataFrame (audio_data AUDIO_BASE_PATH demo_tree))
                     "id" [VStr "Z"] [VStr "A"] _ _ _ _ _ _)
                  (match pd_merge stranger_metadata
                           (pd_DataFrame (audio_data AUDIO_BASE_PATH demo_tree))
                           "id" "patient_id" with
                   | Returned merged => merged
                   | Raised _ => mkDataFrame [] []
                   end) _ _);
      try (vm_compute; reflexivity).
    intros x y [<-|[]] [<-|[]]. reflexivity.
  - destruct (proj2 (no_common_id_no_result (Some OUTPUT_PATH) numbered_state
                       (snd (ensure_loaded numbered_state)) numbered_metadata
                       (pd_DataFrame (audio_data AUDIO_BASE_PATH numbered_tree))
                       "id" [VInt 1; VInt 2] [VStr "1"]
                       ltac:(vm_compute; reflexivity) ltac:(vm_compute; reflexivity)
                       ltac:(vm_compute; reflexivity) ltac:(vm_compute; reflexivity)
                       ltac:(vm_compute; reflexivity) ltac:(vm_compute; reflexivity))
                eq_refl eq_refl)
      as (st' & Hrun & _ & Heff).
    exists st'. split; assumption.
Defined.

(** ** Calling [create_final_dataset] again *)




(** ** Inputs of the wrong kind *)

Lemma create_final_dataset_unreadable_metadata output_path st e :
  metadata_df st = None ->
  fst (pd_read_csv (metadata_csv_path st) st) = Raised e ->
  create_final_dataset output_path st = (Raised e, add_stdout MsgLoadingMetadata st).
Proof.
  intros Hmd Hread.
  assert (Hload : load_metadata st = (Raised e, add_stdout MsgLoadingMetadata st)).
  { unfold load_metadata, pd_read_csv in *. unfold_monad. run_state.
    unfold bind, read_disk in Hread. cbn [fst] in Hread.
    destruct (disk st (metadata_csv_path st)) as [[[df|]|entries]|];
      unfold ret, raise in Hread; cbn [fst] in Hread;
      try discriminate; inversion Hread; reflexivity. }
  assert (Hens : ensure_loaded st = (Raised e, add_stdout MsgLoadingMetadata st)).
  { unfold ensure_loaded. unfold_monad. rewrite Hmd. cbv beta iota. now rewrite Hload. }
  unfold create_final_dataset, merge_datasets.
  now rewrite (bind_raised _ _ _ _ _ (bind_raised _ _ _ _ _ Hens)).
Qed.

(** X15.  That the two inputs exist is all [main] checks.  When the
    metadata path is a directory, the run stops on the error of
    [read_csv] before any scan; when the metadata is a table but the audio
    path is a file, it stops on the error of [listdir] after the metadata
    was loaded.  In both cases the error leaves [main], neither closing
    line is printed and nothing is written. *)
Theorem main_input_of_wrong_kind st :
  (forall entries,
      disk st METADATA_CSV = Some (Dir entries) -> disk st AUDIO_BASE_PATH <> None ->
      main st
      = (Raised (IsADirectoryError METADATA_CSV),
         add_stdout MsgLoadingMetadata (constructed st)))
  /\ (forall md parsed,
         disk st METADATA_CSV = Some (File (Some md)) ->
         disk st AUDIO_BASE_PATH = Some (File parsed) ->
         exists st',
           main st = (Raised (NotADirectoryError AUDIO_BASE_PATH), st')
           /\ metadata_df st' = Some md
           /\ audio_paths_df st' = None
           /\ effects st' = effects st
           /\ stdout st' = stdout (banner st) ++ load_lines md ++ [MsgScanning]).
Proof.
  split.
  - intros entries Hm Ha. rewrite main_with_inputs by congruence.
    rewrite (create_final_dataset_unreadable_metadata _ _ (IsADirectoryError METADATA_CSV));
      [reflexivity | reflexivity |].
    unfold pd_read_csv, read_disk. unfold_monad. cbn [constructed disk metadata_csv_path].
    now rewrite Hm.
  - intros md parsed Hm Ha. rewrite main_with_inputs by congruence.
    destruct (load_metadata_full (constructed st) md Hm)
      as (s1 & Hload & Hmd1 & Ha1 & He1 & Ho1).
    destruct (silent_load_metadata _ _ _ Hload) as (_ & Hd1 & _ & Hb1).
    assert (Hfind : find_audio_files s1
                    = (Raised (NotADirectoryError AUDIO_BASE_PATH),
                       add_stdout MsgScanning s1)).
    { unfold find_audio_files, listdir. unfold_monad. run_state.
      rewrite Hb1, Hd1. cbn [constructed audio_base_path disk]. now rewrite Ha. }
    assert (Hens : ensure_loaded (constructed st)
                   = (Raised (NotADirectoryError AUDIO_BASE_PATH),
                      add_stdout MsgScanning s1)).
    { unfold ensure_loaded. unfold_monad. cbn [metadata_df constructed].
      rewrite Hload. cbv beta iota. rewrite Ha1. cbn [audio_paths_df constructed].
      now rewrite Hfind. }
    assert (Hcfd : create_final_dataset (Some OUTPUT_PATH) (constructed st)
                   = (Raised (NotADirectoryError AUDIO_BASE_PATH),
                      add_stdout MsgScanning s1)).
    { unfold create_final_dataset, merge_datasets.
      now rewrite (bind_raised _ _ _ _ _ (bind_raised _ _ _ _ _ Hens)). }
    rewrite Hcfd. eexists. split; [reflexivity|].
    cbn [add_stdout metadata_df audio_paths_df effects stdout].
    split; [exact Hmd1|]. split; [now rewrite Ha1|]. split; [now rewrite He1|].
    rewrite Ho1. cbn [constructed stdout]. now rewrite <- app_assoc.
Qed.

Lemma main_input_of_wrong_kind_witness :
  main (init "" "" (fun path => Some (Dir [])))
  = (Raised (IsADirectoryError METADATA_CSV),
     add_stdout MsgLoadingMetadata (constructed (init "" "" (fun path => Some (Dir [])))))
  /\ exists st',
       main (init "" "" (fun path => Some (File (Some demo_metadata))))
       = (Raised (NotADirectoryError AUDIO_BASE_PATH), st')
       /\ effects st' = [].
Proof.
  split.
  - apply (proj1 (main_input_of_wrong_kind (init "" "" (fun path => Some (Dir [])))) []);
      [reflexivity | discriminate].
  - destruct (proj2 (main_input_of_wrong_kind
                       (init "" "" (fun path => Some (File (Some demo_metadata)))))
                demo_metadata (Some demo_metadata) eq_refl eq_refl)
      as (st' & Hrun & _ & _ & Heff & _).
    exists st'. split; assumption.
Defined.
